(** * Users API: validation, access guard, record service and handlers

    A shallow embedding of the user-management slice of the service:

    - [src/validations/users.validation.js]  ([userIdSchema], [updateUserSchema])
    - [src/utils/format.js]                  ([formatValidationError])
    - [src/models/user.model.js]             (the [users] table)
    - [src/services/users.service.js]        ([getALLUsers], [getUserById],
                                              [updateUser], [deleteUser])
    - [src/middleware/auth.middleware.js]    ([authenticateToken], [requireRole])
    - [src/controllers/users.controller.js]  (the four handlers)
    - [src/routes/users.routes.js]           (the middleware chains)

    JavaScript values are a small inductive type with objects as finite maps;
    the schema library is modelled by combinators that are composed exactly as
    the source composes them; the store is a list of typed rows together with
    the log of the statements it received; asynchronous functions that can
    throw are state-passing functions returning [Ok] or [Throw]. *)

From Stdlib Require Import ZArith QArith String Ascii List Bool.
From stdpp Require Import base option list gmap strings fin_maps.

Local Open Scope string_scope.
Local Open Scope Z_scope.

(** ** JavaScript values *)

Module Js.

(** A JavaScript number: a double is NaN, an infinity, or a finite value,
    which is an exact rational (kept in lowest terms).  The sign of zero is
    not kept: nothing in this program distinguishes [-0] from [+0]
    ([===], [>] and [Number.isInteger] identify them). *)
Inductive jsnum : Type :=
| NaN
| Inf (negative : bool)
| Fin (q : Q).

#[warnings="-register-all"]
Inductive jsval : Type :=
| JUndefined
| JNull
| JBool (b : bool)
| JNum (x : jsnum)
| JStr (s : string)
| JDate (ms : Z)
| JArr (items : list jsval)
| JObj (fields : gmap string jsval).

Definition of_Z (z : Z) : jsval := JNum (Fin (inject_Z z)).

(** [ToBoolean]. *)
Definition truthy (v : jsval) : bool :=
  match v with
  | JUndefined | JNull => false
  | JBool b => b
  | JNum NaN => false
  | JNum (Inf _) => true
  | JNum (Fin q) => negb (Qeq_bool q 0)
  | JStr s => negb (String.eqb s "")
  | JDate _ | JArr _ | JObj _ => true
  end.

Definition num_eqb (x y : jsnum) : bool :=
  match x, y with
  | Fin p, Fin q => Qeq_bool p q
  | Inf a, Inf b => Bool.eqb a b
  | _, _ => false
  end.

(** [x === y] where one side is a primitive.  Two objects are equal only
    when they are the same reference; every comparison in this program has a
    string or a number on one side, so objects never compare equal here. *)
Definition strict_equals (x y : jsval) : bool :=
  match x, y with
  | JUndefined, JUndefined => true
  | JNull, JNull => true
  | JBool a, JBool b => Bool.eqb a b
  | JNum a, JNum b => num_eqb a b
  | JStr a, JStr b => String.eqb a b
  | _, _ => false
  end.

(** A thrown [Error]: only its [message] is ever inspected. *)
Record Error : Type := mkError { message : string }.

Inductive completion (A : Type) : Type :=
| Ok (a : A)
| Throw (e : Error).
Arguments Ok {A} a.
Arguments Throw {A} e.

(** Property read [v.k] for the keys this program reads on [req.user]
    ([id] and [role]): primitives and arrays have no such property, and
    reading a property of [undefined] or [null] throws. *)
Definition get (v : jsval) (k : string) : completion jsval :=
  match v with
  | JUndefined | JNull =>
      Throw (mkError "Cannot read properties of undefined")
  | JObj o => Ok (default JUndefined (o !! k))
  | _ => Ok JUndefined
  end.

(** *** Strings: code units are modelled by [ascii] (Latin-1). *)

Definition charCode (c : ascii) : N := N_of_ascii c.

Definition is_white_space (c : ascii) : bool :=
  let n := charCode c in
  (((9 <=? n) && (n <=? 13)) || (n =? 32) || (n =? 160))%N.

Fixpoint trim_start (l : list ascii) : list ascii :=
  match l with
  | c :: l' => if is_white_space c then trim_start l' else l
  | [] => []
  end.

Definition trim_chars (l : list ascii) : list ascii :=
  rev (trim_start (rev (trim_start l))).

(** [String.prototype.trim]. *)
Definition trim (s : string) : string :=
  string_of_list_ascii (trim_chars (list_ascii_of_string s)).

Definition lower_char (c : ascii) : ascii :=
  let n := charCode c in
  if (((65 <=? n) && (n <=? 90))
      || ((192 <=? n) && (n <=? 222) && negb (n =? 215)))%N
  then ascii_of_N (n + 32) else c.

(** [String.prototype.toLowerCase]. *)
Definition toLowerCase (s : string) : string :=
  string_of_list_ascii (map lower_char (list_ascii_of_string s)).

(** [Array.prototype.join] on an array of strings. *)
Fixpoint join (sep : string) (l : list string) : string :=
  match l with
  | [] => ""
  | [x] => x
  | x :: l' => x ++ sep ++ join sep l'
  end.

(** [Array.prototype.includes] with a string needle list ([SameValueZero]
    coincides with [===] when one side is a string). *)
Definition includes (l : list string) (v : jsval) : bool :=
  existsb (fun r => strict_equals (JStr r) v) l.

(** *** [Number(string)]: the StringToNumber grammar, rounded to binary64 *)

Definition digit (base : N) (c : ascii) : option N :=
  let n := charCode c in
  let v := (if (48 <=? n) && (n <=? 57) then Some (n - 48)
            else if (97 <=? n) && (n <=? 102) then Some (n - 87)
            else if (65 <=? n) && (n <=? 70) then Some (n - 55)
            else None)%N in
  match v with
  | Some d => if (d <? base)%N then Some d else None
  | None => None
  end.

(** The longest prefix of digits of the base, as its value and its length,
    with the rest of the input. *)
Fixpoint read_digits (base : N) (l : list ascii) (acc : N) (len : nat)
  : N * nat * list ascii :=
  match l with
  | c :: l' =>
      match digit base c with
      | Some d => read_digits base l' (acc * base + d)%N (S len)
      | None => (acc, len, l)
      end
  | [] => (acc, len, [])
  end.

(** [n / d] divided by [2 ^ k], as a fraction. *)
Definition scale (n d k : Z) : Z * Z :=
  if 0 <=? k then (n, d * 2 ^ k) else (n * 2 ^ (- k), d).

(** The double nearest to [n / d] for [0 < n] and [0 < d], ties to even:
    [e] is the binary exponent of the quotient, [p] the exponent of its last
    place (subnormal below [2 ^ -1022]), [m] the rounded significand. *)
Definition binary64 (n d : Z) : jsnum :=
  let e0 := Z.log2 n - Z.log2 d in
  let '(n0, d0) := scale n d e0 in
  let e := if d0 <=? n0 then e0 else e0 - 1 in
  let p := Z.max (e - 52) (-1074) in
  let '(n1, d1) := scale n d p in
  let q := n1 / d1 in
  let r := n1 mod d1 in
  let m := if 2 * r <? d1 then q
           else if d1 <? 2 * r then q + 1
           else if Z.even q then q else q + 1 in
  if m =? 0 then Fin 0
  else if 1024 <=? Z.log2 m + p then Inf false
  else Fin (Qred (if 0 <=? p then inject_Z (m * 2 ^ p)
                  else Qmake m (Z.to_pos (2 ^ (- p))))).

Definition negate (x : jsnum) : jsnum :=
  match x with
  | NaN => NaN
  | Inf b => Inf (negb b)
  | Fin q => Fin (Qred (- q))
  end.

(** The value [m * 10 ^ e10] as a double.  Outside the window below the
    result is decided without computing the power: with [len] digits,
    [m < 10 ^ len]. *)
Definition decimal_value (m : N) (len : nat) (e10 : Z) : jsnum :=
  if (m =? 0)%N then Fin 0
  else if 310 <? e10 then Inf false
  else if e10 + Z.of_nat len <? -330 then Fin 0
  else if 0 <=? e10 then binary64 (Z.of_N m * 10 ^ e10) 1
  else binary64 (Z.of_N m) (10 ^ (- e10)).

Definition exponent_part (l : list ascii) : option Z :=
  match l with
  | [] => Some 0
  | c :: l' =>
      if (charCode c =? 101)%N || (charCode c =? 69)%N then
        let '(neg, l'') :=
          match l' with
          | s :: r => if (charCode s =? 43)%N then (false, r)
                      else if (charCode s =? 45)%N then (true, r)
                      else (false, l')
          | [] => (false, l')
          end in
        match read_digits 10 l'' 0%N 0%nat with
        | (_, O, _) => None
        | (v, _, []) => Some (if neg then - Z.of_N v else Z.of_N v)
        | _ => None
        end
      else None
  end.

Definition unsigned_decimal (l : list ascii) : jsnum :=
  if String.eqb (string_of_list_ascii l) "Infinity" then Inf false else
  let '(ip, iplen, r1) := read_digits 10 l 0%N 0%nat in
  let '(m, fplen, r2) :=
    match r1 with
    | c :: r => if (charCode c =? 46)%N
                then let '(m, n, r') := read_digits 10 r ip 0%nat in (m, n, r')
                else (ip, 0%nat, r1)
    | [] => (ip, 0%nat, r1)
    end in
  match (iplen + fplen)%nat with
  | O => NaN
  | S _ =>
      match exponent_part r2 with
      | Some e => decimal_value m (iplen + fplen) (e - Z.of_nat fplen)
      | None => NaN
      end
  end.

Definition non_decimal (l : list ascii) : option jsnum :=
  match l with
  | z :: x :: r =>
      let base := (if (charCode x =? 120) || (charCode x =? 88) then 16
                   else if (charCode x =? 111) || (charCode x =? 79) then 8
                   else if (charCode x =? 98) || (charCode x =? 66) then 2
                   else 0)%N in
      if (charCode z =? 48)%N && negb (base =? 0)%N then
        match read_digits base r 0%N 0%nat with
        | (_, O, _) => Some NaN
        | (v, _, []) => Some (if (v =? 0)%N then Fin 0
                              else binary64 (Z.of_N v) 1)
        | _ => Some NaN
        end
      else None
  | _ => None
  end.

Definition StringToNumber (s : string) : jsnum :=
  match trim_chars (list_ascii_of_string s) with
  | [] => Fin 0
  | (c :: r) as l =>
      match non_decimal l with
      | Some x => x
      | None =>
          if (charCode c =? 43)%N then unsigned_decimal r
          else if (charCode c =? 45)%N then negate (unsigned_decimal r)
          else unsigned_decimal l
      end
  end.

(** [Number(v)].  Path parameters are strings (or missing); the
    [ToPrimitive] conversion of arrays and objects is not modelled and is
    given as [NaN]. *)
Definition Number (v : jsval) : jsnum :=
  match v with
  | JUndefined => NaN
  | JNull => Fin 0
  | JBool b => Fin (if b then 1 else 0)
  | JNum x => x
  | JStr s => StringToNumber s
  | JDate ms => Fin (inject_Z ms)
  | JArr _ | JObj _ => NaN
  end.

(** [Number.isInteger] and [Number.isSafeInteger] on a finite value. *)
Definition isInteger (q : Q) : bool := (Qden (Qred q) =? 1)%positive.

Definition Number_isInteger (x : jsnum) : bool :=
  match x with Fin q => isInteger q | _ => false end.

Definition MAX_SAFE_INTEGER : Z := 2 ^ 53 - 1.

Definition isSafeInteger (q : Q) : bool :=
  isInteger q && Qle_bool (inject_Z (- MAX_SAFE_INTEGER)) q
              && Qle_bool q (inject_Z MAX_SAFE_INTEGER).

End Js.

(** ** The schema library

    The combinators follow zod 4: a schema first checks the type of its
    input, then runs its checks in the order in which they were attached;
    a check is skipped once an issue that does not allow continuing has been
    raised; transformations such as [trim] are checks that overwrite the
    value.  Default messages come from the configured locale, which is a
    parameter of [safeParse]. *)

Module Zod.
Import Js.

Inductive issue_code : Type :=
| invalid_type (expected : string)
| too_small (origin : string) (minimum : Z) (inclusive : bool)
| too_big (origin : string) (maximum : Z) (inclusive : bool)
| invalid_format (format : string)
| invalid_value (values : list string)
| custom.

(** An issue as raised during parsing. *)
Record raw_issue : Type := mkRaw {
  raw_code : issue_code;
  raw_path : list string;
  raw_message : option string;
  continue : bool
}.

(** An issue as exposed in [error.issues]. *)
Record issue : Type := mkIssue {
  code : issue_code;
  path : list string;
  message : string
}.

Record ZodError : Type := mkZodError { issues : list issue }.

Inductive parsed (A : Type) : Type :=
| Parsed (value : A) (raised : list raw_issue)
| Mistyped (raised : list raw_issue).
Arguments Parsed {A} value raised.
Arguments Mistyped {A} raised.

Definition raised_of {A} (p : parsed A) : list raw_issue :=
  match p with Parsed _ r => r | Mistyped r => r end.

Definition schema (A : Type) : Type := jsval -> parsed A.

(** A check returns the (possibly overwritten) value and the new issues. *)
Definition check (A : Type) : Type := A -> A * list raw_issue.

Definition aborted (r : list raw_issue) : bool :=
  existsb (fun i => negb (continue i)) r.

Definition add_check {A} (c : check A) (s : schema A) : schema A :=
  fun input =>
    match s input with
    | Parsed v r =>
        if aborted r then Parsed v r
        else let '(v', r') := c v in Parsed v' (r ++ r')
    | Mistyped r => Mistyped r
    end.

Definition raise (c : issue_code) (msg : option string) (cont : bool)
  : list raw_issue :=
  [mkRaw c [] msg cont].

Definition overwrite {A} (tx : A -> A) : check A := fun v => (tx v, []).

Definition test {A} (ok : A -> bool) (c : issue_code) (msg : option string)
    (cont : bool) : check A :=
  fun v => (v, if ok v then [] else raise c msg cont).

(** *** Strings *)

Definition string : schema String.string :=
  fun input =>
    match input with
    | JStr s => Parsed s []
    | _ => Mistyped (raise (invalid_type "string") None false)
    end.

Definition min (n : Z) : schema String.string -> schema String.string :=
  add_check (test (fun s => n <=? Z.of_nat (String.length s))
                  (too_small "string" n true) None true).

Definition max (n : Z) : schema String.string -> schema String.string :=
  add_check (test (fun s => Z.of_nat (String.length s) <=? n)
                  (too_big "string" n true) None true).

Definition trim : schema String.string -> schema String.string :=
  add_check (overwrite Js.trim).

Definition toLowerCase : schema String.string -> schema String.string :=
  add_check (overwrite Js.toLowerCase).

(** The e-mail pattern of the library.  A match is: a local part, one [@],
    a domain.  The whole string does not start with a dot and has no two
    consecutive dots.  The local part is made of letters, digits and the
    characters [_ ' + - .], is not empty, and does not end with ['] or a dot.
    The domain is one or more labels (a letter or digit, then letters, digits
    and hyphens), each followed by a dot, then a top-level name of two or
    more letters. *)
Definition is_letter (c : ascii) : bool :=
  let n := charCode c in
  (((65 <=? n) && (n <=? 90)) || ((97 <=? n) && (n <=? 122)))%N.

Definition is_alnum (c : ascii) : bool :=
  let n := charCode c in is_letter c || ((48 <=? n) && (n <=? 57))%N.

Definition is_char (n : N) (c : ascii) : bool := (charCode c =? n)%N.

(** [[A-Za-z0-9_+-]] and [[A-Za-z0-9_'+\-\.]] *)
Definition local_last (c : ascii) : bool :=
  is_alnum c || is_char 95 c || is_char 43 c || is_char 45 c.

Definition local_char (c : ascii) : bool :=
  local_last c || is_char 39 c || is_char 46 c.

(** Split at every occurrence of a code unit. *)
Fixpoint split_on (n : N) (l : list ascii) : list (list ascii) :=
  match l with
  | [] => [[]]
  | c :: l' =>
      match split_on n l' with
      | w :: ws => if is_char n c then [] :: w :: ws else (c :: w) :: ws
      | [] => [[c]]
      end
  end.

Definition domain_label (w : list ascii) : bool :=
  match w with
  | c :: w' => is_alnum c && forallb (fun d => is_alnum d || is_char 45 d) w'
  | [] => false
  end.

Definition top_level (w : list ascii) : bool :=
  (2 <=? length w)%nat && forallb is_letter w.

Definition domain_ok (d : list ascii) : bool :=
  match rev (split_on 46 d) with
  | tld :: (_ :: _) as labels => top_level tld && forallb domain_label labels
  | _ => false
  end.

Definition local_ok (w : list ascii) : bool :=
  match rev w with
  | c :: w' => local_last c && forallb local_char w'
  | [] => false
  end.

Fixpoint has_double_dot (l : list ascii) : bool :=
  match l with
  | c :: ((d :: _) as l') =>
      (is_char 46 c && is_char 46 d) || has_double_dot l'
  | _ => false
  end.

Definition email_pattern (s : String.string) : bool :=
  let l := list_ascii_of_string s in
  negb (match l with c :: _ => is_char 46 c | [] => false end)
  && negb (has_double_dot l)
  && match split_on 64 l with
     | [w; d] => local_ok w && domain_ok d
     | _ => false
     end.

Definition email : schema String.string -> schema String.string :=
  add_check (test email_pattern (invalid_format "email") None true).

(** *** Numbers *)

Module coerce.
(** [z.coerce.number()]: [Number(input)], which must be a finite number. *)
Definition number : schema Q :=
  fun input =>
    match Number input with
    | Fin q => Parsed q []
    | _ => Mistyped (raise (invalid_type "number") None false)
    end.
End coerce.

(** [.int()]: an integer, within the safe range. *)
Definition int : schema Q -> schema Q :=
  add_check (fun q =>
    (q, if negb (isInteger q) then raise (invalid_type "int") None false
        else if isSafeInteger q then []
        else if Qle_bool 0 q
             then raise (too_big "int" MAX_SAFE_INTEGER true) None true
             else raise (too_small "int" (- MAX_SAFE_INTEGER) true) None true)).

(** [.positive(message)]: strictly greater than zero. *)
Definition positive (msg : String.string) : schema Q -> schema Q :=
  add_check (test (fun q => negb (Qle_bool q 0))
                  (too_small "number" 0 false) (Some msg) true).

(** *** Enumerations, optional values, objects, refinements *)

Definition enum (values : list String.string) : schema String.string :=
  fun input =>
    match input with
    | JStr s =>
        if existsb (String.eqb s) values then Parsed s []
        else Mistyped (raise (invalid_value values) None false)
    | _ => Mistyped (raise (invalid_value values) None false)
    end.

Definition optional {A} (s : schema A) : schema (option A) :=
  fun input =>
    match input with
    | JUndefined => Parsed None []
    | _ =>
        match s input with
        | Parsed v r => Parsed (Some v) r
        | Mistyped r => Mistyped r
        end
    end.

Definition prefix (key : String.string) (i : raw_issue) : raw_issue :=
  mkRaw (raw_code i) (key :: raw_path i) (raw_message i) (continue i).

(** The field [key] of the input object, parsed by [s]; a missing key reads
    as [undefined]. *)
Definition field {A} (key : String.string) (s : schema A)
    (o : gmap String.string jsval) : parsed A :=
  match s (default JUndefined (o !! key)) with
  | Parsed v r => Parsed v (map (prefix key) r)
  | Mistyped r => Mistyped (map (prefix key) r)
  end.

(** Fields are parsed one after the other and their issues accumulate. *)
Definition pure {A} (a : A) : parsed A := Parsed a [].

Definition ap {A B} (pf : parsed (A -> B)) (pa : parsed A) : parsed B :=
  match pf, pa with
  | Parsed f r1, Parsed a r2 => Parsed (f a) (r1 ++ r2)
  | _, _ => Mistyped (raised_of pf ++ raised_of pa)
  end.

(** [z.object(shape)]: only the keys of the shape are read, so unknown keys
    of the input are stripped. *)
Definition object {A} (shape : gmap String.string jsval -> parsed A)
  : schema A :=
  fun input =>
    match input with
    | JObj o => shape o
    | _ => Mistyped (raise (invalid_type "object") None false)
    end.

Definition refine {A} (fn : A -> bool) (msg : String.string)
  : schema A -> schema A :=
  add_check (test fn custom (Some msg) true).

(** *** Running a schema *)

(** An issue raised without a message gets the message the locale has for
    its code. *)
Definition finalize (locale : issue_code -> String.string) (i : raw_issue)
  : issue :=
  mkIssue (raw_code i) (raw_path i) (default (locale (raw_code i)) (raw_message i)).

Inductive SafeParseResult (A : Type) : Type :=
| Success (data : A)
| Failure (error : ZodError).
Arguments Success {A} data.
Arguments Failure {A} error.

Definition safeParse {A} (locale : issue_code -> String.string)
    (s : schema A) (input : jsval) : SafeParseResult A :=
  match s input with
  | Parsed v [] => Success v
  | p => Failure (mkZodError (map (finalize locale) (raised_of p)))
  end.

End Zod.

Declare Scope chain_scope.
Notation "s '.>' f" := (f s) (at level 45, left associativity, only parsing)
  : chain_scope.
Local Open Scope chain_scope.

(** ** [src/validations/users.validation.js] *)

Module Validation.
Import Js Zod.

Record IdParams : Type := mkIdParams { id : Q }.

Record UserUpdates : Type := mkUserUpdates {
  name : option String.string;
  email : option String.string;
  role : option String.string
}.

Definition userIdSchema : schema IdParams :=
  object (fun o =>
    ap (pure mkIdParams)
       (field "id"
          (coerce.number .> int .> positive "User ID must be a positive integer")
          o)).

(** [Object.values(data)] *)
Definition Object_values (data : UserUpdates) : list (option String.string) :=
  [name data; email data; role data].

Definition updateUserSchema : schema UserUpdates :=
  object (fun o =>
    ap (ap (ap (pure mkUserUpdates)
       (field "name" (Zod.string .> min 2 .> max 255 .> trim .> optional) o))
       (field "email"
          (Zod.string .> Zod.email .> max 255 .> toLowerCase .> trim .> optional) o))
       (field "role" (enum ["user"; "admin"] .> optional) o))
  .> refine
       (fun data =>
          (* At least one field must be provided for update *)
          existsb (fun value => bool_decide (value <> None)) (Object_values data))
       "At least one field must be provided for update".

End Validation.

(** ** [src/utils/format.js] *)

Module Format.
Import Js.

(** [errors] is a [ZodError] or missing; the issues of a [ZodError] form an
    array, so the [JSON.stringify] branch of the source is never taken. *)
Definition formatValidationError (errors : option Zod.ZodError) : string :=
  match errors with
  | None => "Validation failed"
  | Some e =>
      let messages := map (fun i => Zod.message i) (Zod.issues e) in
      "Invalid input: " ++ join ", " messages
  end.

End Format.

(** ** [src/models/user.model.js] *)

Module Model.

(** The values of an [integer] column; a [serial] column is one. *)
Definition int4 (z : Z) : bool := (-2147483648 <=? z) && (z <=? 2147483647).

(** A row of the [users] table. *)
Record User : Type := mkUser {
  id : Z;                 (* serial, primary key *)
  name : string;          (* varchar(255), not null *)
  email : string;         (* varchar(255), not null, unique *)
  password : string;      (* varchar(255), not null *)
  role : string;          (* varchar(50), not null, default "user" *)
  created_at : Z;         (* timestamp, as milliseconds *)
  updated_at : Z;
  id_int4 : Is_true (int4 id)   (* the column holds no other value *)
}.

Module users.
Inductive Column : Type :=
| id | name | email | password | role | created_at | updated_at.
End users.

(** The JavaScript value the driver returns for a column of a row. *)
Definition read (c : users.Column) (u : User) : Js.jsval :=
  match c with
  | users.id => Js.of_Z (id u)
  | users.name => Js.JStr (name u)
  | users.email => Js.JStr (email u)
  | users.password => Js.JStr (password u)
  | users.role => Js.JStr (role u)
  | users.created_at => Js.JDate (created_at u)
  | users.updated_at => Js.JDate (updated_at u)
  end.

End Model.

(** ** The store and the clock

    The database is the list of rows of [users] together with the statements
    it has received.  No query of the source has an [order by]: the order of
    the list stands for the order in which the store returns the rows, and a
    row that is updated keeps its place in the list.

    The store refuses a statement in three cases: the parameter compared
    with the column [id] is not an integer of the column's range; a written
    text holds the character of code 0; a written [email] breaks the unique
    constraint.  A refused statement changes no row.  The errors of the
    store are stand-ins for the driver's: the handlers only tell the message
    "User not found" from every other one.  When both a text and the unique
    constraint refuse a write, the error is the one of the constraint. *)

Module Db.
Import Js.

(** [{...updates, updated_at: new Date()}] *)
Record UpdateData : Type := mkUpdateData {
  name : option string;
  email : option string;
  role : option string;
  updated_at : Z
}.

Inductive Statement : Type :=
| Select (where_id : option Q)
| Update (set : UpdateData) (where_id : Q)
| Delete (where_id : Q).

Record World : Type := mkWorld {
  rows : list Model.User;
  statements : list Statement;
  now : Z
}.

(** A computation that reads and writes the world and may throw. *)
Definition M (A : Type) : Type := World -> completion A * World.

Definition ret {A} (a : A) : M A := fun w => (Ok a, w).

Definition bind {A B} (m : M A) (f : A -> M B) : M B := fun w =>
  match m w with
  | (Ok a, w') => f a w'
  | (Throw e, w') => (Throw e, w')
  end.

Definition throw {A} (e : Error) : M A := fun w => (Throw e, w).

Definition lift {A} (c : completion A) : M A := fun w => (c, w).

(** [try { body } catch (e) { handler(e) }] *)
Definition try_catch {A} (body : M A) (handler : Error -> M A) : M A :=
  fun w =>
    match body w with
    | (Ok a, w') => (Ok a, w')
    | (Throw e, w') => handler e w'
    end.

(** [new Date()] *)
Definition new_Date : M Z := fun w => (Ok (now w), w).

(** A projection [{ key: column, ... }] as given to [select] and
    [returning]. *)
Definition Projection : Type := list (string * Model.users.Column).

Definition project (p : Projection) (u : Model.User) : jsval :=
  JObj (list_to_map (map (fun '(k, c) => (k, Model.read c u)) p)).

(** [eq(users.id, id)] *)
Definition eq_id (id : Q) (u : Model.User) : bool :=
  Qeq_bool (inject_Z (Model.id u)) id.

(** The parameter of [eq(users.id, id)] is read as a value of the column:
    an integer of its range. *)
Definition integer_param (id : Q) : bool :=
  isInteger id && Qle_bool (-2147483648) id && Qle_bool id 2147483647.

Definition out_of_range : Error :=
  mkError "value is out of range for type integer".

(** [db.select(p).from(users)] *)
Definition select_from_users (p : Projection) : M (list jsval) :=
  fun w => (Ok (map (project p) (rows w)),
            mkWorld (rows w) (statements w ++ [Select None]) (now w)).

(** [db.select(p).from(users).where(eq(users.id, id)).limit(n)] *)
Definition select_from_users_where_id (p : Projection) (id : Q) (n : nat)
  : M (list jsval) :=
  fun w =>
    let w' := mkWorld (rows w) (statements w ++ [Select (Some id)]) (now w) in
    if integer_param id then
      (Ok (take n (map (project p) (filter (fun u => eq_id id u = true) (rows w)))),
       w')
    else (Throw out_of_range, w').

(** [.set(data)]: every column for which [data] has a value is written. *)
Definition assign (data : UpdateData) (u : Model.User) : Model.User :=
  Model.mkUser (Model.id u)
    (default (Model.name u) (name data))
    (default (Model.email u) (email data))
    (Model.password u)
    (default (Model.role u) (role data))
    (Model.created_at u)
    (updated_at data)
    (Model.id_int4 u).

Definition unique_email (l : list Model.User) : bool :=
  bool_decide (NoDup (map Model.email l)).

Definition unique_violation : Error :=
  mkError "duplicate key value violates unique constraint".

(** A text the store can hold: one without the character of code 0. *)
Definition text_ok (s : string) : bool :=
  forallb (fun c => negb (charCode c =? 0)%N) (list_ascii_of_string s).

Definition storable (data : UpdateData) : bool :=
  from_option text_ok true (name data)
  && from_option text_ok true (email data)
  && from_option text_ok true (role data).

Definition invalid_byte_sequence : Error :=
  mkError "invalid byte sequence for encoding UTF8: 0x00".

(** [db.update(users).set(data).where(eq(users.id, id)).returning(p)] *)
Definition update_users (data : UpdateData) (id : Q) (p : Projection)
  : M (list jsval) :=
  fun w =>
    let w' := mkWorld (rows w) (statements w ++ [Update data id]) (now w) in
    let rows' := map (fun u => if eq_id id u then assign data u else u) (rows w) in
    if integer_param id then
      if match email data with Some _ => unique_email rows' | None => true end then
        if storable data then
          (Ok (map (project p) (filter (fun u => eq_id id u = true) rows')),
           mkWorld rows' (statements w') (now w))
        else (Throw invalid_byte_sequence, w')
      else (Throw unique_violation, w')
    else (Throw out_of_range, w').

(** [db.delete(users).where(eq(users.id, id)).returning(p)] *)
Definition delete_users (id : Q) (p : Projection) : M (list jsval) :=
  fun w =>
    if integer_param id then
      (Ok (map (project p) (filter (fun u => eq_id id u = true) (rows w))),
       mkWorld (filter (fun u => eq_id id u = false) (rows w))
               (statements w ++ [Delete id]) (now w))
    else
      (Throw out_of_range,
       mkWorld (rows w) (statements w ++ [Delete id]) (now w)).

End Db.

Declare Scope js_scope.
Notation "x <- m ;; k" := (Db.bind m (fun x => k))
  (at level 100, m at next level, right associativity) : js_scope.
Local Open Scope js_scope.

(** ** [src/services/users.service.js] *)

Module Service.
Import Js Db.

Definition public_columns : Projection :=
  [("id", Model.users.id); ("email", Model.users.email);
   ("name", Model.users.name); ("role", Model.users.role);
   ("created_at", Model.users.created_at);
   ("updated_at", Model.users.updated_at)].

(** [rows[0]] *)
Definition first (l : list jsval) : jsval := default JUndefined (head l).

(** Each function logs and rethrows what it catches; logging has no effect
    on the world modelled here. *)
Definition rethrow {A} (body : M A) : M A := try_catch body throw.

Definition getALLUsers : M (list jsval) :=
  rethrow (select_from_users public_columns).

Definition getUserById (id : Q) : M jsval :=
  rethrow (
    user <- select_from_users_where_id public_columns id 1;;
    if (length user =? 0)%nat then throw (mkError "User not found")
    else ret (first user)).

Definition updateUser (id : Q) (updates : Validation.UserUpdates) : M jsval :=
  rethrow (
    (* First check if user exists *)
    _ <- getUserById id;;
    (* Add updated_at timestamp *)
    date <- new_Date;;
    let updateData :=
      mkUpdateData (Validation.name updates) (Validation.email updates)
                   (Validation.role updates) date in
    updatedUser <- update_users updateData id public_columns;;
    ret (first updatedUser)).

Definition deleteUser (id : Q) : M jsval :=
  rethrow (
    (* First check if user exists *)
    _ <- getUserById id;;
    deletedUser <- delete_users id
      [("id", Model.users.id); ("email", Model.users.email);
       ("name", Model.users.name); ("role", Model.users.role)];;
    ret (first deletedUser)).

End Service.

(** ** Requests and replies *)

Module Http.
Import Js.

Record Request : Type := mkRequest {
  cookies : option (gmap string jsval);
  params : gmap string string;
  body : jsval;
  user : jsval
}.

(** What a middleware or handler does with a request: it sends a JSON
    reply, hands the request on with [next()], or reports an error with
    [next(e)]. *)
Inductive Outcome : Type :=
| Reply (status : Z) (json : jsval)
| Next (req : Request)
| NextError (e : Error).

Definition obj (l : list (string * jsval)) : jsval := JObj (list_to_map l).

(** [res.status(code).json(body)] and [res.json(body)] *)
Definition status_json (code : Z) (l : list (string * jsval)) : Outcome :=
  Reply code (obj l).

Definition json (l : list (string * jsval)) : Outcome := Reply 200 (obj l).

End Http.

(** ** [src/middleware/auth.middleware.js] *)

Module Auth.
Import Js Http.

Section Middleware.

(** [jwttoken.verify] of [src/utils/jwt.js]: returns the decoded claim or
    throws. *)
Variable verify : jsval -> completion jsval.

Definition authenticateToken (req : Request) : Outcome :=
  (* req.cookies?.token *)
  let token := match cookies req with
               | Some c => default JUndefined (c !! "token")
               | None => JUndefined
               end in
  if negb (truthy token) then
    status_json 401 [("error", JStr "Access denied");
                     ("message", JStr "No token provided")]
  else
    match verify token with
    | Ok decoded =>
        Next (mkRequest (cookies req) (params req) (body req) decoded)
    | Throw error =>
        status_json 401 [("error", JStr "Access denied");
                         ("message", JStr "Invalid token")]
    end.

Definition requireRole (roles : list string) (req : Request) : Outcome :=
  if negb (truthy (user req)) then
    status_json 401 [("error", JStr "Access denied");
                     ("message", JStr "Authentication required")]
  else
    match get (user req) "role" with
    | Ok role =>
        if negb (length roles =? 0)%nat && negb (includes roles role) then
          status_json 403 [("error", JStr "Forbidden");
                           ("message", JStr "Insufficient permissions")]
        else Next req
    | Throw e => NextError e
    end.

End Middleware.
End Auth.

(** ** [src/controllers/users.controller.js] *)

Module Controller.
Import Js Db Http.

Section Handlers.

(** The locale configured for the schema library. *)
Variable locale : Zod.issue_code -> string.

Definition safeParseAsync {A} (s : Zod.schema A) (input : jsval)
  : Zod.SafeParseResult A :=
  Zod.safeParse locale s input.

(** [req.params]: the path parameters are strings. *)
Definition params_object (req : Request) : jsval :=
  JObj (JStr <$> params req).

Definition validation_failed (error : Zod.ZodError) : Outcome :=
  status_json 400
    [("error", JStr "Validation failed");
     ("details", JStr (Format.formatValidationError (Some error)))].

(** The handler is done once it has replied or called [next(e)]. *)
Definition send (o : Outcome) : M Outcome := ret o.

(** The [catch] block shared by the three by-id handlers. *)
Definition not_found_or_next (e : Error) : M Outcome :=
  if String.eqb (Js.message e) "User not found" then
    send (status_json 404
            [("error", JStr "User not found");
             ("message", JStr "The requested user does not exist")])
  else send (NextError e).

(** [a && b], where [b] is only evaluated when [a] holds. *)
Definition and_then (a : bool) (b : M bool) : M bool :=
  if a then b else ret false.

(** [req.user.id !== id] and [req.user.role !== 'admin'] *)
Definition not_self (req : Request) (id : Q) : M bool :=
  uid <- lift (get (user req) "id");;
  ret (negb (strict_equals uid (JNum (Fin id)))).

Definition not_admin (req : Request) : M bool :=
  r <- lift (get (user req) "role");;
  ret (negb (strict_equals r (JStr "admin"))).

Definition fetchAllUsers (req : Request) : M Outcome :=
  try_catch (
    allUsers <- Service.getALLUsers;;
    send (json [("message", JStr "Successful retrieved users");
                ("users", JArr allUsers);
                ("count", of_Z (Z.of_nat (length allUsers)))]))
  (fun e => send (NextError e)).

Definition fetchUserById (req : Request) : M Outcome :=
  try_catch (
    match safeParseAsync Validation.userIdSchema (params_object req) with
    | Zod.Failure error => send (validation_failed error)
    | Zod.Success data =>
        let id := Validation.id data in
        user <- Service.getUserById id;;
        send (json [("message", JStr "User retrieved successfully");
                    ("user", user)])
    end)
  not_found_or_next.

Definition updateUserById (req : Request) : M Outcome :=
  try_catch (
    (* Validate user ID from params *)
    match safeParseAsync Validation.userIdSchema (params_object req) with
    | Zod.Failure error => send (validation_failed error)
    | Zod.Success idData =>
    (* Validate update data from body *)
    match safeParseAsync Validation.updateUserSchema (body req) with
    | Zod.Failure error => send (validation_failed error)
    | Zod.Success updates =>
        let id := Validation.id idData in
        (* Authorization: users can only update their own information *)
        other <- not_self req id;;
        denied <- and_then other (not_admin req);;
        if denied then
          send (status_json 403
                  [("error", JStr "Forbidden");
                   ("message", JStr "You can only update your own information")])
        else
        (* Only admin users can change role *)
        denied <- and_then
                   (truthy (from_option JStr JUndefined (Validation.role updates)))
                   (not_admin req);;
        if denied then
          send (status_json 403
                  [("error", JStr "Forbidden");
                   ("message", JStr "Only admin users can change user roles")])
        else
        updatedUser <- Service.updateUser id updates;;
        send (json [("message", JStr "User updated successfully");
                    ("user", updatedUser)])
    end end)
  not_found_or_next.

Definition deleteUserById (req : Request) : M Outcome :=
  try_catch (
    match safeParseAsync Validation.userIdSchema (params_object req) with
    | Zod.Failure error => send (validation_failed error)
    | Zod.Success data =>
        let id := Validation.id data in
        (* Authorization: users can only delete their own account or admin
           can delete any *)
        other <- not_self req id;;
        denied <- and_then other (not_admin req);;
        if denied then
          send (status_json 403
                  [("error", JStr "Forbidden");
                   ("message", JStr "You can only delete your own account")])
        else
        deletedUser <- Service.deleteUser id;;
        send (json [("message", JStr "User deleted successfully");
                    ("user", deletedUser)])
    end)
  not_found_or_next.

End Handlers.
End Controller.

(** ** [src/routes/users.routes.js] *)

Module Routes.
Import Js Db Http.

Definition Handler : Type := Request -> M Outcome.

(** A route runs its handlers in order; each one replies, reports an error,
    or calls [next()], which passes the request to the following one. *)
Fixpoint dispatch (chain : list Handler) (req : Request) : M Outcome :=
  match chain with
  | [] => ret (Next req)
  | h :: rest =>
      o <- h req;;
      match o with
      | Next req' => dispatch rest req'
      | _ => ret o
      end
  end.

(** A middleware that does not touch the store. *)
Definition middleware (f : Request -> Outcome) : Handler :=
  fun req => ret (f req).

Section Router.

Variable verify : jsval -> completion jsval.
Variable locale : Zod.issue_code -> string.

(** Get all users - requires authentication and admin role *)
Definition get_users : list Handler :=
  [middleware (Auth.authenticateToken verify);
   middleware (Auth.requireRole ["admin"]);
   Controller.fetchAllUsers].

(** Get user by ID - requires authentication *)
Definition get_user_by_id : list Handler :=
  [middleware (Auth.authenticateToken verify);
   Controller.fetchUserById locale].

(** Update user by ID - requires authentication *)
Definition put_user_by_id : list Handler :=
  [middleware (Auth.authenticateToken verify);
   Controller.updateUserById locale].

(** Delete user by ID - requires authentication *)
Definition delete_user_by_id : list Handler :=
  [middleware (Auth.authenticateToken verify);
   Controller.deleteUserById locale].

End Router.
End Routes.

(** ** Sample data for the examples *)

Module Sample.
Import Js Db Http.

(** A locale with short messages. *)
Definition en (c : Zod.issue_code) : string :=
  match c with
  | Zod.invalid_type expected => "Invalid input: expected " ++ expected
  | Zod.too_small _ _ _ => "Too small"
  | Zod.too_big _ _ _ => "Too big"
  | Zod.invalid_format "email" => "Invalid email address"
  | Zod.invalid_format format => "Invalid " ++ format
  | Zod.invalid_value _ => "Invalid option"
  | Zod.custom => "Invalid input"
  end.

Definition claim (id : Z) (role : string) : jsval :=
  obj [("id", of_Z id); ("email", JStr "someone@example.com");
       ("role", JStr role)].

(** A verifier that knows three tokens. *)
Definition verify (token : jsval) : completion jsval :=
  match token with
  | JStr "token-of-admin-1" => Ok (claim 1 "admin")
  | JStr "token-of-user-5" => Ok (claim 5 "user")
  | JStr "token-of-user-7" => Ok (claim 7 "user")
  | _ => Throw (mkError "Failed to authenticate token")
  end.

Definition alice : Model.User :=
  Model.mkUser 1 "Alice" "alice@example.com" "$2b$10$hashA" "admin" 1000 1000 I.
Definition bob : Model.User :=
  Model.mkUser 5 "Bob" "bob@example.com" "$2b$10$hashB" "user" 2000 2000 I.
Definition carol : Model.User :=
  Model.mkUser 7 "Carol" "carol@example.com" "$2b$10$hashC" "user" 3000 3000 I.

Definition world : World := mkWorld [alice; bob; carol] [] 5000.

Definition request (token : option string) (id : string) (body : jsval)
  : Request :=
  mkRequest
    (Some (from_option (fun t => {[ "token" := JStr t ]}) ∅ token))
    {[ "id" := id ]} body JUndefined.

End Sample.

(** ** Vocabulary of the statements *)

Module Spec.
Import Js.

(** What [userIdSchema] answers, by cases on the coerced [id]. *)
Definition id_verdict (x : jsnum) : option Q :=
  match x with
  | Fin q => if isSafeInteger q && negb (Qle_bool q 0) then Some q else None
  | _ => None
  end.

(** The number is zero or negative. *)
Definition at_most_zero (x : jsnum) : Prop :=
  match x with
  | Fin q => (q <= 0)%Q
  | Inf negative => negative = true
  | NaN => False
  end.

(** What the three fields of [updateUserSchema] accept, and the value they
    yield: [None] is a rejection, [Some None] an absent field. *)
Definition accepted_name (v : jsval) : option (option string) :=
  match v with
  | JUndefined => Some None
  | JStr s =>
      if (2 <=? Z.of_nat (String.length s)) && (Z.of_nat (String.length s) <=? 255)
      then Some (Some (trim s)) else None
  | _ => None
  end.

Definition accepted_email (v : jsval) : option (option string) :=
  match v with
  | JUndefined => Some None
  | JStr s =>
      if Zod.email_pattern s && (Z.of_nat (String.length s) <=? 255)
      then Some (Some (trim (toLowerCase s))) else None
  | _ => None
  end.

Definition accepted_role (v : jsval) : option (option string) :=
  match v with
  | JUndefined => Some None
  | JStr s =>
      if String.eqb s "user" || String.eqb s "admin" then Some (Some s) else None
  | _ => None
  end.

(** The identity attached to a request: [req.user.id] and [req.user.role]. *)
Definition claim_id (claim : gmap string jsval) : jsval :=
  default JUndefined (claim !! "id").

Definition claim_role (claim : gmap string jsval) : jsval :=
  default JUndefined (claim !! "role").

(** [req.cookies?.token] *)
Definition token_cookie (req : Http.Request) : jsval :=
  match Http.cookies req with
  | Some c => default JUndefined (c !! "token")
  | None => JUndefined
  end.

(** A reply body that has an array among its fields. *)
Definition carries_a_list (body : jsval) : Prop :=
  exists o k items, body = JObj o /\ o !! k = Some (JArr items).

(** The two bodies of an error reply. *)
Definition error_details (error details : string) : jsval :=
  Http.obj [("error", JStr error); ("details", JStr details)].

Definition error_message (error message : string) : jsval :=
  Http.obj [("error", JStr error); ("message", JStr message)].

(** The rows selected by [eq(users.id, id)]. *)
Definition matching (id : Q) (l : list Model.User) : list Model.User :=
  filter (fun u => Db.eq_id id u = true) l.

(** No row of the table has the identifier. *)
Definition no_row (id : Q) (w : Db.World) : Prop :=
  forall u, u ∈ Db.rows w -> ~ (inject_Z (Model.id u) == id)%Q.

(** A returned record has no [password] field. *)
Definition lacks_password (v : jsval) : Prop :=
  exists o, v = JObj o /\ o !! "password" = None.

(** A returned record has exactly the given fields. *)
Definition has_fields (keys : list string) (v : jsval) : Prop :=
  exists o, v = JObj o /\ dom o = (list_to_set keys : gset string).

(** [body.key] for a JSON body: [undefined] when the body is not an object
    or has no such key. *)
Definition body_field (body : jsval) (key : string) : jsval :=
  match body with
  | JObj o => default JUndefined (o !! key)
  | _ => JUndefined
  end.

(** What an update may change in a row with the target identifier. *)
Definition updated_by (updates : Validation.UserUpdates) (time : Z)
    (u u' : Model.User) : Prop :=
  Model.updated_at u' = time
  /\ Model.name u' = default (Model.name u) (Validation.name updates)
  /\ Model.email u' = default (Model.email u) (Validation.email updates)
  /\ Model.role u' = default (Model.role u) (Validation.role updates).

(** The characters that may occur in an address matching the e-mail
    pattern. *)
Definition address_char (c : ascii) : bool :=
  Zod.local_char c || Zod.is_char 64 c.

End Spec.

(** ** Vocabulary of the further properties *)

From Stdlib Require DecimalString DecimalN DecimalPos.

Module Facts.
Import Js.

(** The request with another value for [req.user]. *)
Definition with_user (req : Http.Request) (u : jsval) : Http.Request :=
  Http.mkRequest (Http.cookies req) (Http.params req) (Http.body req) u.

(** The four routes of the router. *)
Definition routes (verify : jsval -> completion jsval)
    (locale : Zod.issue_code -> string) : list (list Routes.Handler) :=
  [Routes.get_users verify; Routes.get_user_by_id verify locale;
   Routes.put_user_by_id verify locale; Routes.delete_user_by_id verify locale].

(** The request was answered 200. *)
Definition succeeded (out : completion Http.Outcome) : Prop :=
  exists body, out = Ok (Http.Reply 200 body).

(** The statement only reads. *)
Definition is_select (s : Db.Statement) : Prop :=
  exists where_id, s = Db.Select where_id.

(** The keys of the table are unique: the primary key [id] and the unique
    column [email]. *)
Definition keys_unique (l : list Model.User) : Prop :=
  NoDup (map Model.id l) /\ NoDup (map Model.email l).

(** The table after [set data where id]. *)
Definition written (data : Db.UpdateData) (id : Q) (l : list Model.User)
  : list Model.User :=
  map (fun u => if Db.eq_id id u then Db.assign data u else u) l.

(** [{...updates, updated_at: time}] *)
Definition update_data (updates : Validation.UserUpdates) (time : Z)
  : Db.UpdateData :=
  Db.mkUpdateData (Validation.name updates) (Validation.email updates)
                  (Validation.role updates) time.

(** A row as the update schema leaves it: a role of the enumeration, a
    lower-case address that matches the e-mail pattern, a trimmed name, and
    both within 255 characters. *)
Definition normalised (u : Model.User) : Prop :=
  (Model.role u = "user" \/ Model.role u = "admin")
  /\ Zod.email_pattern (Model.email u) = true
  /\ toLowerCase (Model.email u) = Model.email u
  /\ (String.length (Model.email u) <= 255)%nat
  /\ trim (Model.name u) = Model.name u
  /\ (String.length (Model.name u) <= 255)%nat.

(** The decimal numeral of a natural number, as a client writes it in a
    path. *)
Definition numeral (n : N) : string :=
  DecimalString.NilZero.string_of_uint (N.to_uint n).

(** The characters of a decimal number. *)
Definition digits (d : Decimal.uint) : list ascii :=
  list_ascii_of_string (DecimalString.NilEmpty.string_of_uint d).

Definition is_digit (c : ascii) : bool :=
  ((48 <=? charCode c) && (charCode c <=? 57))%N.

(** The digits of a decimal number read from the left, [acc] being the
    value read so far. *)
Fixpoint horner (d : Decimal.uint) (acc : N) : N :=
  match d with
  | Decimal.Nil => acc
  | Decimal.D0 d => horner d (acc * 10)
  | Decimal.D1 d => horner d (acc * 10 + 1)
  | Decimal.D2 d => horner d (acc * 10 + 2)
  | Decimal.D3 d => horner d (acc * 10 + 3)
  | Decimal.D4 d => horner d (acc * 10 + 4)
  | Decimal.D5 d => horner d (acc * 10 + 5)
  | Decimal.D6 d => horner d (acc * 10 + 6)
  | Decimal.D7 d => horner d (acc * 10 + 7)
  | Decimal.D8 d => horner d (acc * 10 + 8)
  | Decimal.D9 d => horner d (acc * 10 + 9)
  end%N.

End Facts.

(** * Properties *)

Import Js Db Http.

(** ** Basic facts about values *)

Lemma strict_equals_string (v : jsval) (s : string) :
  strict_equals v (JStr s) = true <-> v = JStr s.
Proof.
  destruct v; simpl; try (split; [discriminate | congruence]).
  rewrite String.eqb_eq. split; congruence.
Qed.

Lemma not_strict_equals_string (v : jsval) (s : string) :
  v <> JStr s -> strict_equals v (JStr s) = false.
Proof.
  intros H. destruct (strict_equals v (JStr s)) eqn:E; [|reflexivity].
  apply strict_equals_string in E. contradiction.
Qed.

Lemma includes_spec (roles : list string) (v : jsval) :
  includes roles v = true <-> exists r, r ∈ roles /\ v = JStr r.
Proof.
  unfold includes. rewrite existsb_exists. split.
  - intros (r & Hin & Heq). exists r. split; [by apply list_elem_of_In|].
    destruct v; simpl in Heq; try discriminate.
    apply String.eqb_eq in Heq. congruence.
  - intros (r & Hin & ->). exists r. split; [by apply list_elem_of_In|].
    simpl. apply String.eqb_refl.
Qed.

(** ** The identifier schema *)

Lemma userIdSchema_verdict locale (o : gmap string jsval) :
  match Spec.id_verdict (Number (default JUndefined (o !! "id"))) with
  | Some q =>
      Zod.safeParse locale Validation.userIdSchema (JObj o)
      = Zod.Success (Validation.mkIdParams q)
  | None =>
      exists i r,
        Zod.safeParse locale Validation.userIdSchema (JObj o)
        = Zod.Failure (Zod.mkZodError (i :: r))
        /\ Zod.path i = ["id"]
  end.
Proof.
  unfold Zod.safeParse, Validation.userIdSchema, Zod.object, Zod.field,
    Zod.positive, Zod.int, Zod.coerce.number, Zod.add_check, Zod.test,
    Spec.id_verdict.
  destruct (Number _) as [| b | q]; simpl; eauto.
  unfold isSafeInteger.
  destruct (isInteger q); simpl; eauto.
  destruct (Qle_bool (inject_Z (- MAX_SAFE_INTEGER)) q); simpl;
    destruct (Qle_bool q (inject_Z MAX_SAFE_INTEGER)); simpl;
    destruct (Qle_bool q 0); simpl; eauto;
    destruct (Qle_bool 0 q); simpl; eauto.
Qed.

(** ** Inversion of the schema combinators *)

Section Combinators.
Context {A B : Type}.

Lemma safeParse_success locale (s : Zod.schema A) input v :
  Zod.safeParse locale s input = Zod.Success v <-> s input = Zod.Parsed v [].
Proof.
  unfold Zod.safeParse. destruct (s input) as [v' [|i r]|r]; split; intros H;
    inversion H; subst; reflexivity.
Qed.

Lemma add_check_clean (c : Zod.check A) (s : Zod.schema A) input v :
  Zod.add_check c s input = Zod.Parsed v []
  <-> exists v0, s input = Zod.Parsed v0 [] /\ c v0 = (v, []).
Proof.
  unfold Zod.add_check. destruct (s input) as [v' r|r].
  - destruct (Zod.aborted r) eqn:Hab.
    + split.
      * intros H. inversion H; subst. discriminate.
      * intros (v0 & H & _). inversion H; subst. discriminate.
    + destruct (c v') as [v'' r'] eqn:Hc. split.
      * intros H. inversion H; subst.
        apply app_eq_nil in H2 as [-> ->]. eauto.
      * intros (v0 & H & Hc'). inversion H; subst.
        rewrite Hc in Hc'. by inversion Hc'; subst.
  - split; [discriminate | intros (v0 & H & _); discriminate].
Qed.

Lemma test_clean (ok : A -> bool) c msg cont v0 v :
  Zod.test ok c msg cont v0 = (v, []) <-> v = v0 /\ ok v0 = true.
Proof.
  unfold Zod.test. destruct (ok v0); split.
  - intros H; by inversion H.
  - by intros [-> _].
  - intros H; inversion H.
  - intros [_ H]; discriminate.
Qed.

Lemma overwrite_clean (tx : A -> A) v0 v :
  Zod.overwrite tx v0 = (v, []) <-> v = tx v0.
Proof. unfold Zod.overwrite. split; [intros H; by inversion H | by intros ->]. Qed.

Lemma optional_clean (s : Zod.schema A) input v :
  Zod.optional s input = Zod.Parsed v []
  <-> (input = JUndefined /\ v = None)
      \/ (input <> JUndefined /\ exists a, v = Some a /\ s input = Zod.Parsed a []).
Proof.
  unfold Zod.optional.
  destruct input; try (destruct (s _) as [a r|r]; split;
    [ intros H; inversion H; subst; right; split; [discriminate | eauto]
    | intros [[H _] | (_ & a' & -> & H)]; [discriminate | by inversion H]
    | discriminate
    | intros [[H _] | (_ & a' & -> & H)]; discriminate ]).
  split; [intros H; inversion H; by left | intros [[_ ->] | [H _]]; [done | congruence]].
Qed.

Lemma field_clean key (s : Zod.schema A) (o : gmap string jsval) v :
  Zod.field key s o = Zod.Parsed v []
  <-> s (default JUndefined (o !! key)) = Zod.Parsed v [].
Proof.
  unfold Zod.field. destruct (s _) as [a r|r]; split; intros H;
    inversion H; subst; try reflexivity.
  by destruct r.
Qed.

Lemma ap_clean (pf : Zod.parsed (A -> B)) (pa : Zod.parsed A) v :
  Zod.ap pf pa = Zod.Parsed v []
  <-> exists f a, pf = Zod.Parsed f [] /\ pa = Zod.Parsed a [] /\ v = f a.
Proof.
  unfold Zod.ap. destruct pf as [f r1|r1], pa as [a r2|r2]; split;
    try discriminate; try (intros (f' & a' & H1 & H2 & _); discriminate).
  - intros H. inversion H; subst. apply app_eq_nil in H2 as [-> ->]. eauto.
  - intros (f' & a' & H1 & H2 & ->). by inversion H1; inversion H2; subst.
Qed.

End Combinators.

(** ** The update schema *)

Lemma name_field_clean (v : jsval) (x : option string) :
  (Zod.string .> Zod.min 2 .> Zod.max 255 .> Zod.trim .> Zod.optional) v
  = Zod.Parsed x [] <-> Spec.accepted_name v = Some x.
Proof.
  rewrite optional_clean. unfold Zod.trim, Zod.max, Zod.min.
  setoid_rewrite add_check_clean. setoid_rewrite add_check_clean.
  setoid_rewrite add_check_clean.
  setoid_rewrite overwrite_clean. setoid_rewrite test_clean.
  unfold Spec.accepted_name, Zod.string. split.
  - intros [[-> ->] | (Hne & a & -> & v2 & (v1 & (v0 & H0 & -> & Hmin) & -> & Hmax) & ->)];
      [done|].
    destruct v; try discriminate. inversion H0; subst. by rewrite Hmin, Hmax.
  - destruct v; try discriminate.
    + intros H; inversion H; by left.
    + destruct (2 <=? _) eqn:Hmin; [|discriminate].
      destruct (_ <=? 255) eqn:Hmax; [|discriminate].
      intros H; inversion H; subst. right. split; [discriminate|].
      eexists; split; [reflexivity|]. eauto 10.
Qed.

Lemma email_field_clean (v : jsval) (x : option string) :
  (Zod.string .> Zod.email .> Zod.max 255 .> Zod.toLowerCase .> Zod.trim
     .> Zod.optional) v
  = Zod.Parsed x [] <-> Spec.accepted_email v = Some x.
Proof.
  rewrite optional_clean. unfold Zod.trim, Zod.toLowerCase, Zod.max, Zod.email.
  do 4 setoid_rewrite add_check_clean.
  setoid_rewrite overwrite_clean. setoid_rewrite test_clean.
  unfold Spec.accepted_email, Zod.string. split.
  - intros [[-> ->] | (Hne & a & -> & v3 & (v2 & (v1 & (v0 & H0 & -> & He) & -> & Hmax) & ->) & ->)];
      [done|].
    destruct v; try discriminate. inversion H0; subst. by rewrite He, Hmax.
  - destruct v; try discriminate.
    + intros H; inversion H; by left.
    + destruct (Zod.email_pattern s) eqn:He; [|discriminate].
      destruct (_ <=? 255) eqn:Hmax; [|discriminate].
      intros H; inversion H; subst. right. split; [discriminate|].
      eexists; split; [reflexivity|]. eauto 12.
Qed.

Lemma role_field_clean (v : jsval) (x : option string) :
  (Zod.enum ["user"; "admin"] .> Zod.optional) v = Zod.Parsed x []
  <-> Spec.accepted_role v = Some x.
Proof.
  rewrite optional_clean. unfold Spec.accepted_role, Zod.enum. simpl.
  split.
  - intros [[-> ->] | (Hne & a & -> & H)]; [done|].
    destruct v; try discriminate. rewrite orb_false_r in H.
    destruct (_ || _); by inversion H.
  - destruct v; try discriminate.
    + intros H; inversion H; by left.
    + intros H. right. split; [discriminate|]. rewrite orb_false_r.
      destruct (_ || _); inversion H; subst. eauto.
Qed.

(** The update schema succeeds exactly when the input is an object whose
    three fields are accepted and not all absent; no other key is read. *)
Lemma updateUserSchema_success locale (input : jsval) (u : Validation.UserUpdates) :
  Zod.safeParse locale Validation.updateUserSchema input = Zod.Success u
  <-> exists o, input = JObj o
      /\ Spec.accepted_name (default JUndefined (o !! "name")) = Some (Validation.name u)
      /\ Spec.accepted_email (default JUndefined (o !! "email")) = Some (Validation.email u)
      /\ Spec.accepted_role (default JUndefined (o !! "role")) = Some (Validation.role u)
      /\ (Validation.name u <> None \/ Validation.email u <> None
          \/ Validation.role u <> None).
Proof.
  rewrite safeParse_success. unfold Validation.updateUserSchema, Zod.refine.
  rewrite add_check_clean. setoid_rewrite test_clean.
  unfold Zod.object. split.
  - intros (v0 & H & -> & Hsome). destruct input; try discriminate.
    exists fields. split; [reflexivity|].
    apply ap_clean in H as (f3 & r & H & Hr & ->).
    apply ap_clean in H as (f2 & e & H & He & ->).
    apply ap_clean in H as (f1 & n & H & Hn & ->).
    inversion H; subst. simpl.
    apply field_clean, name_field_clean in Hn.
    apply field_clean, email_field_clean in He.
    apply field_clean, role_field_clean in Hr.
    repeat split; try assumption.
    simpl in Hsome. destruct n, e, r; simpl in Hsome; try discriminate;
      intuition congruence.
  - intros (o & -> & Hn & He & Hr & Hsome). exists u. split.
    + apply ap_clean. eexists _, _. split; [|split].
      * apply ap_clean. eexists _, _. split; [|split].
        -- apply ap_clean. eexists _, _. split; [reflexivity|]. split.
           ++ by apply field_clean, name_field_clean.
           ++ reflexivity.
        -- by apply field_clean, email_field_clean.
        -- reflexivity.
      * by apply field_clean, role_field_clean.
      * by destruct u.
    + split; [reflexivity|]. simpl.
      destruct u as [[n|] [e|] [r|]]; simpl in *; try reflexivity.
      intuition congruence.
Qed.


(** *** An accepted address has no white space, so trimming it is void *)

Lemma split_on_covers (n : N) (l : list ascii) (c : ascii) :
  c ∈ l -> Zod.is_char n c = true \/ exists p, p ∈ Zod.split_on n l /\ c ∈ p.
Proof.
  induction l as [|a l IH]; [by intros H%elem_of_nil|].
  intros [Heq|Hin]%elem_of_cons; [subst a|]; simpl.
  - destruct (Zod.split_on n l) as [|w ws]; [right; exists [c]|].
    + split; by left.
    + destruct (Zod.is_char n c) eqn:E; [by left|].
      right. exists (c :: w). split; by left.
  - destruct (IH Hin) as [?|(p & Hp & Hc)]; [by left|]. right.
    destruct (Zod.split_on n l) as [|w ws]; [by apply elem_of_nil in Hp|].
    destruct (Zod.is_char n a).
    + exists p. split; [by right|done].
    + apply elem_of_cons in Hp as [->|Hp].
      * exists (a :: w). split; [by left|by right].
      * exists p. split; [by right|done].
Qed.

Lemma address_char_not_white_space (c : ascii) :
  Spec.address_char c = true -> is_white_space c = false.
Proof.
  destruct c as [[] [] [] [] [] [] [] []]; vm_compute; congruence.
Qed.

Lemma white_space_lower_char (c : ascii) :
  is_white_space (lower_char c) = is_white_space c.
Proof. destruct c as [[] [] [] [] [] [] [] []]; reflexivity. Qed.

Lemma forallb_elem {A} (f : A -> bool) (l : list A) (x : A) :
  forallb f l = true -> x ∈ l -> f x = true.
Proof.
  intros H Hin. apply list_elem_of_In in Hin.
  rewrite forallb_forall in H. by apply H.
Qed.

Lemma email_pattern_address_chars (s : string) (c : ascii) :
  Zod.email_pattern s = true -> c ∈ list_ascii_of_string s -> Spec.address_char c = true.
Proof.
  unfold Zod.email_pattern. intros H Hc.
  apply andb_prop in H as [_ H].
  destruct (split_on_covers 64 _ _ Hc) as [E|(p & Hp & Hcp)].
  { unfold Spec.address_char. by rewrite E, orb_true_r. }
  destruct (Zod.split_on 64 (list_ascii_of_string s)) as [|w [|d [|? ?]]];
    try discriminate.
  apply andb_prop in H as [Hw Hd].
  assert (Zod.local_char c = true) as Hlocal; [|unfold Spec.address_char; by rewrite Hlocal].
  apply elem_of_cons in Hp as [->|Hp].
  - unfold Zod.local_ok in Hw.
    apply list_elem_of_In, in_rev in Hcp.
    destruct (rev w) as [|a w']; [discriminate|].
    apply andb_prop in Hw as [Ha Hw'].
    destruct Hcp as [->|Hin].
    + unfold Zod.local_char. by rewrite Ha.
    + rewrite forallb_forall in Hw'. by apply Hw'.
  - apply list_elem_of_singleton in Hp as ->.
    destruct (split_on_covers 46 _ _ Hcp) as [E|(q & Hq & Hcq)].
    { unfold Zod.local_char. by rewrite E, orb_true_r. }
    unfold Zod.domain_ok in Hd.
    apply list_elem_of_In, in_rev in Hq.
    destruct (rev (Zod.split_on 46 d)) as [|tld [|lab labs]]; try discriminate.
    apply andb_prop in Hd as [Htld Hlabs].
    destruct Hq as [->|Hq].
    + unfold Zod.top_level in Htld. apply andb_prop in Htld as [_ Htld].
      pose proof (forallb_elem _ _ _ Htld Hcq) as Hl. cbv beta in Hl.
      unfold Zod.local_char, Zod.local_last, Zod.is_alnum. by rewrite Hl.
    + rewrite forallb_forall in Hlabs. specialize (Hlabs q Hq).
      unfold Zod.domain_label in Hlabs. destruct q as [|a q']; [discriminate|].
      apply andb_prop in Hlabs as [Ha Hq'].
      apply elem_of_cons in Hcq as [->|Hcq].
      * unfold Zod.local_char, Zod.local_last. by rewrite Ha.
      * pose proof (forallb_elem _ _ _ Hq' Hcq) as Hl.
        unfold Zod.local_char, Zod.local_last. cbv beta in Hl.
        destruct (Zod.is_alnum c); [reflexivity|]. simpl in Hl.
        rewrite Hl. by rewrite !orb_true_r.
Qed.

Lemma trim_start_id (l : list ascii) :
  (forall c, c ∈ l -> is_white_space c = false) -> trim_start l = l.
Proof.
  destruct l as [|a l]; [reflexivity|]. intros H. simpl.
  by rewrite (H a (list_elem_of_here _ _)).
Qed.

Lemma trim_chars_id (l : list ascii) :
  (forall c, c ∈ l -> is_white_space c = false) -> trim_chars l = l.
Proof.
  intros H. unfold trim_chars. rewrite (trim_start_id l H).
  rewrite trim_start_id; [apply rev_involutive|].
  intros c Hc. apply H. apply list_elem_of_In. apply list_elem_of_In in Hc.
  by apply in_rev.
Qed.

(** Every accepted address is free of white space, before and after
    lower-casing: the [trim] at the end of the e-mail chain changes
    nothing, and an address with white space around it never passes. *)
Lemma accepted_email_needs_no_trim (s : string) :
  Zod.email_pattern s = true ->
  Js.trim s = s /\ Js.trim (Js.toLowerCase s) = Js.toLowerCase s.
Proof.
  intros H. unfold Js.trim, Js.toLowerCase.
  rewrite list_ascii_of_string_of_list_ascii.
  rewrite !trim_chars_id.
  - split; [apply string_of_list_ascii_of_string | reflexivity].
  - intros c Hc. apply list_elem_of_fmap in Hc as (a & -> & Ha).
    rewrite white_space_lower_char.
    by eapply address_char_not_white_space, email_pattern_address_chars.
  - intros c Hc. by eapply address_char_not_white_space, email_pattern_address_chars.
Qed.

(** An address that trimming would change is never accepted by the update
    schema. *)
Lemma padded_email_never_accepted locale (o : gmap string jsval) (s : string)
    (u : Validation.UserUpdates) :
  o !! "email" = Some (JStr s) -> Js.trim s <> s ->
  Zod.safeParse locale Validation.updateUserSchema (JObj o) <> Zod.Success u.
Proof.
  intros Hs Hpad Hok.
  apply updateUserSchema_success in Hok as (o' & Ho & _ & He & _).
  injection Ho as <-. rewrite Hs in He. simpl in He.
  destruct (Zod.email_pattern s) eqn:E; [|discriminate].
  by destruct (accepted_email_needs_no_trim s E).
Qed.

(** ** Examples: the coercion of path parameters *)

Example Number_of_digits : StringToNumber "42" = Fin 42.
Proof. reflexivity. Qed.

Example Number_of_padded_digits : StringToNumber "  42 " = Fin 42.
Proof. reflexivity. Qed.

Example Number_of_empty : StringToNumber "" = Fin 0.
Proof. reflexivity. Qed.

Example Number_of_letters : StringToNumber "abc" = NaN.
Proof. reflexivity. Qed.

Example Number_of_hexadecimal : StringToNumber "0x1F" = Fin 31.
Proof. reflexivity. Qed.

Example Number_of_fraction : StringToNumber "1.5" = Fin (3 # 2).
Proof. reflexivity. Qed.

Example Number_of_exponent : StringToNumber "1e3" = Fin 1000.
Proof. reflexivity. Qed.

Example Number_rounds_to_even :
  StringToNumber "9007199254740993" = Fin 9007199254740992.
Proof. vm_compute. reflexivity. Qed.

Example Number_overflows : StringToNumber "1e400" = Inf false.
Proof. vm_compute. reflexivity. Qed.

Example Number_underflows : StringToNumber "-1e-400" = Fin 0.
Proof. vm_compute. reflexivity. Qed.

Example userIdSchema_accepts_7 :
  Zod.safeParse Sample.en Validation.userIdSchema (obj [("id", JStr "7")])
  = Zod.Success (Validation.mkIdParams 7).
Proof. vm_compute. reflexivity. Qed.

Example userIdSchema_rejects_zero :
  Zod.safeParse Sample.en Validation.userIdSchema (obj [("id", JStr "0")])
  = Zod.Failure (Zod.mkZodError
      [Zod.mkIssue (Zod.too_small "number" 0 false) ["id"]
         "User ID must be a positive integer"]).
Proof. vm_compute. reflexivity. Qed.

Example updateUserSchema_trims_name :
  Zod.safeParse Sample.en Validation.updateUserSchema
    (obj [("name", JStr "  Ann "); ("isAdmin", JBool true)])
  = Zod.Success (Validation.mkUserUpdates (Some "Ann") None None).
Proof. vm_compute. reflexivity. Qed.

(** ** Replies to invalid input *)

Section InvalidInput.
Variable locale : Zod.issue_code -> string.

Lemma fetchUserById_invalid req w error :
  Controller.safeParseAsync locale Validation.userIdSchema
    (Controller.params_object req) = Zod.Failure error ->
  Controller.fetchUserById locale req w
  = (Ok (Controller.validation_failed error), w).
Proof.
  intros H. unfold Controller.fetchUserById, try_catch. by rewrite H.
Qed.

Lemma deleteUserById_invalid req w error :
  Controller.safeParseAsync locale Validation.userIdSchema
    (Controller.params_object req) = Zod.Failure error ->
  Controller.deleteUserById locale req w
  = (Ok (Controller.validation_failed error), w).
Proof.
  intros H. unfold Controller.deleteUserById, try_catch. by rewrite H.
Qed.

Lemma updateUserById_invalid_id req w error :
  Controller.safeParseAsync locale Validation.userIdSchema
    (Controller.params_object req) = Zod.Failure error ->
  Controller.updateUserById locale req w
  = (Ok (Controller.validation_failed error), w).
Proof.
  intros H. unfold Controller.updateUserById, try_catch. by rewrite H.
Qed.

Lemma updateUserById_invalid_body req w idData error :
  Controller.safeParseAsync locale Validation.userIdSchema
    (Controller.params_object req) = Zod.Success idData ->
  Controller.safeParseAsync locale Validation.updateUserSchema (body req)
  = Zod.Failure error ->
  Controller.updateUserById locale req w
  = (Ok (Controller.validation_failed error), w).
Proof.
  intros H1 H2. unfold Controller.updateUserById, try_catch.
  by rewrite H1, H2.
Qed.

End InvalidInput.

(** C7: a path parameter that is not numeric, or whose number is at most
    zero or is not an integer, is rejected by the identifier schema with an
    issue on [id], and the three by-id handlers answer 400 without touching
    the store. *)
Theorem C7_identifier_rejected locale (s : string) (req : Request) :
  params req !! "id" = Some s ->
  StringToNumber s = NaN
  \/ Spec.at_most_zero (StringToNumber s)
  \/ Number_isInteger (StringToNumber s) = false ->
  exists error i r,
    Zod.issues error = i :: r /\ Zod.path i = ["id"] /\
    Zod.safeParse locale Validation.userIdSchema (Controller.params_object req)
    = Zod.Failure error /\
    forall w,
      Controller.fetchUserById locale req w
      = (Ok (Reply 400 (obj [("error", JStr "Validation failed");
                             ("details", JStr (Format.formatValidationError (Some error)))])), w)
      /\ Controller.updateUserById locale req w
      = (Ok (Reply 400 (obj [("error", JStr "Validation failed");
                             ("details", JStr (Format.formatValidationError (Some error)))])), w)
      /\ Controller.deleteUserById locale req w
      = (Ok (Reply 400 (obj [("error", JStr "Validation failed");
                             ("details", JStr (Format.formatValidationError (Some error)))])), w).
Proof.
  intros Hid Hbad.
  assert (Spec.id_verdict (StringToNumber s) = None) as Hnone.
  { unfold Spec.id_verdict, Spec.at_most_zero, Number_isInteger, isSafeInteger in *.
    destruct (StringToNumber s) as [| b | q]; try reflexivity.
    destruct Hbad as [Hbad | [Hbad | Hbad]]; [discriminate | |].
    - apply Qle_bool_iff in Hbad. by rewrite Hbad, andb_false_r.
    - by rewrite Hbad. }
  pose proof (userIdSchema_verdict locale (JStr <$> params req)) as V.
  rewrite lookup_fmap, Hid in V. simpl in V.
  rewrite Hnone in V. destruct V as (i & r & Hfail & Hpath).
  exists (Zod.mkZodError (i :: r)), i, r.
  repeat split; try assumption.
  - by apply fetchUserById_invalid.
  - by apply updateUserById_invalid_id.
  - by apply deleteUserById_invalid.
Qed.

Lemma C7_identifier_rejected_witness :
  exists error i r,
    Zod.issues error = i :: r /\ Zod.path i = ["id"] /\
    Zod.safeParse Sample.en Validation.userIdSchema
      (Controller.params_object (Sample.request (Some "token-of-user-5") "-3" JUndefined))
    = Zod.Failure error /\
    forall w,
      Controller.fetchUserById Sample.en (Sample.request (Some "token-of-user-5") "-3" JUndefined) w
      = (Ok (Reply 400 (obj [("error", JStr "Validation failed");
                             ("details", JStr (Format.formatValidationError (Some error)))])), w)
      /\ Controller.updateUserById Sample.en (Sample.request (Some "token-of-user-5") "-3" JUndefined) w
      = (Ok (Reply 400 (obj [("error", JStr "Validation failed");
                             ("details", JStr (Format.formatValidationError (Some error)))])), w)
      /\ Controller.deleteUserById Sample.en (Sample.request (Some "token-of-user-5") "-3" JUndefined) w
      = (Ok (Reply 400 (obj [("error", JStr "Validation failed");
                             ("details", JStr (Format.formatValidationError (Some error)))])), w).
Proof.
  apply (C7_identifier_rejected Sample.en "-3").
  - reflexivity.
  - right. left. vm_compute. discriminate.
Defined.

(** C8: an update payload in which [name], [email] and [role] are all absent
    is rejected with exactly one issue, "At least one field must be provided
    for update", whose path is empty: it is raised on the object as a whole,
    not on a field. *)
Theorem C8_nothing_to_update_rejected locale (o : gmap string jsval) :
  o !! "name" = None -> o !! "email" = None -> o !! "role" = None ->
  Zod.safeParse locale Validation.updateUserSchema (JObj o)
  = Zod.Failure (Zod.mkZodError
      [Zod.mkIssue Zod.custom [] "At least one field must be provided for update"]).
Proof.
  intros Hn He Hr.
  unfold Zod.safeParse, Validation.updateUserSchema, Zod.refine, Zod.add_check,
    Zod.object, Zod.field.
  rewrite Hn, He, Hr. reflexivity.
Qed.

Lemma C8_nothing_to_update_rejected_witness :
  Zod.safeParse Sample.en Validation.updateUserSchema (JObj ∅)
  = Zod.Failure (Zod.mkZodError
      [Zod.mkIssue Zod.custom [] "At least one field must be provided for update"])
  /\ Zod.safeParse Sample.en Validation.updateUserSchema
       (JObj {[ "password" := JStr "secret" ]})
  = Zod.Failure (Zod.mkZodError
      [Zod.mkIssue Zod.custom [] "At least one field must be provided for update"]).
Proof.
  split.
  - apply (C8_nothing_to_update_rejected Sample.en ∅); reflexivity.
  - apply (C8_nothing_to_update_rejected Sample.en {[ "password" := JStr "secret" ]});
      reflexivity.
Defined.


(** C5: the update schema rejects the address "  Foo@Bar.COM " with an
    "invalid e-mail" issue on [email], because the e-mail check runs on the
    text as received, before it is lower-cased and trimmed; the handler
    answers 400 and nothing is written.  Without the surrounding white space
    the address is accepted and lower-cased to "foo@bar.com". *)
Theorem C5_padded_email_rejected locale :
  Zod.safeParse locale Validation.updateUserSchema
    (obj [("email", JStr "  Foo@Bar.COM ")])
  = Zod.Failure (Zod.mkZodError
      [Zod.mkIssue (Zod.invalid_format "email") ["email"]
         (locale (Zod.invalid_format "email"))])
  /\ Controller.updateUserById locale
       (mkRequest None {[ "id" := "5" ]} (obj [("email", JStr "  Foo@Bar.COM ")])
          (Sample.claim 5 "user")) Sample.world
     = (Ok (Reply 400 (Spec.error_details "Validation failed"
              ("Invalid input: " ++ locale (Zod.invalid_format "email")))),
        Sample.world)
  /\ Zod.safeParse locale Validation.updateUserSchema
       (obj [("email", JStr "Foo@Bar.COM")])
     = Zod.Success (Validation.mkUserUpdates None (Some "foo@bar.com") None).
Proof.
  assert (Zod.safeParse locale Validation.updateUserSchema
            (obj [("email", JStr "  Foo@Bar.COM ")])
          = Zod.Failure (Zod.mkZodError
              [Zod.mkIssue (Zod.invalid_format "email") ["email"]
                 (locale (Zod.invalid_format "email"))])) as Hfail
    by (vm_compute; reflexivity).
  split; [exact Hfail|]. split; [|vm_compute; reflexivity].
  rewrite (updateUserById_invalid_body locale
             (mkRequest None {[ "id" := "5" ]} (obj [("email", JStr "  Foo@Bar.COM ")])
                (Sample.claim 5 "user"))
             Sample.world (Validation.mkIdParams 5)
             (Zod.mkZodError
                [Zod.mkIssue (Zod.invalid_format "email") ["email"]
                   (locale (Zod.invalid_format "email"))])).
  - reflexivity.
  - vm_compute. reflexivity.
  - exact Hfail.
Qed.
(** C6 (as amended): when the path parameters or the body fail validation,
    the handler answers 400 with exactly two fields: [error], the text
    "Validation failed", and [details], the text "Invalid input: " followed
    by the messages of the issues joined by ", ".  The store is not
    touched. *)
Theorem C6_validation_failure_reply locale (req : Request) (w : World)
    (error : Zod.ZodError) :
  let reply :=
    Reply 400 (Spec.error_details "Validation failed"
      ("Invalid input: " ++ join ", " (map Zod.message (Zod.issues error)))) in
  (Zod.safeParse locale Validation.userIdSchema (Controller.params_object req)
   = Zod.Failure error ->
   Controller.fetchUserById locale req w = (Ok reply, w)
   /\ Controller.updateUserById locale req w = (Ok reply, w)
   /\ Controller.deleteUserById locale req w = (Ok reply, w))
  /\ (forall idData,
      Zod.safeParse locale Validation.userIdSchema (Controller.params_object req)
      = Zod.Success idData ->
      Zod.safeParse locale Validation.updateUserSchema (body req)
      = Zod.Failure error ->
      Controller.updateUserById locale req w = (Ok reply, w)).
Proof.
  split.
  - intros H. repeat split.
    + by apply fetchUserById_invalid.
    + by apply updateUserById_invalid_id.
    + by apply deleteUserById_invalid.
  - intros idData H1 H2. by eapply updateUserById_invalid_body.
Qed.

Lemma C6_validation_failure_reply_witness :
  Controller.fetchUserById Sample.en
    (Sample.request (Some "token-of-user-5") "abc" JUndefined) Sample.world
  = (Ok (Reply 400 (Spec.error_details "Validation failed"
           "Invalid input: Invalid input: expected number")), Sample.world)
  /\ Controller.updateUserById Sample.en
       (Sample.request (Some "token-of-user-5") "5"
          (obj [("name", JStr "B"); ("role", JStr "root")])) Sample.world
  = (Ok (Reply 400 (Spec.error_details "Validation failed"
           "Invalid input: Too small, Invalid option")), Sample.world).
Proof.
  split.
  - refine (proj1 (proj1 (C6_validation_failure_reply Sample.en
      (Sample.request (Some "token-of-user-5") "abc" JUndefined) Sample.world
      (Zod.mkZodError [Zod.mkIssue (Zod.invalid_type "number") ["id"]
                         "Invalid input: expected number"])) _)).
    vm_compute. reflexivity.
  - refine (proj2 (C6_validation_failure_reply Sample.en
      (Sample.request (Some "token-of-user-5") "5"
         (obj [("name", JStr "B"); ("role", JStr "root")])) Sample.world
      (Zod.mkZodError [Zod.mkIssue (Zod.too_small "string" 2 true) ["name"] "Too small";
                       Zod.mkIssue (Zod.invalid_value ["user"; "admin"]) ["role"]
                         "Invalid option"])) (Validation.mkIdParams 5) _ _);
      vm_compute; reflexivity.
Defined.

(** C6, the claim as written fails: [GET /users/abc] is answered 400, the
    schema raised an issue on the field [id], and the body holds two strings
    and no list of issues. *)
Lemma C6_no_issue_list_in_body :
  exists body,
    Controller.fetchUserById Sample.en
      (Sample.request (Some "token-of-user-5") "abc" JUndefined) Sample.world
    = (Ok (Reply 400 body), Sample.world)
    /\ Zod.safeParse Sample.en Validation.userIdSchema
         (Controller.params_object
            (Sample.request (Some "token-of-user-5") "abc" JUndefined))
       = Zod.Failure (Zod.mkZodError
           [Zod.mkIssue (Zod.invalid_type "number") ["id"]
              "Invalid input: expected number"])
    /\ body = Spec.error_details "Validation failed"
                "Invalid input: Invalid input: expected number"
    /\ ~ Spec.carries_a_list body.
Proof.
  exists (Spec.error_details "Validation failed"
            "Invalid input: Invalid input: expected number").
  split; [vm_compute; reflexivity|].
  split; [vm_compute; reflexivity|].
  split; [reflexivity|].
  intros (o & k & items & Ho & Hk).
  unfold Spec.error_details, obj in Ho. injection Ho as <-.
  cbn [list_to_map foldr fst snd uncurry] in Hk.
  destruct (decide (k = "error")) as [->|];
    [rewrite lookup_insert_eq in Hk|rewrite lookup_insert_ne in Hk by done];
    [discriminate|].
  destruct (decide (k = "details")) as [->|];
    [rewrite lookup_insert_eq in Hk|rewrite lookup_insert_ne in Hk by done];
    [discriminate|].
  rewrite lookup_empty in Hk.
  discriminate.
Qed.

(** ** The access guard *)

Section Guard.
Variable verify : jsval -> completion jsval.
Variable req : Request.

Lemma authenticateToken_no_token :
  truthy (Spec.token_cookie req) = false ->
  Auth.authenticateToken verify req
  = Reply 401 (Spec.error_message "Access denied" "No token provided").
Proof. unfold Auth.authenticateToken, Spec.token_cookie. by intros ->. Qed.

Lemma authenticateToken_invalid e :
  truthy (Spec.token_cookie req) = true ->
  verify (Spec.token_cookie req) = Throw e ->
  Auth.authenticateToken verify req
  = Reply 401 (Spec.error_message "Access denied" "Invalid token").
Proof. unfold Auth.authenticateToken, Spec.token_cookie. by intros -> ->. Qed.

Lemma authenticateToken_verified decoded :
  truthy (Spec.token_cookie req) = true ->
  verify (Spec.token_cookie req) = Ok decoded ->
  Auth.authenticateToken verify req
  = Next (mkRequest (cookies req) (params req) (body req) decoded).
Proof. unfold Auth.authenticateToken, Spec.token_cookie. by intros -> ->. Qed.

Lemma requireRole_forbidden (roles : list string) (claim : gmap string jsval) :
  user req = JObj claim ->
  roles <> [] -> (forall r, r ∈ roles -> Spec.claim_role claim <> JStr r) ->
  Auth.requireRole roles req
  = Reply 403 (Spec.error_message "Forbidden" "Insufficient permissions").
Proof.
  intros Huser Hne Hnot. unfold Auth.requireRole. rewrite Huser.
  cbn [truthy negb get]. fold (Spec.claim_role claim).
  destruct roles as [|r0 roles']; [done|]. cbn [length Nat.eqb negb andb].
  destruct (includes (r0 :: roles') (Spec.claim_role claim)) eqn:E; [|reflexivity].
  apply includes_spec in E as (r & Hin & Heq). by destruct (Hnot r Hin).
Qed.

End Guard.

(** C2 (as amended): the authentication step reads the [token] cookie.  When
    the cookie is missing or its value is falsy (the empty string), the reply
    is 401 "Access denied" / "No token provided"; when it has a truthy value
    that fails verification, the reply is 401 "Access denied" /
    "Invalid token"; when verification succeeds, the decoded claim is
    attached to the request, which is passed on unchanged otherwise. *)
Theorem C2_authentication (verify : jsval -> completion jsval) (req : Request) :
  ((forall c, cookies req = Some c -> c !! "token" = None) ->
   Auth.authenticateToken verify req
   = Reply 401 (Spec.error_message "Access denied" "No token provided"))
  /\ (truthy (Spec.token_cookie req) = false ->
      Auth.authenticateToken verify req
      = Reply 401 (Spec.error_message "Access denied" "No token provided"))
  /\ (truthy (Spec.token_cookie req) = true ->
      forall e, verify (Spec.token_cookie req) = Throw e ->
      Auth.authenticateToken verify req
      = Reply 401 (Spec.error_message "Access denied" "Invalid token"))
  /\ (truthy (Spec.token_cookie req) = true ->
      forall decoded, verify (Spec.token_cookie req) = Ok decoded ->
      Auth.authenticateToken verify req
      = Next (mkRequest (cookies req) (params req) (body req) decoded)).
Proof.
  repeat split.
  - intros Habsent. apply authenticateToken_no_token.
    unfold Spec.token_cookie. destruct (cookies req) as [c|]; [|reflexivity].
    by rewrite (Habsent c eq_refl).
  - apply authenticateToken_no_token.
  - intros Htok e. by apply authenticateToken_invalid.
  - intros Htok decoded. by apply authenticateToken_verified.
Qed.

Lemma C2_authentication_witness :
  Auth.authenticateToken Sample.verify
    (Sample.request None "5" JUndefined)
  = Reply 401 (Spec.error_message "Access denied" "No token provided")
  /\ Auth.authenticateToken Sample.verify
       (Sample.request (Some "") "5" JUndefined)
  = Reply 401 (Spec.error_message "Access denied" "No token provided")
  /\ Auth.authenticateToken Sample.verify
       (Sample.request (Some "forged") "5" JUndefined)
  = Reply 401 (Spec.error_message "Access denied" "Invalid token")
  /\ Auth.authenticateToken Sample.verify
       (Sample.request (Some "token-of-user-5") "5" JUndefined)
  = Next (mkRequest (Some {[ "token" := JStr "token-of-user-5" ]})
                    {[ "id" := "5" ]} JUndefined (Sample.claim 5 "user")).
Proof.
  split; [|split; [|split]].
  - apply (proj1 (C2_authentication Sample.verify
                    (Sample.request None "5" JUndefined))).
    intros c Hc. injection Hc as <-. reflexivity.
  - apply (proj1 (proj2 (C2_authentication Sample.verify
                    (Sample.request (Some "") "5" JUndefined)))).
    reflexivity.
  - apply (proj1 (proj2 (proj2 (C2_authentication Sample.verify
                    (Sample.request (Some "forged") "5" JUndefined))))
             eq_refl (mkError "Failed to authenticate token")).
    reflexivity.
  - apply (proj2 (proj2 (proj2 (C2_authentication Sample.verify
                    (Sample.request (Some "token-of-user-5") "5" JUndefined))))
             eq_refl (Sample.claim 5 "user")).
    reflexivity.
Defined.

(** C2, the claim as written fails: the request carries a [token] cookie
    whose value is the empty string, verification of that value fails, and
    the reply is "No token provided", not "Invalid token". *)
Lemma C2_empty_token_cookie :
  cookies (Sample.request (Some "") "5" JUndefined)
  = Some {[ "token" := JStr "" ]}
  /\ ({[ "token" := JStr "" ]} : gmap string jsval) !! "token" = Some (JStr "")
  /\ Sample.verify (JStr "") = Throw (mkError "Failed to authenticate token")
  /\ Auth.authenticateToken Sample.verify (Sample.request (Some "") "5" JUndefined)
     = Reply 401 (Spec.error_message "Access denied" "No token provided")
  /\ Auth.authenticateToken Sample.verify (Sample.request (Some "") "5" JUndefined)
     <> Reply 401 (Spec.error_message "Access denied" "Invalid token").
Proof.
  repeat split; try reflexivity.
  intros H.
  apply (f_equal (fun o => match o with
                           | Reply _ (JObj m) => m !! "message"
                           | _ => None
                           end)) in H.
  vm_compute in H. discriminate.
Qed.

(** C3: for a request with an attached claim, the authorization step answers
    403 "Forbidden" / "Insufficient permissions" when the allowed set is not
    empty and the claim's role is not in it, and lets every role pass when
    the set is empty.  On [GET /users] every verified identity whose role is
    not [admin] is answered 403, and the store is not queried. *)
Theorem C3_authorization (roles : list string) (req : Request)
    (claim : gmap string jsval) :
  user req = JObj claim ->
  (roles <> [] -> (forall r, r ∈ roles -> Spec.claim_role claim <> JStr r) ->
   Auth.requireRole roles req
   = Reply 403 (Spec.error_message "Forbidden" "Insufficient permissions"))
  /\ Auth.requireRole [] req = Next req
  /\ (forall verify req0 w,
       truthy (Spec.token_cookie req0) = true ->
       verify (Spec.token_cookie req0) = Ok (JObj claim) ->
       Spec.claim_role claim <> JStr "admin" ->
       Routes.dispatch (Routes.get_users verify) req0 w
       = (Ok (Reply 403 (Spec.error_message "Forbidden" "Insufficient permissions")), w)).
Proof.
  intros Huser. split; [|split].
  - by apply requireRole_forbidden.
  - unfold Auth.requireRole. by rewrite Huser.
  - intros verify req0 w Htok Hver Hrole.
    unfold Routes.get_users, Routes.dispatch, Routes.middleware, bind, ret.
    rewrite (authenticateToken_verified verify req0 _ Htok Hver).
    rewrite (requireRole_forbidden _ ["admin"] claim); [reflexivity..| |]; try done.
    intros r Hr. apply list_elem_of_singleton in Hr. by subst.
Qed.

Lemma C3_authorization_witness :
  Auth.requireRole ["admin"; "auditor"]
    (mkRequest None ∅ JUndefined (Sample.claim 5 "user"))
  = Reply 403 (Spec.error_message "Forbidden" "Insufficient permissions")
  /\ Auth.requireRole []
       (mkRequest None ∅ JUndefined (Sample.claim 5 "user"))
  = Next (mkRequest None ∅ JUndefined (Sample.claim 5 "user"))
  /\ Routes.dispatch (Routes.get_users Sample.verify)
       (Sample.request (Some "token-of-user-5") "" JUndefined) Sample.world
  = (Ok (Reply 403 (Spec.error_message "Forbidden" "Insufficient permissions")),
     Sample.world).
Proof.
  pose proof (C3_authorization ["admin"; "auditor"]
    (mkRequest None ∅ JUndefined (Sample.claim 5 "user"))
    (list_to_map [("id", of_Z 5); ("email", JStr "someone@example.com");
                  ("role", JStr "user")]) eq_refl) as (H1 & _ & _).
  pose proof (C3_authorization []
    (mkRequest None ∅ JUndefined (Sample.claim 5 "user"))
    (list_to_map [("id", of_Z 5); ("email", JStr "someone@example.com");
                  ("role", JStr "user")]) eq_refl) as (_ & H2 & H3).
  split; [|split].
  - apply H1; [discriminate|].
    intros r Hr. vm_compute.
    apply elem_of_cons in Hr as [->|Hr]; [discriminate|].
    apply list_elem_of_singleton in Hr as ->. discriminate.
  - exact H2.
  - apply (H3 Sample.verify); [reflexivity | reflexivity |].
    vm_compute. discriminate.
Defined.

(** ** What the store accepts *)

Lemma Qred_inject_Z (z : Z) : Qred (inject_Z z) = inject_Z z.
Proof.
  unfold Qred, inject_Z.
  generalize (Z.ggcd_gcd z 1) (Z.ggcd_correct_divisors z 1).
  destruct (Z.ggcd z 1) as (g, (a, b)). simpl.
  rewrite Z.gcd_1_r. intros -> [Ha Hb].
  rewrite !Z.mul_1_l in *. by subst.
Qed.

Lemma isInteger_inject_Z (z : Z) : isInteger (inject_Z z) = true.
Proof. unfold isInteger. by rewrite Qred_inject_Z. Qed.

Lemma integer_param_spec (id : Q) :
  integer_param id = true
  <-> isInteger id = true /\ (-2147483648 <= id)%Q /\ (id <= 2147483647)%Q.
Proof.
  unfold integer_param. rewrite !andb_true_iff, !Qle_bool_iff. tauto.
Qed.

(** The identifier of a row is a value the store accepts as a parameter. *)
Lemma integer_param_row (id : Q) (u : Model.User) :
  eq_id id u = true -> integer_param id = true.
Proof.
  unfold eq_id. intros E. apply Qeq_bool_iff in E.
  pose proof (Model.id_int4 u) as Hr. unfold Model.int4 in Hr.
  apply Is_true_true, andb_true_iff in Hr as [Hlo Hhi].
  apply Z.leb_le in Hlo, Hhi.
  apply integer_param_spec. split; [|split].
  - unfold isInteger. rewrite <- (Qred_complete _ _ E). apply isInteger_inject_Z.
  - rewrite <- E. change (-2147483648)%Q with (inject_Z (-2147483648)).
    by rewrite <- Zle_Qle.
  - rewrite <- E. change 2147483647%Q with (inject_Z 2147483647).
    by rewrite <- Zle_Qle.
Qed.

Lemma integer_param_matching (id : Q) (l : list Model.User) u others :
  Spec.matching id l = u :: others -> integer_param id = true.
Proof.
  intros Hm. apply (integer_param_row id u).
  assert (u ∈ Spec.matching id l) as Hin by (rewrite Hm; left).
  unfold Spec.matching in Hin. by apply list_elem_of_filter in Hin as [? _].
Qed.


(** ** The record service, statement by statement *)

Section ServiceRuns.
Variables (id : Q) (w : World).

Let asked (s : list Statement) : World :=
  mkWorld (rows w) (statements w ++ s) (now w).

Lemma getALLUsers_run :
  Service.getALLUsers w
  = (Ok (map (project Service.public_columns) (rows w)), asked [Select None]).
Proof. reflexivity. Qed.

Lemma getUserById_run :
  Service.getUserById id w =
  if integer_param id then
    match Spec.matching id (rows w) with
    | [] => (Throw (mkError "User not found"), asked [Select (Some id)])
    | u :: _ => (Ok (project Service.public_columns u), asked [Select (Some id)])
    end
  else (Throw out_of_range, asked [Select (Some id)]).
Proof.
  unfold Service.getUserById, Service.rethrow, try_catch, bind,
    select_from_users_where_id, Spec.matching, asked.
  cbn beta iota zeta. destruct (integer_param id); [|reflexivity].
  destruct (filter _ (rows w)) as [|u l]; reflexivity.
Qed.

Lemma matching_assign data (l : list Model.User) :
  Spec.matching id (map (fun u => if eq_id id u then assign data u else u) l)
  = map (assign data) (Spec.matching id l).
Proof.
  unfold Spec.matching. induction l as [|u l IH]; [reflexivity|].
  cbn [map]. rewrite !filter_cons. destruct (eq_id id u) eqn:E.
  - rewrite decide_True by (unfold eq_id, assign in *; simpl; exact E).
    rewrite decide_True by reflexivity.
    cbn [map]. by rewrite IH.
  - rewrite decide_False by (rewrite E; discriminate).
    rewrite decide_False by discriminate. exact IH.
Qed.

Lemma updateUser_run (updates : Validation.UserUpdates) :
  Service.updateUser id updates w =
  let data := mkUpdateData (Validation.name updates) (Validation.email updates)
                           (Validation.role updates) (now w) in
  let rows' := map (fun u => if eq_id id u then assign data u else u) (rows w) in
  if integer_param id then
    match Spec.matching id (rows w) with
    | [] => (Throw (mkError "User not found"), asked [Select (Some id)])
    | u :: _ =>
        if match Validation.email updates with
           | Some _ => unique_email rows'
           | None => true
           end
        then
          if storable data
          then (Ok (project Service.public_columns (assign data u)),
                mkWorld rows' (statements w ++ [Select (Some id); Update data id])
                        (now w))
          else (Throw invalid_byte_sequence,
                asked [Select (Some id); Update data id])
        else (Throw unique_violation, asked [Select (Some id); Update data id])
    end
  else (Throw out_of_range, asked [Select (Some id)]).
Proof.
  unfold Service.updateUser, Service.rethrow. unfold try_catch at 1.
  unfold bind at 1. rewrite getUserById_run.
  destruct (integer_param id) eqn:Hid; [|reflexivity].
  destruct (Spec.matching id (rows w)) as [|u l] eqn:Hm; [reflexivity|].
  cbn zeta. unfold bind, new_Date, update_users, ret, asked.
  cbn [now rows statements email]. rewrite Hid.
  rewrite <- !app_assoc. cbn [app].
  destruct (match Validation.email updates with Some _ => _ | None => true end);
    [|reflexivity].
  destruct (storable _); [|reflexivity].
  fold (Spec.matching id (map (fun u0 => if eq_id id u0
          then assign (mkUpdateData (Validation.name updates) (Validation.email updates)
                         (Validation.role updates) (now w)) u0 else u0) (rows w))).
  rewrite matching_assign, Hm. reflexivity.
Qed.

Lemma deleteUser_run :
  Service.deleteUser id w =
  if integer_param id then
    match Spec.matching id (rows w) with
    | [] => (Throw (mkError "User not found"), asked [Select (Some id)])
    | u :: _ =>
        (Ok (project [("id", Model.users.id); ("email", Model.users.email);
                      ("name", Model.users.name); ("role", Model.users.role)] u),
         mkWorld (filter (fun u => eq_id id u = false) (rows w))
                 (statements w ++ [Select (Some id); Delete id]) (now w))
    end
  else (Throw out_of_range, asked [Select (Some id)]).
Proof.
  unfold Service.deleteUser, Service.rethrow. unfold try_catch at 1.
  unfold bind at 1. rewrite getUserById_run.
  destruct (integer_param id) eqn:Hid; [|reflexivity].
  destruct (Spec.matching id (rows w)) as [|u l] eqn:Hm; [reflexivity|].
  unfold bind, delete_users, ret, asked. cbn [now rows statements]. rewrite Hid.
  rewrite <- !app_assoc. cbn [app].
  fold (Spec.matching id (rows w)). rewrite Hm. reflexivity.
Qed.


End ServiceRuns.

Lemma matching_after_delete id (l : list Model.User) :
  Spec.matching id (filter (fun u => eq_id id u = false) l) = [].
Proof.
  unfold Spec.matching. induction l as [|u l IH]; [reflexivity|].
  rewrite filter_cons. destruct (eq_id id u) eqn:E.
  - rewrite decide_False by discriminate. exact IH.
  - rewrite decide_True by reflexivity.
    rewrite filter_cons_False by (rewrite E; discriminate). exact IH.
Qed.

(** ** What the record service returns *)

Lemma project_lacks_password (p : Projection) (u : Model.User) :
  "password" ∉ p.*1 -> Spec.lacks_password (project p u).
Proof.
  intros Hp. eexists. split; [reflexivity|].
  apply not_elem_of_list_to_map_1.
  rewrite <- list_fmap_compose.
  erewrite list_fmap_ext; [exact Hp|]. by intros _ [k c] _.
Qed.

Lemma project_fields (p : Projection) (u : Model.User) :
  Spec.has_fields p.*1 (project p u).
Proof.
  eexists. split; [reflexivity|].
  rewrite dom_list_to_map_L. f_equal.
  rewrite <- list_fmap_compose. apply list_fmap_ext. by intros _ [k c] _.
Qed.

Lemma public_columns_no_password : "password" ∉ Service.public_columns.*1.
Proof. vm_compute. intros H. repeat (apply elem_of_cons in H as [H|H]; [discriminate|]). inversion H. Qed.

(** C9: no record returned by the record service has a [password] field:
    not the records of [getALLUsers], nor the record of [getUserById],
    [updateUser] or [deleteUser]; the record returned by [deleteUser] has
    exactly the fields [id], [email], [name] and [role]. *)
Theorem C9_password_never_returned (id : Q) (updates : Validation.UserUpdates)
    (w : World) :
  (forall l w', Service.getALLUsers w = (Ok l, w') ->
     Forall Spec.lacks_password l)
  /\ (forall v w', Service.getUserById id w = (Ok v, w') -> Spec.lacks_password v)
  /\ (forall v w', Service.updateUser id updates w = (Ok v, w') ->
        Spec.lacks_password v)
  /\ (forall v w', Service.deleteUser id w = (Ok v, w') ->
        Spec.lacks_password v
        /\ Spec.has_fields ["id"; "email"; "name"; "role"] v).
Proof.
  pose proof public_columns_no_password as Hpub.
  split; [|split; [|split]].
  - intros l w'. rewrite getALLUsers_run. intros H. inversion H; subst.
    apply Forall_forall. intros v Hv.
    apply list_elem_of_fmap in Hv as (u & -> & _).
    by apply project_lacks_password.
  - intros v w'. rewrite getUserById_run.
    destruct (integer_param id); [|intros H; inversion H].
    destruct (Spec.matching id (rows w)); intros H; inversion H; subst.
    by apply project_lacks_password.
  - intros v w'. rewrite updateUser_run. cbn zeta.
    destruct (integer_param id); [|intros H; inversion H].
    destruct (Spec.matching id (rows w)); [intros H; inversion H|].
    destruct (match Validation.email updates with Some _ => _ | None => true end);
      [|intros H; inversion H].
    destruct (storable _); intros H; inversion H; subst.
    by apply project_lacks_password.
  - intros v w'. rewrite deleteUser_run.
    destruct (integer_param id); [|intros H; inversion H].
    destruct (Spec.matching id (rows w)); intros H; inversion H; subst.
    split; [|apply project_fields].
    apply project_lacks_password. vm_compute. intros Hin.
    repeat (apply elem_of_cons in Hin as [Hin|Hin]; [discriminate|]).
    inversion Hin.
Qed.

Lemma C9_password_never_returned_witness :
  Forall Spec.lacks_password
    (map (project Service.public_columns) (rows Sample.world))
  /\ Spec.lacks_password (project Service.public_columns Sample.bob)
  /\ Spec.lacks_password
       (project Service.public_columns
          (Model.mkUser 5 "Robert" "bob@example.com" "$2b$10$hashB" "user" 2000 5000 I))
  /\ Spec.lacks_password
       (obj [("id", of_Z 5); ("email", JStr "bob@example.com");
             ("name", JStr "Bob"); ("role", JStr "user")])
  /\ Spec.has_fields ["id"; "email"; "name"; "role"]
       (obj [("id", of_Z 5); ("email", JStr "bob@example.com");
             ("name", JStr "Bob"); ("role", JStr "user")]).
Proof.
  pose proof (C9_password_never_returned 5
    (Validation.mkUserUpdates (Some "Robert") None None) Sample.world)
    as (Hall & Hget & Hupd & Hdel).
  split; [|split; [|split]].
  - eapply Hall. reflexivity.
  - eapply Hget. vm_compute. reflexivity.
  - eapply Hupd. vm_compute. reflexivity.
  - eapply Hdel. vm_compute. reflexivity.
Defined.

(** ** What an update writes *)

Lemma Forall2_map_self {A} (R : A -> A -> Prop) (f : A -> A) (l : list A) :
  (forall x, R x (f x)) -> Forall2 R l (map f l).
Proof. intros H. induction l; constructor; auto. Qed.

Lemma updateUserSchema_reads_three_keys (o1 o2 : gmap string jsval) :
  o2 !! "name" = o1 !! "name" -> o2 !! "email" = o1 !! "email" ->
  o2 !! "role" = o1 !! "role" ->
  Validation.updateUserSchema (JObj o2) = Validation.updateUserSchema (JObj o1).
Proof.
  intros Hn He Hr.
  unfold Validation.updateUserSchema, Zod.refine, Zod.add_check, Zod.object,
    Zod.field.
  by rewrite Hn, He, Hr.
Qed.

(** The update handler, for any request. *)
Lemma updateUserById_run locale (req : Request) (w : World) :
  Controller.updateUserById locale req w =
  match Zod.safeParse locale Validation.userIdSchema (Controller.params_object req) with
  | Zod.Failure error => (Ok (Controller.validation_failed error), w)
  | Zod.Success idData =>
  match Zod.safeParse locale Validation.updateUserSchema (body req) with
  | Zod.Failure error => (Ok (Controller.validation_failed error), w)
  | Zod.Success updates =>
      match get (user req) "id", get (user req) "role" with
      | Ok uid, Ok urole =>
          if negb (strict_equals uid (JNum (Fin (Validation.id idData))))
             && negb (strict_equals urole (JStr "admin"))
          then (Ok (Reply 403 (Spec.error_message "Forbidden"
                                 "You can only update your own information")), w)
          else if truthy (from_option JStr JUndefined (Validation.role updates))
                  && negb (strict_equals urole (JStr "admin"))
          then (Ok (Reply 403 (Spec.error_message "Forbidden"
                                 "Only admin users can change user roles")), w)
          else match Service.updateUser (Validation.id idData) updates w with
               | (Ok updatedUser, w') =>
                   (Ok (json [("message", JStr "User updated successfully");
                              ("user", updatedUser)]), w')
               | (Throw e, w') => Controller.not_found_or_next e w'
               end
      | _, _ => (Ok (NextError (mkError "Cannot read properties of undefined")), w)
      end
  end end.
Proof.
  unfold Controller.updateUserById, Controller.safeParseAsync.
  destruct (Zod.safeParse locale Validation.userIdSchema _) as [idData|error];
    [|reflexivity].
  destruct (Zod.safeParse locale Validation.updateUserSchema _) as [updates|error];
    [|reflexivity].
  unfold try_catch, bind, Controller.not_self, Controller.not_admin,
    Controller.and_then, bind, lift, ret.
  destruct (user req); simpl; try reflexivity;
    repeat (match goal with
            | |- context [strict_equals ?a ?b] => destruct (strict_equals a b)
            | |- context [truthy ?a] => destruct (truthy a)
            end; simpl);
    try reflexivity;
    destruct (Service.updateUser (Validation.id idData) updates w) as [[v|e] w'];
    reflexivity.
Qed.

Lemma not_found_or_next_world e w :
  snd (Controller.not_found_or_next e w) = w.
Proof. unfold Controller.not_found_or_next. by destruct (String.eqb _ _). Qed.

Lemma updateUser_frame (id : Q) (updates : Validation.UserUpdates) (w : World) :
  forall r w', Service.updateUser id updates w = (r, w') ->
    match r with
    | Ok _ =>
        Forall2 (fun u u' =>
          Model.id u' = Model.id u
          /\ Model.password u' = Model.password u
          /\ Model.created_at u' = Model.created_at u
          /\ if eq_id id u then Spec.updated_by updates (now w) u u' else u' = u)
          (rows w) (rows w')
    | Throw _ => rows w' = rows w
    end.
Proof.
  intros r w'. rewrite updateUser_run. cbn zeta.
  destruct (integer_param id); [|intros H; by inversion H].
  destruct (Spec.matching id (rows w)); [intros H; by inversion H|].
  destruct (match Validation.email updates with Some _ => _ | None => true end);
    [|intros H; by inversion H].
  destruct (storable _); intros H; inversion H; subst; [|reflexivity]. cbn [rows].
  apply Forall2_map_self. intros x.
  destruct (eq_id id x); repeat split; reflexivity.
Qed.

Lemma accepted_absent (o : gmap string jsval) (u : Validation.UserUpdates) :
  Spec.accepted_name (default JUndefined (o !! "name")) = Some (Validation.name u) ->
  Spec.accepted_email (default JUndefined (o !! "email")) = Some (Validation.email u) ->
  Spec.accepted_role (default JUndefined (o !! "role")) = Some (Validation.role u) ->
  (default JUndefined (o !! "name") = JUndefined -> Validation.name u = None)
  /\ (default JUndefined (o !! "email") = JUndefined -> Validation.email u = None)
  /\ (default JUndefined (o !! "role") = JUndefined -> Validation.role u = None).
Proof.
  intros Hn He Hr. repeat split; intros H; rewrite H in *; simpl in *; congruence.
Qed.

(** C10: an update whose fields passed the update schema changes, in the
    rows with the given identifier, [updated_at] (set to the current time)
    and those of [name], [email] and [role] that are present, and nothing
    else: [id], [password], [created_at], the absent fields and all other
    rows stay as they were, and a failed update changes no row.  Whatever
    the body of a [PUT /users/:id] request holds, no row changes its [id],
    [password] or [created_at], nor a field among [name], [email], [role]
    that the body does not have; and two bodies that agree on these three
    keys are handled alike, whatever other keys they carry. *)
Theorem C10_update_frame locale (id : Q) (w : World) :
  (forall input updates,
     Zod.safeParse locale Validation.updateUserSchema input = Zod.Success updates ->
     (forall v w', Service.updateUser id updates w = (Ok v, w') ->
        Forall2 (fun u u' =>
          Model.id u' = Model.id u
          /\ Model.password u' = Model.password u
          /\ Model.created_at u' = Model.created_at u
          /\ if eq_id id u then Spec.updated_by updates (now w) u u' else u' = u)
          (rows w) (rows w'))
     /\ (forall e w', Service.updateUser id updates w = (Throw e, w') ->
           rows w' = rows w))
  /\ (forall (req : Request) out w',
        Controller.updateUserById locale req w = (out, w') ->
        Forall2 (fun u u' =>
          Model.id u' = Model.id u
          /\ Model.password u' = Model.password u
          /\ Model.created_at u' = Model.created_at u
          /\ (Spec.body_field (body req) "name" = JUndefined ->
                Model.name u' = Model.name u)
          /\ (Spec.body_field (body req) "email" = JUndefined ->
                Model.email u' = Model.email u)
          /\ (Spec.body_field (body req) "role" = JUndefined ->
                Model.role u' = Model.role u))
          (rows w) (rows w'))
  /\ (forall (req1 req2 : Request) (o1 o2 : gmap string jsval),
        body req1 = JObj o1 -> body req2 = JObj o2 ->
        params req2 = params req1 -> user req2 = user req1 ->
        o2 !! "name" = o1 !! "name" -> o2 !! "email" = o1 !! "email" ->
        o2 !! "role" = o1 !! "role" ->
        Controller.updateUserById locale req2 w
        = Controller.updateUserById locale req1 w).
Proof.
  split; [|split].
  - intros input updates _. split.
    + intros v w' H. exact (updateUser_frame id updates w _ _ H).
    + intros e w' H. exact (updateUser_frame id updates w _ _ H).
  - intros req out w'.
    assert (Forall2 (fun u u' : Model.User =>
          Model.id u' = Model.id u
          /\ Model.password u' = Model.password u
          /\ Model.created_at u' = Model.created_at u
          /\ (Spec.body_field (body req) "name" = JUndefined ->
                Model.name u' = Model.name u)
          /\ (Spec.body_field (body req) "email" = JUndefined ->
                Model.email u' = Model.email u)
          /\ (Spec.body_field (body req) "role" = JUndefined ->
                Model.role u' = Model.role u)) (rows w) (rows w)) as Hsame.
    { apply Forall_Forall2_diag, Forall_forall. intros u _. repeat split. }
    rewrite updateUserById_run.
    destruct (Zod.safeParse locale Validation.userIdSchema _) as [idData|error];
      [|intros H; by inversion H; subst].
    destruct (Zod.safeParse locale Validation.updateUserSchema _)
      as [updates|error] eqn:Hbody; [|intros H; by inversion H; subst].
    destruct (get (user req) "id") as [uid|e]; [|intros H; by inversion H; subst].
    destruct (get (user req) "role") as [urole|e]; [|intros H; by inversion H; subst].
    destruct (negb _ && negb _); [intros H; by inversion H; subst|].
    destruct (truthy _ && negb _); [intros H; by inversion H; subst|].
    destruct (Service.updateUser (Validation.id idData) updates w) as [[v|e] w1] eqn:Hupd.
    + intros H. inversion H; subst.
      apply updateUserSchema_success in Hbody as (o & Ho & Hn & He & Hr & _).
      destruct (accepted_absent o updates Hn He Hr) as (An & Ae & Ar).
      pose proof (updateUser_frame _ _ _ _ _ Hupd) as Hframe. simpl in Hframe.
      eapply Forall2_impl; [exact Hframe|].
      intros u u' (Hi & Hp & Hc & Hrest). rewrite Ho. simpl.
      repeat split; try assumption.
      * intros Habs. destruct (eq_id _ u); [|by subst].
        destruct Hrest as (_ & -> & _). by rewrite (An Habs).
      * intros Habs. destruct (eq_id _ u); [|by subst].
        destruct Hrest as (_ & _ & -> & _). by rewrite (Ae Habs).
      * intros Habs. destruct (eq_id _ u); [|by subst].
        destruct Hrest as (_ & _ & _ & ->). by rewrite (Ar Habs).
    + pose proof (updateUser_frame _ _ _ _ _ Hupd) as Hframe. simpl in Hframe.
      pose proof (not_found_or_next_world e w1) as Hw.
      intros H. rewrite H in Hw. simpl in Hw. subst w'. by rewrite Hframe.
  - intros req1 req2 o1 o2 Hb1 Hb2 Hp Hu Hn He Hr.
    unfold Controller.updateUserById, Controller.safeParseAsync,
      Controller.params_object, Controller.not_self, Controller.not_admin,
      Zod.safeParse.
    rewrite Hb1, Hb2, Hp, Hu.
    by rewrite (updateUserSchema_reads_three_keys o1 o2 Hn He Hr).
Qed.

Lemma C10_update_frame_witness :
  Forall2 (fun u u' =>
      Model.id u' = Model.id u
      /\ Model.password u' = Model.password u
      /\ Model.created_at u' = Model.created_at u
      /\ if eq_id 5 u
         then Spec.updated_by (Validation.mkUserUpdates (Some "Robert") None None)
                5000 u u'
         else u' = u)
    [Sample.alice; Sample.bob; Sample.carol]
    [Sample.alice;
     Model.mkUser 5 "Robert" "bob@example.com" "$2b$10$hashB" "user" 2000 5000 I;
     Sample.carol]
  /\ Controller.updateUserById Sample.en
       (mkRequest None {[ "id" := "5" ]}
          (obj [("name", JStr "Robert"); ("password", JStr "letmein");
                ("id", of_Z 99); ("created_at", JStr "never")])
          (Sample.claim 5 "user")) Sample.world
     = Controller.updateUserById Sample.en
         (mkRequest None {[ "id" := "5" ]} (obj [("name", JStr "Robert")])
            (Sample.claim 5 "user")) Sample.world.
Proof.
  split.
  - refine (proj1 (proj1 (C10_update_frame Sample.en 5 Sample.world)
      (obj [("name", JStr "Robert"); ("password", JStr "letmein")])
      (Validation.mkUserUpdates (Some "Robert") None None) _)
      (project Service.public_columns
         (Model.mkUser 5 "Robert" "bob@example.com" "$2b$10$hashB" "user" 2000 5000 I))
      (mkWorld [Sample.alice;
                Model.mkUser 5 "Robert" "bob@example.com" "$2b$10$hashB" "user" 2000 5000 I;
                Sample.carol]
               [Select (Some 5%Q);
                Update (mkUpdateData (Some "Robert") None None 5000) 5%Q] 5000) _);
      vm_compute; reflexivity.
  - refine (proj2 (proj2 (C10_update_frame Sample.en 5 Sample.world))
      (mkRequest None {[ "id" := "5" ]} (obj [("name", JStr "Robert")])
         (Sample.claim 5 "user"))
      (mkRequest None {[ "id" := "5" ]}
         (obj [("name", JStr "Robert"); ("password", JStr "letmein");
               ("id", of_Z 99); ("created_at", JStr "never")])
         (Sample.claim 5 "user"))
      (list_to_map [("name", JStr "Robert")])
      (list_to_map [("name", JStr "Robert"); ("password", JStr "letmein");
                    ("id", of_Z 99); ("created_at", JStr "never")])
      eq_refl eq_refl eq_refl eq_refl _ _ _); vm_compute; reflexivity.
Defined.


(** ** Authorization inside the update handler *)

Section UpdateAuthorization.
Variable locale : Zod.issue_code -> string.
Variables (req : Request) (w : World).
Variables (idData : Validation.IdParams) (updates : Validation.UserUpdates).
Variable claim : gmap string jsval.
Hypothesis Hid :
  Zod.safeParse locale Validation.userIdSchema (Controller.params_object req)
  = Zod.Success idData.
Hypothesis Hbody :
  Zod.safeParse locale Validation.updateUserSchema (body req)
  = Zod.Success updates.
Hypothesis Huser : user req = JObj claim.

(** The handler once both validations have passed and the identity has been
    read. *)
Lemma updateUserById_validated :
  Controller.updateUserById locale req w =
  try_catch
    (if negb (strict_equals (Spec.claim_id claim) (JNum (Fin (Validation.id idData))))
        && negb (strict_equals (Spec.claim_role claim) (JStr "admin"))
     then Controller.send (Reply 403 (Spec.error_message "Forbidden"
                             "You can only update your own information"))
     else if truthy (from_option JStr JUndefined (Validation.role updates))
             && negb (strict_equals (Spec.claim_role claim) (JStr "admin"))
     then Controller.send (Reply 403 (Spec.error_message "Forbidden"
                             "Only admin users can change user roles"))
     else updatedUser <- Service.updateUser (Validation.id idData) updates;;
          Controller.send (json [("message", JStr "User updated successfully");
                                 ("user", updatedUser)]))
    Controller.not_found_or_next w.
Proof.
  unfold Controller.updateUserById, Controller.safeParseAsync.
  rewrite Hid, Hbody.
  unfold try_catch, bind, Controller.not_self, Controller.not_admin,
    Controller.and_then, bind, lift, ret, Spec.claim_id, Spec.claim_role.
  rewrite Huser. simpl.
  repeat (match goal with
          | |- context [strict_equals ?a ?b] => destruct (strict_equals a b)
          | |- context [truthy ?a] => destruct (truthy a)
          end; simpl); reflexivity.
Qed.

Lemma accepted_role_truthy :
  Validation.role updates <> None ->
  truthy (from_option JStr JUndefined (Validation.role updates)) = true.
Proof.
  intros Hrole.
  apply updateUserSchema_success in Hbody as (o & _ & _ & _ & Hr & _).
  unfold Spec.accepted_role in Hr.
  destruct (default JUndefined (o !! "role")); try discriminate.
  - inversion Hr. congruence.
  - destruct (String.eqb s "user") eqn:E1; simpl in Hr.
    + inversion Hr as [Hr']. apply String.eqb_eq in E1. by subst.
    + destruct (String.eqb s "admin") eqn:E2; [|discriminate].
      inversion Hr as [Hr']. apply String.eqb_eq in E2. by subst.
Qed.

End UpdateAuthorization.

(** C1: on [PUT /users/:id] with a validated identifier and body, an
    identity that is not an admin is answered 403 without any statement
    being sent to the store (a) when its id differs from the target id and
    (b) when the body has a [role] field, also when the two ids are equal. *)
Theorem C1_update_forbidden locale (req : Request) (w : World)
    (idData : Validation.IdParams) (updates : Validation.UserUpdates)
    (claim : gmap string jsval) :
  Zod.safeParse locale Validation.userIdSchema (Controller.params_object req)
  = Zod.Success idData ->
  Zod.safeParse locale Validation.updateUserSchema (body req)
  = Zod.Success updates ->
  user req = JObj claim ->
  Spec.claim_role claim <> JStr "admin" ->
  (strict_equals (Spec.claim_id claim) (JNum (Fin (Validation.id idData))) = false ->
   Controller.updateUserById locale req w
   = (Ok (Reply 403 (Spec.error_message "Forbidden"
                       "You can only update your own information")), w))
  /\ (Validation.role updates <> None ->
      strict_equals (Spec.claim_id claim) (JNum (Fin (Validation.id idData))) = true ->
      Controller.updateUserById locale req w
      = (Ok (Reply 403 (Spec.error_message "Forbidden"
                          "Only admin users can change user roles")), w))
  /\ (Validation.role updates <> None ->
      exists message,
        Controller.updateUserById locale req w
        = (Ok (Reply 403 (Spec.error_message "Forbidden" message)), w)).
Proof.
  intros Hid Hbody Huser Hrole.
  rewrite (updateUserById_validated locale req w idData updates claim Hid Hbody Huser).
  rewrite (not_strict_equals_string _ _ Hrole). simpl.
  split; [|split].
  - intros ->. reflexivity.
  - intros Hr ->. simpl.
    by rewrite (accepted_role_truthy locale req updates Hbody Hr).
  - intros Hr.
    rewrite (accepted_role_truthy locale req updates Hbody Hr).
    destruct (strict_equals (Spec.claim_id claim) _); simpl; eauto.
Qed.

Lemma C1_update_forbidden_witness :
  Controller.updateUserById Sample.en
    (mkRequest None {[ "id" := "7" ]} (obj [("name", JStr "Eve")])
               (Sample.claim 5 "user")) Sample.world
  = (Ok (Reply 403 (Spec.error_message "Forbidden"
                      "You can only update your own information")), Sample.world)
  /\ Controller.updateUserById Sample.en
       (mkRequest None {[ "id" := "5" ]} (obj [("role", JStr "admin")])
                  (Sample.claim 5 "user")) Sample.world
  = (Ok (Reply 403 (Spec.error_message "Forbidden"
                      "Only admin users can change user roles")), Sample.world).
Proof.
  split.
  - refine (proj1 (C1_update_forbidden Sample.en _ Sample.world
      (Validation.mkIdParams 7)
      (Validation.mkUserUpdates (Some "Eve") None None)
      (list_to_map [("id", of_Z 5); ("email", JStr "someone@example.com");
                    ("role", JStr "user")]) _ _ _ _) _);
      try (vm_compute; reflexivity).
    vm_compute. discriminate.
  - refine (proj1 (proj2 (C1_update_forbidden Sample.en _ Sample.world
      (Validation.mkIdParams 5)
      (Validation.mkUserUpdates None None (Some "admin"))
      (list_to_map [("id", of_Z 5); ("email", JStr "someone@example.com");
                    ("role", JStr "user")]) _ _ _ _)) _ _);
      try (vm_compute; reflexivity).
    + vm_compute. discriminate.
    + discriminate.
Defined.

(** ** Missing records *)

Section Authorized.
Variable locale : Zod.issue_code -> string.
Variables (req : Request) (w : World) (idData : Validation.IdParams).
Variable claim : gmap string jsval.
Hypothesis Hid :
  Zod.safeParse locale Validation.userIdSchema (Controller.params_object req)
  = Zod.Success idData.


Hypothesis Huser : user req = JObj claim.

Lemma deleteUserById_validated :
  Controller.deleteUserById locale req w =
  try_catch
    (if negb (strict_equals (Spec.claim_id claim) (JNum (Fin (Validation.id idData))))
        && negb (strict_equals (Spec.claim_role claim) (JStr "admin"))
     then Controller.send (Reply 403 (Spec.error_message "Forbidden"
                             "You can only delete your own account"))
     else deletedUser <- Service.deleteUser (Validation.id idData);;
          Controller.send (json [("message", JStr "User deleted successfully");
                                 ("user", deletedUser)]))
    Controller.not_found_or_next w.
Proof.
  unfold Controller.deleteUserById, Controller.safeParseAsync.
  rewrite Hid.
  unfold try_catch, bind, Controller.not_self, Controller.not_admin,
    Controller.and_then, bind, lift, ret, Spec.claim_id, Spec.claim_role.
  rewrite Huser. simpl.
  repeat (match goal with
          | |- context [strict_equals ?a ?b] => destruct (strict_equals a b)
          end; simpl); reflexivity.
Qed.

End Authorized.

(** The delete handler, for any request. *)
Lemma deleteUserById_run locale (req : Request) (w : World) :
  Controller.deleteUserById locale req w =
  match Zod.safeParse locale Validation.userIdSchema (Controller.params_object req) with
  | Zod.Failure error => (Ok (Controller.validation_failed error), w)
  | Zod.Success idData =>
      match get (user req) "id", get (user req) "role" with
      | Ok uid, Ok urole =>
          if negb (strict_equals uid (JNum (Fin (Validation.id idData))))
             && negb (strict_equals urole (JStr "admin"))
          then (Ok (Reply 403 (Spec.error_message "Forbidden"
                                 "You can only delete your own account")), w)
          else match Service.deleteUser (Validation.id idData) w with
               | (Ok deletedUser, w') =>
                   (Ok (json [("message", JStr "User deleted successfully");
                              ("user", deletedUser)]), w')
               | (Throw e, w') => Controller.not_found_or_next e w'
               end
      | _, _ => (Ok (NextError (mkError "Cannot read properties of undefined")), w)
      end
  end.
Proof.
  unfold Controller.deleteUserById, Controller.safeParseAsync.
  destruct (Zod.safeParse locale Validation.userIdSchema _) as [idData|error];
    [|reflexivity].
  unfold try_catch, bind, Controller.not_self, Controller.not_admin,
    Controller.and_then, bind, lift, ret.
  destruct (user req); simpl; try reflexivity;
    repeat (match goal with
            | |- context [strict_equals ?a ?b] => destruct (strict_equals a b)
            end; simpl);
    try reflexivity;
    destruct (Service.deleteUser (Validation.id idData) w) as [[v|e] w'];
    reflexivity.
Qed.





(** * Further properties *)

(** ** Routes *)

Section RouteSteps.
Variable verify : jsval -> completion jsval.
Variable locale : Zod.issue_code -> string.

Lemma dispatch_last (h : Routes.Handler) (req : Request) (w : World) :
  Routes.dispatch [h] req w = h req w.
Proof.
  unfold Routes.dispatch, bind, ret.
  destruct (h req w) as [[[st b|r|e]|e] w']; reflexivity.
Qed.

Lemma dispatch_middleware (f : Request -> Outcome) (rest : list Routes.Handler)
    (req : Request) (w : World) :
  Routes.dispatch (Routes.middleware f :: rest) req w =
  match f req with
  | Next req' => Routes.dispatch rest req' w
  | o => (Ok o, w)
  end.
Proof.
  cbn [Routes.dispatch]. unfold Routes.middleware, bind, ret.
  by destruct (f req).
Qed.

(** A route behind [authenticateToken]: the reply of the guard, or the rest
    of the chain on the request that carries the decoded claim. *)
Lemma dispatch_authenticated (rest : list Routes.Handler) (req : Request) (w : World) :
  Routes.dispatch (Routes.middleware (Auth.authenticateToken verify) :: rest) req w =
  if truthy (Spec.token_cookie req) then
    match verify (Spec.token_cookie req) with
    | Ok decoded => Routes.dispatch rest (Facts.with_user req decoded) w
    | Throw _ =>
        (Ok (Reply 401 (Spec.error_message "Access denied" "Invalid token")), w)
    end
  else (Ok (Reply 401 (Spec.error_message "Access denied" "No token provided")), w).
Proof.
  cbn [Routes.dispatch]. unfold Routes.middleware, bind, ret.
  destruct (truthy (Spec.token_cookie req)) eqn:Htok.
  - destruct (verify (Spec.token_cookie req)) as [decoded|e] eqn:Hver.
    + by rewrite (authenticateToken_verified verify req decoded Htok Hver).
    + by rewrite (authenticateToken_invalid verify req e Htok Hver).
  - by rewrite (authenticateToken_no_token verify req Htok).
Qed.

End RouteSteps.

(** X1: no route runs its handler without a verified token: when the
    [token] cookie is missing or empty, or does not verify, each of the four
    routes answers 401 "Access denied" and sends nothing to the store. *)
Theorem every_route_requires_a_token verify locale (req : Request) (w : World)
    (chain : list Routes.Handler) :
  chain ∈ Facts.routes verify locale ->
  truthy (Spec.token_cookie req) = false
  \/ (exists e, verify (Spec.token_cookie req) = Throw e) ->
  exists message,
    Routes.dispatch chain req w
    = (Ok (Reply 401 (Spec.error_message "Access denied" message)), w).
Proof.
  intros Hchain Hbad.
  assert (exists rest, chain = Routes.middleware (Auth.authenticateToken verify) :: rest)
    as [rest ->].
  { unfold Facts.routes in Hchain.
    repeat (apply elem_of_cons in Hchain as [->|Hchain]; [eexists; reflexivity|]).
    by apply elem_of_nil in Hchain. }
  rewrite dispatch_authenticated.
  destruct Hbad as [-> | [e He]]; [eauto|].
  rewrite He. destruct (truthy _); eauto.
Qed.

Lemma every_route_requires_a_token_witness :
  exists message,
    Routes.dispatch (Routes.delete_user_by_id Sample.verify Sample.en)
      (Sample.request (Some "stolen") "5" JUndefined) Sample.world
    = (Ok (Reply 401 (Spec.error_message "Access denied" message)), Sample.world).
Proof.
  apply (every_route_requires_a_token Sample.verify Sample.en).
  - unfold Facts.routes. do 3 right. left.
  - right. eexists. reflexivity.
Defined.

(** X2: the identity a route acts on is the claim decoded from the token:
    whatever [req.user] holds when the request arrives has no effect on the
    outcome of any route, and behind a verified token the by-id routes run
    their handler on the request carrying the decoded claim. *)
Theorem identity_comes_from_the_token verify locale (req : Request) (w : World) :
  (forall chain u, chain ∈ Facts.routes verify locale ->
     Routes.dispatch chain (Facts.with_user req u) w = Routes.dispatch chain req w)
  /\ (forall decoded,
        truthy (Spec.token_cookie req) = true ->
        verify (Spec.token_cookie req) = Ok decoded ->
        Routes.dispatch (Routes.get_user_by_id verify locale) req w
        = Controller.fetchUserById locale (Facts.with_user req decoded) w
        /\ Routes.dispatch (Routes.put_user_by_id verify locale) req w
           = Controller.updateUserById locale (Facts.with_user req decoded) w
        /\ Routes.dispatch (Routes.delete_user_by_id verify locale) req w
           = Controller.deleteUserById locale (Facts.with_user req decoded) w).
Proof.
  split.
  - intros chain u Hchain.
    assert (exists rest, chain = Routes.middleware (Auth.authenticateToken verify) :: rest)
      as [rest ->].
    { unfold Facts.routes in Hchain.
      repeat (apply elem_of_cons in Hchain as [->|Hchain]; [eexists; reflexivity|]).
      by apply elem_of_nil in Hchain. }
    by rewrite !dispatch_authenticated.
  - intros decoded Htok Hver.
    unfold Routes.get_user_by_id, Routes.put_user_by_id, Routes.delete_user_by_id.
    rewrite !dispatch_authenticated, Htok, Hver, !dispatch_last. done.
Qed.

Lemma identity_comes_from_the_token_witness :
  Routes.dispatch (Routes.put_user_by_id Sample.verify Sample.en)
    (Facts.with_user
       (Sample.request (Some "token-of-user-5") "7" (obj [("name", JStr "Mallory")]))
       (Sample.claim 1 "admin")) Sample.world
  = Routes.dispatch (Routes.put_user_by_id Sample.verify Sample.en)
      (Sample.request (Some "token-of-user-5") "7" (obj [("name", JStr "Mallory")]))
      Sample.world
  /\ Routes.dispatch (Routes.put_user_by_id Sample.verify Sample.en)
       (Sample.request (Some "token-of-user-5") "7" (obj [("name", JStr "Mallory")]))
       Sample.world
     = Controller.updateUserById Sample.en
         (mkRequest (Some {[ "token" := JStr "token-of-user-5" ]}) {[ "id" := "7" ]}
            (obj [("name", JStr "Mallory")]) (Sample.claim 5 "user")) Sample.world.
Proof.
  pose proof (identity_comes_from_the_token Sample.verify Sample.en
    (Sample.request (Some "token-of-user-5") "7" (obj [("name", JStr "Mallory")]))
    Sample.world) as [H1 H2].
  split.
  - apply H1. unfold Facts.routes. do 2 right. left.
  - apply (H2 (Sample.claim 5 "user")); reflexivity.
Defined.

(** ** Reads and failed writes *)

Lemma fetchAllUsers_run (req : Request) (w : World) :
  Controller.fetchAllUsers req w =
  (Ok (json [("message", JStr "Successful retrieved users");
             ("users", JArr (map (project Service.public_columns) (rows w)));
             ("count", of_Z (Z.of_nat (length (rows w))))]),
   mkWorld (rows w) (statements w ++ [Select None]) (now w)).
Proof.
  unfold Controller.fetchAllUsers, try_catch, bind. rewrite getALLUsers_run.
  unfold Controller.send, ret. by rewrite length_map.
Qed.

Lemma fetchUserById_run locale (req : Request) (w : World) :
  Controller.fetchUserById locale req w =
  match Zod.safeParse locale Validation.userIdSchema (Controller.params_object req) with
  | Zod.Failure error => (Ok (Controller.validation_failed error), w)
  | Zod.Success idData =>
      match Service.getUserById (Validation.id idData) w with
      | (Ok user, w') =>
          (Ok (json [("message", JStr "User retrieved successfully");
                     ("user", user)]), w')
      | (Throw e, w') => Controller.not_found_or_next e w'
      end
  end.
Proof.
  unfold Controller.fetchUserById, Controller.safeParseAsync.
  destruct (Zod.safeParse locale Validation.userIdSchema _) as [idData|error];
    [|reflexivity].
  unfold try_catch, bind.
  destruct (Service.getUserById (Validation.id idData) w) as [[v|e] w'];
    reflexivity.
Qed.

Lemma not_found_or_next_run e w :
  Controller.not_found_or_next e w =
  (Ok (if String.eqb (Js.message e) "User not found"
       then Reply 404 (Spec.error_message "User not found"
                         "The requested user does not exist")
       else NextError e), w).
Proof. unfold Controller.not_found_or_next. by destruct (String.eqb _ _). Qed.

(** X3: the two GET routes never write: whatever the request, the rows and
    the clock are as before, and the store has received at most one
    statement, a [select]. *)
Theorem get_routes_only_read verify locale (req : Request) (w w' : World)
    (out : completion Outcome) :
  Routes.dispatch (Routes.get_users verify) req w = (out, w')
  \/ Routes.dispatch (Routes.get_user_by_id verify locale) req w = (out, w') ->
  rows w' = rows w /\ now w' = now w
  /\ exists sent : list Statement, statements w' = (statements w ++ sent)%list
       /\ (length sent <= 1)%nat /\ Forall Facts.is_select sent.
Proof.
  assert (forall w0 : World, w0 = w ->
            rows w0 = rows w /\ now w0 = now w
            /\ exists sent : list Statement, statements w0 = (statements w ++ sent)%list
                 /\ (length sent <= 1)%nat /\ Forall Facts.is_select sent) as Hsame.
  { intros w0 ->. repeat split. exists []. rewrite app_nil_r.
    repeat split; [simpl; lia|constructor]. }
  assert (forall o, rows (mkWorld (rows w) (statements w ++ [Select o]) (now w)) = rows w
            /\ now (mkWorld (rows w) (statements w ++ [Select o]) (now w)) = now w
            /\ exists sent : list Statement, statements (mkWorld (rows w) (statements w ++ [Select o]) (now w))
                            = (statements w ++ sent)%list
                 /\ (length sent <= 1)%nat /\ Forall Facts.is_select sent) as Hsel.
  { intros o. repeat split. exists [Select o].
    repeat split; [simpl; lia|]. repeat constructor. by exists o. }
  unfold Routes.get_users, Routes.get_user_by_id.
  rewrite !dispatch_authenticated.
  destruct (truthy (Spec.token_cookie req));
    [|intros [H|H]; injection H as <- <-; by apply Hsame].
  destruct (verify (Spec.token_cookie req)) as [decoded|e];
    [|intros [H|H]; injection H as <- <-; by apply Hsame].
  intros [H|H].
  - rewrite dispatch_middleware in H.
    destruct (Auth.requireRole ["admin"] (Facts.with_user req decoded))
      as [st b|req'|e]; try (injection H as <- <-; by apply Hsame).
    rewrite dispatch_last, fetchAllUsers_run in H. injection H as <- <-. apply Hsel.
  - rewrite dispatch_last, fetchUserById_run in H.
    destruct (Zod.safeParse locale Validation.userIdSchema _) as [idData|error];
      [|injection H as <- <-; by apply Hsame].
    rewrite getUserById_run in H.
    destruct (integer_param _);
      [|rewrite not_found_or_next_run in H; injection H as <- <-; apply Hsel].
    destruct (Spec.matching _ _).
    + rewrite not_found_or_next_run in H. injection H as <- <-. apply Hsel.
    + injection H as <- <-. apply Hsel.
Qed.

Lemma get_routes_only_read_witness :
  rows (snd (Routes.dispatch (Routes.get_user_by_id Sample.verify Sample.en)
               (Sample.request (Some "token-of-user-5") "7" JUndefined) Sample.world))
  = rows Sample.world.
Proof.
  refine (proj1 (get_routes_only_read Sample.verify Sample.en
    (Sample.request (Some "token-of-user-5") "7" JUndefined) Sample.world _
    (fst (Routes.dispatch (Routes.get_user_by_id Sample.verify Sample.en)
            (Sample.request (Some "token-of-user-5") "7" JUndefined) Sample.world)) _)).
  right. apply surjective_pairing.
Defined.

(** X4: a write request that is not answered 200 changes no row: on the
    PUT and DELETE routes, every outcome other than a 200 reply (400, 401,
    403, 404 or an error passed to [next]) leaves the rows as they were. *)
Theorem failed_writes_change_nothing verify locale (req : Request) (w w' : World)
    (out : completion Outcome) :
  Routes.dispatch (Routes.put_user_by_id verify locale) req w = (out, w')
  \/ Routes.dispatch (Routes.delete_user_by_id verify locale) req w = (out, w') ->
  ~ Facts.succeeded out ->
  rows w' = rows w.
Proof.
  unfold Routes.put_user_by_id, Routes.delete_user_by_id.
  rewrite !dispatch_authenticated.
  destruct (truthy (Spec.token_cookie req));
    [|intros [H|H] _; by inversion H].
  destruct (verify (Spec.token_cookie req)) as [decoded|e];
    [|intros [H|H] _; by inversion H].
  rewrite !dispatch_last, updateUserById_run, deleteUserById_run.
  destruct (Zod.safeParse locale Validation.userIdSchema _) as [idData|error];
    [|intros [H|H] _; by inversion H].
  intros [H|H] Hfail.
  - destruct (Zod.safeParse locale Validation.updateUserSchema _) as [updates|error];
      [|by inversion H].
    destruct (get _ "id") as [uid|e]; [|by inversion H].
    destruct (get _ "role") as [urole|e]; [|by inversion H].
    destruct (negb _ && negb _); [by inversion H|].
    destruct (truthy _ && negb _); [by inversion H|].
    destruct (Service.updateUser _ _ _) as [[v|e] w1] eqn:Hupd.
    + inversion H; subst. destruct Hfail. eexists. reflexivity.
    + pose proof (updateUser_frame _ _ _ _ _ Hupd) as Hframe. simpl in Hframe.
      rewrite not_found_or_next_run in H. inversion H; by subst.
  - destruct (get _ "id") as [uid|e]; [|by inversion H].
    destruct (get _ "role") as [urole|e]; [|by inversion H].
    destruct (negb _ && negb _); [by inversion H|].
    rewrite deleteUser_run in H.
    destruct (integer_param _);
      [|rewrite not_found_or_next_run in H; by inversion H].
    destruct (Spec.matching _ _).
    + rewrite not_found_or_next_run in H. by inversion H.
    + inversion H; subst. destruct Hfail. eexists. reflexivity.
Qed.

Lemma failed_writes_change_nothing_witness :
  rows (snd (Routes.dispatch (Routes.put_user_by_id Sample.verify Sample.en)
               (Sample.request (Some "token-of-user-5") "5"
                  (obj [("email", JStr "alice@example.com")])) Sample.world))
  = rows Sample.world.
Proof.
  refine (failed_writes_change_nothing Sample.verify Sample.en
    (Sample.request (Some "token-of-user-5") "5"
       (obj [("email", JStr "alice@example.com")])) Sample.world _
    (Ok (NextError unique_violation)) _ _).
  - left. vm_compute. reflexivity.
  - intros [b Hb]. discriminate.
Defined.

(** ** Successful reads *)

(** X5: [GET /users] with a verified admin claim is answered 200 with one
    record per row, in the order of the store, each made of the six public
    columns of its row, and with [count] equal to the number of rows; the
    store receives one [select] and no row changes. *)
Theorem admin_lists_every_user verify (req : Request) (w : World)
    (claim : gmap string jsval) :
  truthy (Spec.token_cookie req) = true ->
  verify (Spec.token_cookie req) = Ok (JObj claim) ->
  Spec.claim_role claim = JStr "admin" ->
  Routes.dispatch (Routes.get_users verify) req w
  = (Ok (Reply 200 (obj
       [("message", JStr "Successful retrieved users");
        ("users", JArr (map (project Service.public_columns) (rows w)));
        ("count", of_Z (Z.of_nat (length (rows w))))])),
     mkWorld (rows w) (statements w ++ [Select None]) (now w)).
Proof.
  intros Htok Hver Hrole. unfold Routes.get_users.
  rewrite dispatch_authenticated, Htok, Hver, dispatch_middleware.
  assert (Auth.requireRole ["admin"] (Facts.with_user req (JObj claim))
          = Next (Facts.with_user req (JObj claim))) as ->.
  { unfold Auth.requireRole. cbn [Facts.with_user user truthy negb get].
    fold (Spec.claim_role claim). by rewrite Hrole. }
  by rewrite dispatch_last, fetchAllUsers_run.
Qed.

Lemma admin_lists_every_user_witness :
  Routes.dispatch (Routes.get_users Sample.verify)
    (Sample.request (Some "token-of-admin-1") "" JUndefined) Sample.world
  = (Ok (Reply 200 (obj
       [("message", JStr "Successful retrieved users");
        ("users", JArr (map (project Service.public_columns)
                          [Sample.alice; Sample.bob; Sample.carol]));
        ("count", of_Z 3)])),
     mkWorld (rows Sample.world) [Select None] 5000).
Proof.
  apply (admin_lists_every_user Sample.verify
           (Sample.request (Some "token-of-admin-1") "" JUndefined) Sample.world
           (list_to_map [("id", of_Z 1); ("email", JStr "someone@example.com");
                         ("role", JStr "admin")]));
    reflexivity.
Defined.

(** X6: [GET /users/:id] makes no ownership check: behind any verified
    token, whatever the claim holds, a valid identifier with a matching row
    is answered 200 with the public columns of the first such row, and no
    row changes. *)
Theorem any_identity_reads_any_user verify locale (req : Request) (w : World)
    (decoded : jsval) (idData : Validation.IdParams) (u : Model.User)
    (others : list Model.User) :
  truthy (Spec.token_cookie req) = true ->
  verify (Spec.token_cookie req) = Ok decoded ->
  Zod.safeParse locale Validation.userIdSchema (Controller.params_object req)
  = Zod.Success idData ->
  Spec.matching (Validation.id idData) (rows w) = u :: others ->
  Routes.dispatch (Routes.get_user_by_id verify locale) req w
  = (Ok (Reply 200 (obj [("message", JStr "User retrieved successfully");
                         ("user", project Service.public_columns u)])),
     mkWorld (rows w) (statements w ++ [Select (Some (Validation.id idData))])
             (now w)).
Proof.
  intros Htok Hver Hid Hrow. unfold Routes.get_user_by_id.
  rewrite dispatch_authenticated, Htok, Hver, dispatch_last, fetchUserById_run.
  change (Controller.params_object (Facts.with_user req decoded))
    with (Controller.params_object req).
  by rewrite Hid, getUserById_run, (integer_param_matching _ _ _ _ Hrow), Hrow.
Qed.

Lemma any_identity_reads_any_user_witness :
  Routes.dispatch (Routes.get_user_by_id Sample.verify Sample.en)
    (Sample.request (Some "token-of-user-5") "1" JUndefined) Sample.world
  = (Ok (Reply 200 (obj [("message", JStr "User retrieved successfully");
                         ("user", project Service.public_columns Sample.alice)])),
     mkWorld (rows Sample.world) [Select (Some 1%Q)] 5000).
Proof.
  apply (any_identity_reads_any_user Sample.verify Sample.en
           (Sample.request (Some "token-of-user-5") "1" JUndefined) Sample.world
           (Sample.claim 5 "user") (Validation.mkIdParams 1) Sample.alice []);
    vm_compute; reflexivity.
Defined.

(** ** Deleting *)

(** X7: on [DELETE /users/:id] an identity that is not an admin and whose id
    differs from the target is answered 403 "You can only delete your own
    account", and nothing is sent to the store. *)
Theorem delete_forbidden locale (req : Request) (w : World)
    (idData : Validation.IdParams) (claim : gmap string jsval) :
  Zod.safeParse locale Validation.userIdSchema (Controller.params_object req)
  = Zod.Success idData ->
  user req = JObj claim ->
  Spec.claim_role claim <> JStr "admin" ->
  strict_equals (Spec.claim_id claim) (JNum (Fin (Validation.id idData))) = false ->
  Controller.deleteUserById locale req w
  = (Ok (Reply 403 (Spec.error_message "Forbidden"
                      "You can only delete your own account")), w).
Proof.
  intros Hid Huser Hrole Hother.
  rewrite (deleteUserById_validated locale req w idData claim Hid Huser).
  by rewrite Hother, (not_strict_equals_string _ _ Hrole).
Qed.

Lemma delete_forbidden_witness :
  Controller.deleteUserById Sample.en
    (mkRequest None {[ "id" := "7" ]} JUndefined (Sample.claim 5 "user"))
    Sample.world
  = (Ok (Reply 403 (Spec.error_message "Forbidden"
                      "You can only delete your own account")), Sample.world).
Proof.
  apply (delete_forbidden Sample.en _ Sample.world (Validation.mkIdParams 7)
           (list_to_map [("id", of_Z 5); ("email", JStr "someone@example.com");
                         ("role", JStr "user")]));
    try (vm_compute; reflexivity).
  vm_compute. discriminate.
Defined.

(** X8: an authorized delete of an existing record (by its owner or by an
    admin) is answered 200 with the [id], [email], [name] and [role] the row
    had; afterwards no row has the identifier, every other row is kept, in
    order, and the store has received a [select] then a [delete]. *)
Theorem delete_removes_the_record locale (req : Request) (w : World)
    (idData : Validation.IdParams) (claim : gmap string jsval)
    (u : Model.User) (others : list Model.User) :
  Zod.safeParse locale Validation.userIdSchema (Controller.params_object req)
  = Zod.Success idData ->
  user req = JObj claim ->
  strict_equals (Spec.claim_id claim) (JNum (Fin (Validation.id idData))) = true
  \/ Spec.claim_role claim = JStr "admin" ->
  Spec.matching (Validation.id idData) (rows w) = u :: others ->
  exists w',
    Controller.deleteUserById locale req w
    = (Ok (Reply 200 (obj
         [("message", JStr "User deleted successfully");
          ("user", obj [("id", of_Z (Model.id u)); ("email", JStr (Model.email u));
                        ("name", JStr (Model.name u)); ("role", JStr (Model.role u))])])),
       w')
    /\ Spec.no_row (Validation.id idData) w'
    /\ rows w' = filter (fun r => eq_id (Validation.id idData) r = false) (rows w)
    /\ statements w'
       = (statements w ++ [Select (Some (Validation.id idData));
                           Delete (Validation.id idData)])%list.
Proof.
  intros Hid Huser Hauth Hrow.
  rewrite (deleteUserById_validated locale req w idData claim Hid Huser).
  assert (negb (strict_equals (Spec.claim_id claim) (JNum (Fin (Validation.id idData))))
          && negb (strict_equals (Spec.claim_role claim) (JStr "admin")) = false)
    as ->.
  { destruct Hauth as [-> | ->]; [done|].
    cbn [strict_equals]. rewrite String.eqb_refl. by rewrite andb_false_r. }
  unfold try_catch, bind.
  rewrite deleteUser_run, (integer_param_matching _ _ _ _ Hrow), Hrow.
  eexists. split; [reflexivity|]. split; [|split; reflexivity].
  intros r Hr Heq. cbn [rows] in Hr.
  apply list_elem_of_filter in Hr as [Hr _].
  unfold eq_id in Hr. apply Qeq_bool_iff in Heq. congruence.
Qed.

Lemma delete_removes_the_record_witness :
  exists w',
    Controller.deleteUserById Sample.en
      (mkRequest None {[ "id" := "5" ]} JUndefined (Sample.claim 5 "user"))
      Sample.world
    = (Ok (Reply 200 (obj
         [("message", JStr "User deleted successfully");
          ("user", obj [("id", of_Z 5); ("email", JStr "bob@example.com");
                        ("name", JStr "Bob"); ("role", JStr "user")])])),
       w')
    /\ Spec.no_row 5 w'
    /\ rows w' = filter (fun r => eq_id 5 r = false) (rows Sample.world)
    /\ statements w' = [Select (Some 5%Q); Delete 5%Q].
Proof.
  apply (delete_removes_the_record Sample.en
           (mkRequest None {[ "id" := "5" ]} JUndefined (Sample.claim 5 "user"))
           Sample.world (Validation.mkIdParams 5)
           (list_to_map [("id", of_Z 5); ("email", JStr "someone@example.com");
                         ("role", JStr "user")]) Sample.bob []);
    try (vm_compute; reflexivity).
  left. vm_compute. reflexivity.
Defined.

(** ** Updating *)

Lemma eq_id_same_id (id : Q) (r1 r2 : Model.User) :
  eq_id id r1 = true -> eq_id id r2 = true -> Model.id r1 = Model.id r2.
Proof.
  unfold eq_id. rewrite !Qeq_bool_iff. intros H1 H2.
  apply inject_Z_injective. by rewrite H1, H2.
Qed.

Lemma written_id data id (l : list Model.User) :
  map Model.id (Facts.written data id l) = map Model.id l.
Proof.
  unfold Facts.written. induction l as [|r l IH]; [reflexivity|].
  cbn [map]. rewrite IH. by destruct (eq_id id r).
Qed.

Lemma written_untouched data id (l : list Model.User) :
  (forall r, r ∈ l -> eq_id id r = false) -> Facts.written data id l = l.
Proof.
  unfold Facts.written. induction l as [|r l IH]; [reflexivity|].
  intros H. cbn [map]. rewrite (H r) by left. rewrite IH; [reflexivity|].
  intros r' Hr'. apply H. by right.
Qed.

Lemma written_email_None data id (l : list Model.User) :
  Db.email data = None ->
  map Model.email (Facts.written data id l) = map Model.email l.
Proof.
  intros He. unfold Facts.written. induction l as [|r l IH]; [reflexivity|].
  cbn [map]. rewrite IH. destruct (eq_id id r); [|reflexivity].
  unfold assign. simpl. by rewrite He.
Qed.

(** The store accepts a new address that no other row holds. *)
Lemma unique_after_update data id e (l : list Model.User) :
  Db.email data = Some e ->
  Facts.keys_unique l ->
  (forall r, r ∈ l -> Model.email r = e -> eq_id id r = true) ->
  NoDup (map Model.email (Facts.written data id l)).
Proof.
  intros He [Hids Hemails] Hfree.
  induction l as [|r l IH]; [constructor|].
  cbn [map] in Hids, Hemails. apply NoDup_cons in Hids as [Hid Hids].
  apply NoDup_cons in Hemails as [Hemail Hemails].
  unfold Facts.written. cbn [map]. fold (Facts.written data id l).
  destruct (eq_id id r) eqn:Er.
  - assert (forall r', r' ∈ l -> eq_id id r' = false) as Hnone.
    { intros r' Hr'. destruct (eq_id id r') eqn:Er'; [|reflexivity].
      destruct Hid. rewrite (eq_id_same_id id r r' Er Er').
      apply list_elem_of_fmap. by exists r'. }
    rewrite (written_untouched data id l Hnone).
    apply NoDup_cons. split; [|exact Hemails].
    unfold assign. simpl. rewrite He. simpl.
    intros Hin. apply list_elem_of_fmap in Hin as (r' & Hr'e & Hr').
    assert (eq_id id r' = true) as E by (apply Hfree; [by right | done]).
    by rewrite (Hnone r' Hr') in E.
  - apply NoDup_cons. split.
    + intros Hin. apply list_elem_of_fmap in Hin as (r' & Hr'e & Hr').
      unfold Facts.written in Hr'. apply list_elem_of_fmap in Hr' as (r0 & -> & Hr0).
      destruct (eq_id id r0) eqn:E0.
      * unfold assign in Hr'e. simpl in Hr'e. rewrite He in Hr'e. simpl in Hr'e.
        assert (eq_id id r = true) as E by (apply Hfree; [by left | done]).
        by rewrite Er in E.
      * destruct Hemail. apply list_elem_of_fmap. by exists r0.
    + apply IH; [done..|]. intros r' Hr'. apply Hfree. by right.
Qed.

Lemma matching_In id (l : list Model.User) (u : Model.User) others :
  Spec.matching id l = u :: others -> u ∈ l /\ eq_id id u = true.
Proof.
  intros H. assert (u ∈ Spec.matching id l) as Hin by (rewrite H; left).
  unfold Spec.matching in Hin. apply list_elem_of_filter in Hin. tauto.
Qed.

Lemma address_char_lower_not_null (c : ascii) :
  Spec.address_char c = true -> negb (charCode (lower_char c) =? 0)%N = true.
Proof. destruct c as [[] [] [] [] [] [] [] []]; vm_compute; congruence. Qed.

(** Of the texts that pass the update schema, only a name can hold the
    character of code 0. *)
Lemma storable_validated locale (input : jsval)
    (updates : Validation.UserUpdates) (time : Z) :
  Zod.safeParse locale Validation.updateUserSchema input = Zod.Success updates ->
  storable (Facts.update_data updates time)
  = from_option text_ok true (Validation.name updates).
Proof.
  intros Hok. apply updateUserSchema_success in Hok as (o & _ & _ & He & Hr & _).
  unfold storable, Facts.update_data. cbn [Db.name Db.email Db.role].
  assert (from_option text_ok true (Validation.email updates) = true) as ->.
  { destruct (Validation.email updates) as [e|]; [|reflexivity].
    unfold Spec.accepted_email in He.
    destruct (default JUndefined (o !! "email")) as [| | | |s| | |]; try discriminate.
    destruct (Zod.email_pattern s) eqn:Hp; [|discriminate].
    destruct (_ <=? 255); [|discriminate]. cbn [andb] in He.
    injection He as <-.
    rewrite (proj2 (accepted_email_needs_no_trim s Hp)).
    unfold text_ok, Js.toLowerCase. cbn [from_option].
    rewrite list_ascii_of_string_of_list_ascii.
    apply forallb_forall. intros c Hc. apply in_map_iff in Hc as (c0 & <- & Hc0).
    apply address_char_lower_not_null.
    apply (email_pattern_address_chars s c0 Hp). by apply list_elem_of_In. }
  assert (from_option text_ok true (Validation.role updates) = true) as ->.
  { destruct (Validation.role updates) as [r|]; [|reflexivity].
    unfold Spec.accepted_role in Hr.
    destruct (default JUndefined (o !! "role")) as [| | | |s| | |]; try discriminate.
    destruct (String.eqb s "user") eqn:E1.
    - apply String.eqb_eq in E1 as ->. by injection Hr as <-.
    - destruct (String.eqb s "admin") eqn:E2; [|discriminate].
      apply String.eqb_eq in E2 as ->. by injection Hr as <-. }
  by rewrite !andb_true_r.
Qed.

(** X9: an authorized update of an existing record (by its owner without a
    [role] field, or by an admin) that the store accepts is answered 200 with
    the public columns of the row as written: the present fields replaced,
    [updated_at] set to the current time.  The rows of the table are then, in
    some order, the rows as written, and the store has received a [select]
    then the [update].  The store accepts when the new name, if any, has no
    character of code 0, and the body has no [email] or the keys of the table
    are unique and no other row holds the new address. *)
Theorem update_writes_and_returns_the_record locale (req : Request) (w : World)
    (idData : Validation.IdParams) (updates : Validation.UserUpdates)
    (claim : gmap string jsval) (u : Model.User) (others : list Model.User) :
  Zod.safeParse locale Validation.userIdSchema (Controller.params_object req)
  = Zod.Success idData ->
  Zod.safeParse locale Validation.updateUserSchema (body req)
  = Zod.Success updates ->
  user req = JObj claim ->
  strict_equals (Spec.claim_id claim) (JNum (Fin (Validation.id idData))) = true
  /\ Validation.role updates = None
  \/ Spec.claim_role claim = JStr "admin" ->
  Spec.matching (Validation.id idData) (rows w) = u :: others ->
  (forall n, Validation.name updates = Some n -> text_ok n = true) ->
  match Validation.email updates with
  | None => True
  | Some e =>
      Facts.keys_unique (rows w)
      /\ forall r, r ∈ rows w -> Model.email r = e ->
                   eq_id (Validation.id idData) r = true
  end ->
  let data := Facts.update_data updates (now w) in
  exists w',
    Controller.updateUserById locale req w
    = (Ok (Reply 200 (obj
         [("message", JStr "User updated successfully");
          ("user", project Service.public_columns (assign data u))])),
       w')
    /\ rows w' ≡ₚ Facts.written data (Validation.id idData) (rows w)
    /\ statements w'
       = (statements w ++ [Select (Some (Validation.id idData));
                           Update data (Validation.id idData)])%list
    /\ now w' = now w.
Proof.
  intros Hid Hbody Huser Hauth Hrow Hname Hfree data.
  rewrite (updateUserById_validated locale req w idData updates claim Hid Hbody Huser).
  assert ((negb (strict_equals (Spec.claim_id claim) (JNum (Fin (Validation.id idData))))
           && negb (strict_equals (Spec.claim_role claim) (JStr "admin")) = false)
          /\ (truthy (from_option JStr JUndefined (Validation.role updates))
              && negb (strict_equals (Spec.claim_role claim) (JStr "admin")) = false))
    as [-> ->].
  { destruct Hauth as [[-> ->] | ->]; [done|].
    cbn [strict_equals]. rewrite String.eqb_refl. cbn [negb].
    by rewrite !andb_false_r. }
  assert (storable data = true) as Hstore.
  { unfold data. rewrite (storable_validated _ _ _ _ Hbody).
    destruct (Validation.name updates) as [n|]; [|reflexivity]. by apply Hname. }
  unfold try_catch, bind.
  rewrite updateUser_run, (integer_param_matching _ _ _ _ Hrow), Hrow. cbn zeta.
  fold (Facts.update_data updates (now w)). fold data. rewrite Hstore.
  destruct (match Validation.email updates with Some _ => _ | None => true end)
    eqn:Hu.
  - eexists. split; [reflexivity|]. by repeat split.
  - exfalso.
    destruct (Validation.email updates) as [e|] eqn:He; [|discriminate].
    destruct Hfree as [Hkeys Hfree].
    unfold unique_email in Hu. apply bool_decide_eq_false in Hu. apply Hu.
    apply (unique_after_update data _ e); [|done..].
    unfold data, Facts.update_data. cbn [Db.email]. exact He.
Qed.

Lemma update_writes_and_returns_the_record_witness :
  exists w',
    Controller.updateUserById Sample.en
      (mkRequest None {[ "id" := "5" ]}
         (obj [("name", JStr " Robert "); ("email", JStr "Rob@Example.com")])
         (Sample.claim 5 "user")) Sample.world
    = (Ok (Reply 200 (obj
         [("message", JStr "User updated successfully");
          ("user", project Service.public_columns
             (assign (mkUpdateData (Some "Robert") (Some "rob@example.com")
                        None 5000) Sample.bob))])),
       w')
    /\ rows w'
       ≡ₚ Facts.written
            (mkUpdateData (Some "Robert") (Some "rob@example.com") None 5000)
            5 (rows Sample.world)
    /\ statements w'
       = [Select (Some 5%Q);
          Update (mkUpdateData (Some "Robert") (Some "rob@example.com") None 5000)
                 5%Q]
    /\ now w' = 5000.
Proof.
  refine (update_writes_and_returns_the_record Sample.en
    (mkRequest None {[ "id" := "5" ]}
       (obj [("name", JStr " Robert "); ("email", JStr "Rob@Example.com")])
       (Sample.claim 5 "user")) Sample.world (Validation.mkIdParams 5)
    (Validation.mkUserUpdates (Some "Robert") (Some "rob@example.com") None)
    (list_to_map [("id", of_Z 5); ("email", JStr "someone@example.com");
                  ("role", JStr "user")]) Sample.bob [] _ _ _ _ _ _ _);
    try (vm_compute; reflexivity).
  - left. split; vm_compute; reflexivity.
  - intros n Hn. injection Hn as <-. vm_compute. reflexivity.
  - cbn. split.
    + split; apply (bool_decide_eq_true_1 (NoDup _)); vm_compute; reflexivity.
    + intros r Hr He.
      repeat (apply elem_of_cons in Hr as [->|Hr]; [vm_compute in He; discriminate|]).
      by apply elem_of_nil in Hr.
Defined.

Lemma duplicate_after_update data id e (l : list Model.User) (u r : Model.User) :
  Db.email data = Some e ->
  u ∈ l -> eq_id id u = true ->
  r ∈ l -> eq_id id r = false -> Model.email r = e ->
  ~ NoDup (map Model.email (Facts.written data id l)).
Proof.
  intros He Hu Eu Hr Er Hre Hnodup.
  apply list_elem_of_lookup in Hu as [i Hi].
  apply list_elem_of_lookup in Hr as [j Hj].
  assert (i <> j) as Hij by (intros ->; congruence).
  apply Hij. apply (NoDup_lookup _ i j e Hnodup).
  - unfold Facts.written.
    change (((Model.email <$> ((fun u0 => if eq_id id u0 then assign data u0 else u0) <$> l))
             !! i) = Some e).
    rewrite !list_lookup_fmap, Hi. simpl. rewrite Eu. simpl. by rewrite He.
  - unfold Facts.written.
    change (((Model.email <$> ((fun u0 => if eq_id id u0 then assign data u0 else u0) <$> l))
             !! j) = Some e).
    rewrite !list_lookup_fmap, Hj. simpl. rewrite Er. by rewrite Hre.
Qed.

(** X10: an authorized update of an existing record whose new [email] is
    held by another row is refused by the store; the handler does not answer:
    it passes the store's error to [next], and no row changes. *)
Theorem update_with_taken_email_is_an_error locale (req : Request) (w : World)
    (idData : Validation.IdParams) (updates : Validation.UserUpdates)
    (claim : gmap string jsval) (u : Model.User) (others : list Model.User)
    (e : string) (r : Model.User) :
  Zod.safeParse locale Validation.userIdSchema (Controller.params_object req)
  = Zod.Success idData ->
  Zod.safeParse locale Validation.updateUserSchema (body req)
  = Zod.Success updates ->
  user req = JObj claim ->
  strict_equals (Spec.claim_id claim) (JNum (Fin (Validation.id idData))) = true
  /\ Validation.role updates = None
  \/ Spec.claim_role claim = JStr "admin" ->
  Spec.matching (Validation.id idData) (rows w) = u :: others ->
  Validation.email updates = Some e ->
  r ∈ rows w -> eq_id (Validation.id idData) r = false -> Model.email r = e ->
  Controller.updateUserById locale req w
  = (Ok (NextError unique_violation),
     mkWorld (rows w)
       (statements w ++ [Select (Some (Validation.id idData));
                         Update (Facts.update_data updates (now w))
                                (Validation.id idData)])
       (now w)).
Proof.
  intros Hid Hbody Huser Hauth Hrow He Hr Er Hre.
  rewrite (updateUserById_validated locale req w idData updates claim Hid Hbody Huser).
  assert ((negb (strict_equals (Spec.claim_id claim) (JNum (Fin (Validation.id idData))))
           && negb (strict_equals (Spec.claim_role claim) (JStr "admin")) = false)
          /\ (truthy (from_option JStr JUndefined (Validation.role updates))
              && negb (strict_equals (Spec.claim_role claim) (JStr "admin")) = false))
    as [-> ->].
  { destruct Hauth as [[-> ->] | ->]; [done|].
    cbn [strict_equals]. rewrite String.eqb_refl. cbn [negb].
    by rewrite !andb_false_r. }
  unfold try_catch, bind.
  rewrite updateUser_run, (integer_param_matching _ _ _ _ Hrow), Hrow. cbn zeta.
  destruct (match Validation.email updates with Some _ => _ | None => true end)
    eqn:Hu; [exfalso|by rewrite not_found_or_next_run].
  rewrite He in Hu.
  unfold unique_email in Hu. apply bool_decide_eq_true in Hu.
  destruct (matching_In _ _ _ _ Hrow) as [Hin Eu].
  refine (duplicate_after_update _ _ e (rows w) u r _ Hin Eu Hr Er Hre Hu).
  reflexivity.
Qed.

Lemma update_with_taken_email_is_an_error_witness :
  Controller.updateUserById Sample.en
    (mkRequest None {[ "id" := "5" ]} (obj [("email", JStr "Alice@Example.com")])
       (Sample.claim 5 "user")) Sample.world
  = (Ok (NextError unique_violation),
     mkWorld (rows Sample.world)
       [Select (Some 5%Q);
        Update (mkUpdateData None (Some "alice@example.com") None 5000) 5%Q] 5000).
Proof.
  refine (update_with_taken_email_is_an_error Sample.en
    (mkRequest None {[ "id" := "5" ]} (obj [("email", JStr "Alice@Example.com")])
       (Sample.claim 5 "user")) Sample.world (Validation.mkIdParams 5)
    (Validation.mkUserUpdates None (Some "alice@example.com") None)
    (list_to_map [("id", of_Z 5); ("email", JStr "someone@example.com");
                  ("role", JStr "user")]) Sample.bob [] "alice@example.com"
    Sample.alice _ _ _ _ _ _ _ _ _);
    try (vm_compute; reflexivity).
  - left. split; vm_compute; reflexivity.
  - left.
Defined.

(** ** What an identity that is not an admin can change *)

Lemma strict_equals_row (v : jsval) (id : Q) (u : Model.User) :
  strict_equals v (JNum (Fin id)) = true -> eq_id id u = true ->
  strict_equals v (of_Z (Model.id u)) = true.
Proof.
  unfold of_Z, eq_id. destruct v as [| | |[| |q]| | | |]; simpl; try discriminate.
  rewrite !Qeq_bool_iff. intros H1 H2. by rewrite H1, H2.
Qed.

(** X11: an identity whose role is not [admin] can change no role and no
    row but its own: after [PUT /users/:id], every row has the role it had,
    and a row that differs from what it was has the id of the claim; after
    [DELETE /users/:id], every row that is gone has the id of the claim, and
    no row is new. *)
Theorem non_admin_touches_only_its_own_row locale (req : Request) (w w' : World)
    (out : completion Outcome) (claim : gmap string jsval) :
  user req = JObj claim ->
  Spec.claim_role claim <> JStr "admin" ->
  (Controller.updateUserById locale req w = (out, w') ->
   Forall2 (fun u u' =>
       Model.role u' = Model.role u
       /\ (u' <> u ->
           strict_equals (Spec.claim_id claim) (of_Z (Model.id u)) = true))
     (rows w) (rows w'))
  /\ (Controller.deleteUserById locale req w = (out, w') ->
      (forall u, u ∈ rows w' -> u ∈ rows w)
      /\ (forall u, u ∈ rows w -> u ∉ rows w' ->
            strict_equals (Spec.claim_id claim) (of_Z (Model.id u)) = true)).
Proof.
  intros Huser Hrole.
  pose proof (not_strict_equals_string _ _ Hrole) as Hna.
  split.
  - assert (Forall2 (fun u u' : Model.User =>
       Model.role u' = Model.role u
       /\ (u' <> u ->
           strict_equals (Spec.claim_id claim) (of_Z (Model.id u)) = true))
       (rows w) (rows w)) as Hsame.
    { apply Forall_Forall2_diag, Forall_forall. intros u _. split; [done|]. by intros []. }
    rewrite updateUserById_run.
    destruct (Zod.safeParse locale Validation.userIdSchema _) as [idData|error];
      [|intros H; by injection H as <- <-].
    destruct (Zod.safeParse locale Validation.updateUserSchema _)
      as [updates|error] eqn:Hbody; [|intros H; by injection H as <- <-].
    rewrite Huser. cbn [get]. fold (Spec.claim_id claim) (Spec.claim_role claim).
    rewrite Hna. cbn [negb]. rewrite !andb_true_r.
    destruct (strict_equals (Spec.claim_id claim) _) eqn:Hself; cbn [negb];
      [|intros H; by injection H as <- <-].
    destruct (truthy _) eqn:Htruthy; [intros H; by injection H as <- <-|].
    assert (Validation.role updates = None) as Hnorole.
    { destruct (Validation.role updates) as [r|] eqn:Hr; [|reflexivity].
      rewrite <- Hr in Htruthy.
      rewrite (accepted_role_truthy locale req updates Hbody) in Htruthy;
        [discriminate|congruence]. }
    destruct (Service.updateUser _ _ _) as [[v|e] w1] eqn:Hupd.
    + intros H. injection H as <- <-.
      pose proof (updateUser_frame _ _ _ _ _ Hupd) as Hframe. simpl in Hframe.
      eapply Forall2_impl; [exact Hframe|].
      intros u u' (_ & _ & _ & Hrest).
      destruct (eq_id (Validation.id idData) u) eqn:Eu.
      * destruct Hrest as (_ & _ & _ & ->). rewrite Hnorole. split; [done|].
        intros _. by apply (strict_equals_row _ (Validation.id idData)).
      * subst u'. split; [done|]. by intros [].
    + pose proof (updateUser_frame _ _ _ _ _ Hupd) as Hframe. simpl in Hframe.
      rewrite not_found_or_next_run. intros H. injection H as <- <-.
      by rewrite Hframe.
  - rewrite deleteUserById_run.
    assert (forall w0 : World, w0 = w ->
      (forall u, u ∈ rows w0 -> u ∈ rows w)
      /\ (forall u, u ∈ rows w -> u ∉ rows w0 ->
            strict_equals (Spec.claim_id claim) (of_Z (Model.id u)) = true))
      as Hsame.
    { intros w0 ->. split; [done|]. intros u Hu Hnu. by destruct Hnu. }
    destruct (Zod.safeParse locale Validation.userIdSchema _) as [idData|error];
      [|intros H; injection H as <- <-; by apply Hsame].
    rewrite Huser. cbn [get]. fold (Spec.claim_id claim) (Spec.claim_role claim).
    rewrite Hna. cbn [negb]. rewrite !andb_true_r.
    destruct (strict_equals (Spec.claim_id claim) _) eqn:Hself; cbn [negb];
      [|intros H; injection H as <- <-; by apply Hsame].
    rewrite deleteUser_run.
    destruct (integer_param _);
      [|rewrite not_found_or_next_run; intros H; injection H as <- <-;
        split; [done|]; intros u Hu Hnu; by destruct Hnu].
    destruct (Spec.matching _ _) as [|m ms].
    + rewrite not_found_or_next_run. intros H. injection H as <- <-.
      split; [done|]. intros u Hu Hnu. by destruct Hnu.
    + intros H. injection H as <- <-. cbn [rows]. split.
      * intros u Hu. by apply list_elem_of_filter in Hu as [_ Hu].
      * intros u Hu Hnu.
        apply (strict_equals_row _ (Validation.id idData)); [done|].
        destruct (eq_id (Validation.id idData) u) eqn:Eu; [reflexivity|].
        destruct Hnu. by apply list_elem_of_filter.
Qed.

Lemma non_admin_touches_only_its_own_row_witness :
  Forall2 (fun u u' =>
      Model.role u' = Model.role u
      /\ (u' <> u ->
          strict_equals (of_Z 5) (of_Z (Model.id u)) = true))
    (rows Sample.world)
    (rows (snd (Controller.updateUserById Sample.en
                  (mkRequest None {[ "id" := "5" ]} (obj [("name", JStr "Robert")])
                     (Sample.claim 5 "user")) Sample.world))).
Proof.
  refine (proj1 (non_admin_touches_only_its_own_row Sample.en
    (mkRequest None {[ "id" := "5" ]} (obj [("name", JStr "Robert")])
       (Sample.claim 5 "user")) Sample.world _
    (fst (Controller.updateUserById Sample.en
            (mkRequest None {[ "id" := "5" ]} (obj [("name", JStr "Robert")])
               (Sample.claim 5 "user")) Sample.world))
    (list_to_map [("id", of_Z 5); ("email", JStr "someone@example.com");
                  ("role", JStr "user")]) eq_refl _) _).
  - vm_compute. discriminate.
  - apply surjective_pairing.
Defined.

(** ** Strings: trimming and lower-casing *)

Lemma string_length_of_list (l : list ascii) :
  String.length (string_of_list_ascii l) = length l.
Proof. induction l; simpl; congruence. Qed.

Lemma length_list_of_string (s : string) :
  length (list_ascii_of_string s) = String.length s.
Proof. induction s; simpl; congruence. Qed.

Lemma length_trim_start (l : list ascii) : (length (trim_start l) <= length l)%nat.
Proof.
  induction l as [|c l IH]; simpl; [lia|].
  destruct (is_white_space c); simpl; lia.
Qed.

Lemma trim_start_idem (l : list ascii) : trim_start (trim_start l) = trim_start l.
Proof.
  induction l as [|c l IH]; [reflexivity|]. simpl.
  destruct (is_white_space c) eqn:E; [exact IH|]. simpl. by rewrite E.
Qed.

Lemma trim_start_suffix (l : list ascii) : exists k, l = (k ++ trim_start l)%list.
Proof.
  induction l as [|c l [k IH]]; [by exists []|]. simpl.
  destruct (is_white_space c).
  - exists (c :: k). simpl. by rewrite <- IH.
  - by exists [].
Qed.

Lemma trim_start_fixed_head (c : ascii) (l : list ascii) :
  trim_start (c :: l) = c :: l -> is_white_space c = false.
Proof.
  simpl. destruct (is_white_space c); [|reflexivity].
  intros H. pose proof (length_trim_start l) as Hlen. rewrite H in Hlen.
  simpl in Hlen. lia.
Qed.

Lemma length_trim_chars (l : list ascii) : (length (trim_chars l) <= length l)%nat.
Proof.
  unfold trim_chars. rewrite length_rev.
  etransitivity; [apply length_trim_start|]. rewrite length_rev.
  apply length_trim_start.
Qed.

Lemma trim_chars_idem (l : list ascii) : trim_chars (trim_chars l) = trim_chars l.
Proof.
  unfold trim_chars at 1.
  assert (trim_start (trim_chars l) = trim_chars l) as ->.
  { unfold trim_chars.
    destruct (trim_start_suffix (rev (trim_start l))) as [k Hk].
    destruct (rev (trim_start (rev (trim_start l)))) as [|c t] eqn:Hb; [reflexivity|].
    assert (trim_start l = (c :: t) ++ rev k)%list as Ha.
    { rewrite <- Hb, <- rev_app_distr, <- Hk. by rewrite rev_involutive. }
    pose proof (trim_start_idem l) as Hidem. rewrite Ha in Hidem.
    simpl in Hidem. simpl.
    by rewrite (trim_start_fixed_head c (t ++ rev k) Hidem). }
  unfold trim_chars. by rewrite rev_involutive, trim_start_idem.
Qed.

Lemma trim_idem (s : string) : Js.trim (Js.trim s) = Js.trim s.
Proof.
  unfold Js.trim. by rewrite list_ascii_of_string_of_list_ascii, trim_chars_idem.
Qed.

Lemma length_trim (s : string) : (String.length (Js.trim s) <= String.length s)%nat.
Proof.
  unfold Js.trim. rewrite string_length_of_list, <- length_list_of_string.
  apply length_trim_chars.
Qed.

Lemma trim_white_space (l : list ascii) :
  forallb is_white_space l = true -> trim_chars l = [].
Proof.
  intros H. unfold trim_chars.
  assert (trim_start l = []) as ->; [|reflexivity].
  induction l as [|c l IH]; [reflexivity|]. simpl in *.
  apply andb_prop in H as [-> H]. by apply IH.
Qed.

Lemma lower_char_idem (c : ascii) : lower_char (lower_char c) = lower_char c.
Proof. destruct c as [[] [] [] [] [] [] [] []]; reflexivity. Qed.

Lemma toLowerCase_idem (s : string) :
  Js.toLowerCase (Js.toLowerCase s) = Js.toLowerCase s.
Proof.
  unfold Js.toLowerCase. rewrite list_ascii_of_string_of_list_ascii, map_map.
  f_equal. apply map_ext. intros c. apply lower_char_idem.
Qed.

Lemma length_toLowerCase (s : string) :
  String.length (Js.toLowerCase s) = String.length s.
Proof.
  unfold Js.toLowerCase.
  by rewrite string_length_of_list, length_map, length_list_of_string.
Qed.

(** Lower-casing maps each class of the e-mail pattern into itself. *)
Lemma lower_char_classes (c : ascii) :
  Zod.is_letter (lower_char c) = Zod.is_letter c
  /\ Zod.is_alnum (lower_char c) = Zod.is_alnum c
  /\ Zod.local_last (lower_char c) = Zod.local_last c
  /\ Zod.local_char (lower_char c) = Zod.local_char c
  /\ Zod.is_char 46 (lower_char c) = Zod.is_char 46 c
  /\ Zod.is_char 45 (lower_char c) = Zod.is_char 45 c
  /\ Zod.is_char 64 (lower_char c) = Zod.is_char 64 c.
Proof. destruct c as [[] [] [] [] [] [] [] []]; vm_compute; tauto. Qed.

Lemma forallb_map_lower (f : ascii -> bool) (l : list ascii) :
  (forall c, f (lower_char c) = f c) ->
  forallb f (map lower_char l) = forallb f l.
Proof. intros H. induction l; simpl; [reflexivity|]. by rewrite H, IHl. Qed.

Lemma split_on_lower (n : N) (l : list ascii) :
  (forall c, Zod.is_char n (lower_char c) = Zod.is_char n c) ->
  Zod.split_on n (map lower_char l) = map (map lower_char) (Zod.split_on n l).
Proof.
  intros H. induction l as [|c l IH]; [reflexivity|]. simpl. rewrite IH.
  destruct (Zod.split_on n l) as [|w ws]; [reflexivity|]. simpl. rewrite H.
  by destruct (Zod.is_char n c).
Qed.

Lemma has_double_dot_lower (l : list ascii) :
  Zod.has_double_dot (map lower_char l) = Zod.has_double_dot l.
Proof.
  induction l as [|c [|d l] IH]; [reflexivity..|].
  cbn [map Zod.has_double_dot] in *. rewrite IH.
  by rewrite !(proj1 (proj2 (proj2 (proj2 (proj2 (lower_char_classes _)))))).
Qed.

Lemma local_ok_lower (w : list ascii) :
  Zod.local_ok (map lower_char w) = Zod.local_ok w.
Proof.
  unfold Zod.local_ok. rewrite <- map_rev. destruct (rev w) as [|c t]; [reflexivity|].
  simpl. rewrite forallb_map_lower by (intros; apply lower_char_classes).
  by rewrite (proj1 (proj2 (proj2 (lower_char_classes c)))).
Qed.

Lemma domain_label_lower (w : list ascii) :
  Zod.domain_label (map lower_char w) = Zod.domain_label w.
Proof.
  destruct w as [|c t]; [reflexivity|]. simpl.
  rewrite (proj1 (proj2 (lower_char_classes c))). f_equal.
  apply forallb_map_lower. intros d.
  destruct (lower_char_classes d) as (_ & -> & _ & _ & _ & -> & _). reflexivity.
Qed.

Lemma domain_ok_lower (d : list ascii) :
  Zod.domain_ok (map lower_char d) = Zod.domain_ok d.
Proof.
  unfold Zod.domain_ok.
  rewrite split_on_lower by (intros; apply lower_char_classes).
  rewrite <- map_rev. destruct (rev (Zod.split_on 46 d)) as [|tld [|lab labs]];
    [reflexivity..|].
  cbn [map]. f_equal.
  - unfold Zod.top_level. rewrite length_map. f_equal.
    apply forallb_map_lower. intros; apply lower_char_classes.
  - cbn [forallb]. rewrite domain_label_lower. f_equal.
    induction labs as [|a labs IH]; [reflexivity|]. simpl.
    by rewrite domain_label_lower, IH.
Qed.

Lemma email_pattern_lower (s : string) :
  Zod.email_pattern (Js.toLowerCase s) = Zod.email_pattern s.
Proof.
  unfold Zod.email_pattern, Js.toLowerCase.
  rewrite list_ascii_of_string_of_list_ascii.
  rewrite has_double_dot_lower.
  rewrite split_on_lower by (intros; apply lower_char_classes).
  f_equal; [f_equal|].
  - destruct (list_ascii_of_string s) as [|c t]; [reflexivity|]. simpl.
    by rewrite (proj1 (proj2 (proj2 (proj2 (proj2 (lower_char_classes c)))))).
  - destruct (Zod.split_on 64 (list_ascii_of_string s)) as [|w [|d [|? ?]]];
      try reflexivity.
    cbn [map]. by rewrite local_ok_lower, domain_ok_lower.
Qed.

(** ** What the update schema lets through *)

Lemma accepted_name_facts (v : jsval) (n : string) :
  Spec.accepted_name v = Some (Some n) ->
  Js.trim n = n /\ (String.length n <= 255)%nat.
Proof.
  unfold Spec.accepted_name. destruct v; try discriminate.
  destruct (2 <=? _); [|discriminate]. simpl.
  destruct (_ <=? 255) eqn:Hmax; [|discriminate].
  intros Hn. injection Hn as <-. split; [apply trim_idem|].
  pose proof (length_trim s). lia.
Qed.

Lemma accepted_email_facts (v : jsval) (e : string) :
  Spec.accepted_email v = Some (Some e) ->
  Zod.email_pattern e = true /\ Js.toLowerCase e = e /\ Js.trim e = e
  /\ (String.length e <= 255)%nat.
Proof.
  unfold Spec.accepted_email. destruct v; try discriminate.
  destruct (Zod.email_pattern s) eqn:Hpat; [|discriminate]. simpl.
  destruct (_ <=? 255) eqn:Hmax; [|discriminate].
  intros He. injection He as <-.
  destruct (accepted_email_needs_no_trim s Hpat) as [_ Htrim].
  rewrite Htrim, email_pattern_lower, toLowerCase_idem, length_toLowerCase.
  repeat split; try done. lia.
Qed.

Lemma accepted_role_facts (v : jsval) (r : string) :
  Spec.accepted_role v = Some (Some r) -> r = "user" \/ r = "admin".
Proof.
  unfold Spec.accepted_role. destruct v; try discriminate.
  destruct (String.eqb s "user") eqn:E1; simpl.
  - intros Hr. injection Hr as <-. left. by apply String.eqb_eq.
  - destruct (String.eqb s "admin") eqn:E2; [|discriminate].
    intros Hr. injection Hr as <-. right. by apply String.eqb_eq.
Qed.

(** X12: whatever passes the update schema is normalised: a name is
    trimmed and has at most 255 characters; an e-mail address is lower-case,
    has no white space around it, has at most 255 characters and still
    matches the e-mail pattern; a role is [user] or [admin]. *)
Theorem update_schema_normalises locale (input : jsval)
    (updates : Validation.UserUpdates) :
  Zod.safeParse locale Validation.updateUserSchema input = Zod.Success updates ->
  (forall n, Validation.name updates = Some n ->
     Js.trim n = n /\ (String.length n <= 255)%nat)
  /\ (forall e, Validation.email updates = Some e ->
        Zod.email_pattern e = true /\ Js.toLowerCase e = e /\ Js.trim e = e
        /\ (String.length e <= 255)%nat)
  /\ (forall r, Validation.role updates = Some r -> r = "user" \/ r = "admin").
Proof.
  intros H. apply updateUserSchema_success in H as (o & _ & Hn & He & Hr & _).
  split; [|split].
  - intros n Hname. rewrite Hname in Hn. by apply (accepted_name_facts _ _ Hn).
  - intros e Hemail. rewrite Hemail in He. by apply (accepted_email_facts _ _ He).
  - intros r Hrole. rewrite Hrole in Hr. by apply (accepted_role_facts _ _ Hr).
Qed.

Lemma update_schema_normalises_witness :
  (forall n, Some "Ann Lee" = Some n ->
     Js.trim n = n /\ (String.length n <= 255)%nat)
  /\ (forall e, Some "ann@example.org" = Some e ->
        Zod.email_pattern e = true /\ Js.toLowerCase e = e /\ Js.trim e = e
        /\ (String.length e <= 255)%nat)
  /\ (forall r, Some "admin" = Some r -> r = "user" \/ r = "admin").
Proof.
  apply (update_schema_normalises Sample.en
           (obj [("name", JStr " Ann Lee  "); ("email", JStr "Ann@Example.ORG");
                 ("role", JStr "admin")])
           (Validation.mkUserUpdates (Some "Ann Lee") (Some "ann@example.org")
                                     (Some "admin"))).
  vm_compute. reflexivity.
Defined.

(** X13: the length bounds of [name] are checked before the name is
    trimmed: a name made of 2 to 255 white-space characters is accepted, and
    the accepted name is the empty string. *)
Theorem blank_name_is_accepted_as_empty locale (o : gmap string jsval)
    (s : string) :
  o !! "name" = Some (JStr s) -> o !! "email" = None -> o !! "role" = None ->
  forallb is_white_space (list_ascii_of_string s) = true ->
  (2 <= String.length s <= 255)%nat ->
  Zod.safeParse locale Validation.updateUserSchema (JObj o)
  = Zod.Success (Validation.mkUserUpdates (Some "") None None).
Proof.
  intros Hn He Hr Hws Hlen. apply updateUserSchema_success.
  exists o. rewrite Hn, He, Hr. simpl.
  assert ((2 <=? Z.of_nat (String.length s)) = true) as -> by (apply Z.leb_le; lia).
  assert ((Z.of_nat (String.length s) <=? 255) = true) as -> by (apply Z.leb_le; lia).
  unfold Js.trim. rewrite (trim_white_space _ Hws). simpl.
  repeat split. by left.
Qed.

Lemma blank_name_is_accepted_as_empty_witness :
  Zod.safeParse Sample.en Validation.updateUserSchema
    (JObj {[ "name" := JStr "   " ]})
  = Zod.Success (Validation.mkUserUpdates (Some "") None None).
Proof.
  apply (blank_name_is_accepted_as_empty Sample.en {[ "name" := JStr "   " ]} "   ");
    try reflexivity.
  simpl. lia.
Defined.

(** X14: an e-mail address with a white-space character anywhere in it, in
    particular around it, never passes the update schema: the request is not
    accepted, so the [trim] at the end of the e-mail chain never removes
    anything. *)
Theorem email_with_white_space_is_rejected locale (o : gmap string jsval)
    (s : string) (c : ascii) :
  o !! "email" = Some (JStr s) ->
  c ∈ list_ascii_of_string s -> is_white_space c = true ->
  (forall updates,
     Zod.safeParse locale Validation.updateUserSchema (JObj o)
     <> Zod.Success updates)
  /\ exists error,
       Zod.safeParse locale Validation.updateUserSchema (JObj o)
       = Zod.Failure error.
Proof.
  intros Hs Hc Hws.
  assert (forall updates,
            Zod.safeParse locale Validation.updateUserSchema (JObj o)
            <> Zod.Success updates) as Hno.
  { intros updates Hok.
    apply updateUserSchema_success in Hok as (o' & Ho & _ & He & _).
    injection Ho as <-. rewrite Hs in He. simpl in He.
    destruct (Zod.email_pattern s) eqn:E; [|discriminate].
    pose proof (address_char_not_white_space c
                  (email_pattern_address_chars s c E Hc)).
    congruence. }
  split; [exact Hno|].
  destruct (Zod.safeParse locale Validation.updateUserSchema (JObj o)) as [u|error];
    [by destruct (Hno u)|by exists error].
Qed.

Lemma email_with_white_space_is_rejected_witness :
  (forall updates,
     Zod.safeParse Sample.en Validation.updateUserSchema
       (JObj {[ "email" := JStr "foo@bar.com " ]})
     <> Zod.Success updates)
  /\ exists error,
       Zod.safeParse Sample.en Validation.updateUserSchema
         (JObj {[ "email" := JStr "foo@bar.com " ]})
       = Zod.Failure error.
Proof.
  apply (email_with_white_space_is_rejected Sample.en
           {[ "email" := JStr "foo@bar.com " ]} "foo@bar.com " " "%char).
  - reflexivity.
  - simpl. do 11 right. left.
  - reflexivity.
Defined.

(** ** Invariants of the table *)

(** What a route can do to the rows: nothing, the write of an accepted
    update, or the removal of the rows with one identifier. *)
Lemma route_rows verify locale (chain : list Routes.Handler) (req : Request)
    (w w' : World) (out : completion Outcome) :
  chain ∈ Facts.routes verify locale ->
  Routes.dispatch chain req w = (out, w') ->
  rows w' = rows w
  \/ (exists input updates id,
        Zod.safeParse locale Validation.updateUserSchema input = Zod.Success updates
        /\ rows w' = Facts.written (Facts.update_data updates (now w)) id (rows w)
        /\ (Validation.email updates <> None -> NoDup (map Model.email (rows w'))))
  \/ (exists id, rows w' = filter (fun r => eq_id id r = false) (rows w)).
Proof.
  intros Hchain. unfold Facts.routes in Hchain.
  repeat (apply elem_of_cons in Hchain as [->|Hchain]);
    [ | | | |by apply elem_of_nil in Hchain].
  - unfold Routes.get_users. rewrite dispatch_authenticated.
    destruct (truthy _); [|intros H; injection H as <- <-; by left].
    destruct (verify _); [|intros H; injection H as <- <-; by left].
    rewrite dispatch_middleware.
    destruct (Auth.requireRole _ _); try (intros H; injection H as <- <-; by left).
  - unfold Routes.get_user_by_id. rewrite dispatch_authenticated.
    destruct (truthy _); [|intros H; injection H as <- <-; by left].
    destruct (verify _); [|intros H; injection H as <- <-; by left].
    rewrite dispatch_last, fetchUserById_run.
    destruct (Zod.safeParse _ _ _); [|intros H; injection H as <- <-; by left].
    rewrite getUserById_run.
    destruct (integer_param _);
      [|rewrite not_found_or_next_run; intros H; injection H as <- <-; by left].
    destruct (Spec.matching _ _).
    + rewrite not_found_or_next_run. intros H; injection H as <- <-; by left.
    + intros H; injection H as <- <-; by left.
  - unfold Routes.put_user_by_id. rewrite dispatch_authenticated.
    destruct (truthy _); [|intros H; injection H as <- <-; by left].
    destruct (verify _); [|intros H; injection H as <- <-; by left].
    rewrite dispatch_last, updateUserById_run.
    destruct (Zod.safeParse locale Validation.userIdSchema _) as [idData|?];
      [|intros H; injection H as <- <-; by left].
    destruct (Zod.safeParse locale Validation.updateUserSchema _) as [updates|?] eqn:Hbody;
      [|intros H; injection H as <- <-; by left].
    destruct (get _ "id"); [|intros H; injection H as <- <-; by left].
    destruct (get _ "role"); [|intros H; injection H as <- <-; by left].
    destruct (negb _ && negb _); [intros H; injection H as <- <-; by left|].
    destruct (truthy _ && negb _); [intros H; injection H as <- <-; by left|].
    rewrite updateUser_run. cbn zeta.
    destruct (integer_param _);
      [|rewrite not_found_or_next_run; intros H; injection H as <- <-; by left].
    destruct (Spec.matching _ _).
    { rewrite not_found_or_next_run. intros H; injection H as <- <-; by left. }
    destruct (match Validation.email updates with Some _ => _ | None => true end)
      eqn:Hu.
    + destruct (storable _);
        [|rewrite not_found_or_next_run; intros H; injection H as <- <-; by left].
      intros H; injection H as <- <-. right. left.
      eexists _, updates, (Validation.id idData). split; [exact Hbody|].
      split; [reflexivity|]. intros Hemail. cbn [rows].
      destruct (Validation.email updates); [|done].
      unfold unique_email in Hu. by apply bool_decide_eq_true in Hu.
    + rewrite not_found_or_next_run. intros H; injection H as <- <-; by left.
  - unfold Routes.delete_user_by_id. rewrite dispatch_authenticated.
    destruct (truthy _); [|intros H; injection H as <- <-; by left].
    destruct (verify _); [|intros H; injection H as <- <-; by left].
    rewrite dispatch_last, deleteUserById_run.
    destruct (Zod.safeParse locale Validation.userIdSchema _) as [idData|?];
      [|intros H; injection H as <- <-; by left].
    destruct (get _ "id"); [|intros H; injection H as <- <-; by left].
    destruct (get _ "role"); [|intros H; injection H as <- <-; by left].
    destruct (negb _ && negb _); [intros H; injection H as <- <-; by left|].
    rewrite deleteUser_run.
    destruct (integer_param _);
      [|rewrite not_found_or_next_run; intros H; injection H as <- <-; by left].
    destruct (Spec.matching _ _).
    + rewrite not_found_or_next_run. intros H; injection H as <- <-; by left.
    + intros H; injection H as <- <-. right. right. by eexists.
Qed.

(** X15: every route keeps the keys of the table unique: if no two rows
    share an [id] and no two rows share an [email] before a request, the same
    holds after it, whatever the request and its outcome. *)
Theorem routes_keep_keys_unique verify locale (chain : list Routes.Handler)
    (req : Request) (w w' : World) (out : completion Outcome) :
  chain ∈ Facts.routes verify locale ->
  Routes.dispatch chain req w = (out, w') ->
  Facts.keys_unique (rows w) -> Facts.keys_unique (rows w').
Proof.
  intros Hchain Hrun [Hids Hemails].
  destruct (route_rows verify locale chain req w w' out Hchain Hrun)
    as [-> | [(input & updates & id & Hok & -> & Hnew) | (id & ->)]].
  - by split.
  - split; [by rewrite written_id|].
    destruct (Validation.email updates) eqn:He; [by apply Hnew|].
    by rewrite written_email_None.
  - split.
    + eapply sublist_NoDup; [exact Hids|].
      apply (fmap_sublist Model.id), sublist_filter.
    + eapply sublist_NoDup; [exact Hemails|].
      apply (fmap_sublist Model.email), sublist_filter.
Qed.

Lemma routes_keep_keys_unique_witness :
  Facts.keys_unique
    (rows (snd (Routes.dispatch (Routes.put_user_by_id Sample.verify Sample.en)
                  (Sample.request (Some "token-of-user-5") "5"
                     (obj [("email", JStr "Carol@Example.com")])) Sample.world))).
Proof.
  refine (routes_keep_keys_unique Sample.verify Sample.en
    (Routes.put_user_by_id Sample.verify Sample.en)
    (Sample.request (Some "token-of-user-5") "5"
       (obj [("email", JStr "Carol@Example.com")])) Sample.world _
    (fst (Routes.dispatch (Routes.put_user_by_id Sample.verify Sample.en)
            (Sample.request (Some "token-of-user-5") "5"
               (obj [("email", JStr "Carol@Example.com")])) Sample.world)) _ _ _).
  - unfold Facts.routes. do 2 right. left.
  - apply surjective_pairing.
  - split; apply (bool_decide_eq_true_1 (NoDup _)); vm_compute; reflexivity.
Defined.

Lemma assign_normalised (updates : Validation.UserUpdates) time locale input
    (u : Model.User) :
  Zod.safeParse locale Validation.updateUserSchema input = Zod.Success updates ->
  Facts.normalised u ->
  Facts.normalised (assign (Facts.update_data updates time) u).
Proof.
  intros Hok (Hrole & Hpat & Hlow & Hlen & Htrim & Hnlen).
  apply updateUserSchema_success in Hok as (o & _ & Hn & He & Hr & _).
  unfold Facts.normalised, assign, Facts.update_data. simpl.
  split; [|split].
  - destruct (Validation.role updates) as [r|];
      [by apply (accepted_role_facts _ _ Hr)|exact Hrole].
  - destruct (Validation.email updates) as [e|];
      [destruct (accepted_email_facts _ _ He) as (? & ? & _ & ?)|]; simpl; tauto.
  - destruct (Validation.name updates) as [n|];
      [destruct (accepted_name_facts _ _ Hn)|]; simpl;
    destruct (Validation.email updates) as [e|];
      try destruct (accepted_email_facts _ _ He) as (? & ? & _ & ?); simpl; tauto.
Qed.

(** X16: every route keeps the rows normalised: if before a request every
    row has a role of the enumeration, a lower-case address matching the
    e-mail pattern, a trimmed name, and both within 255 characters, then the
    same holds after it. *)
Theorem routes_keep_rows_normalised verify locale (chain : list Routes.Handler)
    (req : Request) (w w' : World) (out : completion Outcome) :
  chain ∈ Facts.routes verify locale ->
  Routes.dispatch chain req w = (out, w') ->
  Forall Facts.normalised (rows w) -> Forall Facts.normalised (rows w').
Proof.
  intros Hchain Hrun Hall.
  destruct (route_rows verify locale chain req w w' out Hchain Hrun)
    as [-> | [(input & updates & id & Hok & -> & _) | (id & ->)]].
  - exact Hall.
  - unfold Facts.written. apply Forall_forall. intros r Hr.
    apply list_elem_of_fmap in Hr as (r0 & -> & Hr0).
    rewrite Forall_forall in Hall. specialize (Hall r0 Hr0).
    destruct (eq_id id r0); [|exact Hall].
    by apply (assign_normalised updates (now w) locale input).
  - rewrite Forall_forall in *. intros r Hr.
    apply list_elem_of_filter in Hr as [_ Hr]. by apply Hall.
Qed.

Lemma routes_keep_rows_normalised_witness :
  Forall Facts.normalised
    (rows (snd (Routes.dispatch (Routes.put_user_by_id Sample.verify Sample.en)
                  (Sample.request (Some "token-of-admin-1") "7"
                     (obj [("name", JStr "  Caroline "); ("role", JStr "admin");
                           ("email", JStr "Caroline@Example.COM")]))
                  Sample.world))).
Proof.
  refine (routes_keep_rows_normalised Sample.verify Sample.en
    (Routes.put_user_by_id Sample.verify Sample.en)
    (Sample.request (Some "token-of-admin-1") "7"
       (obj [("name", JStr "  Caroline "); ("role", JStr "admin");
             ("email", JStr "Caroline@Example.COM")])) Sample.world _
    (fst (Routes.dispatch (Routes.put_user_by_id Sample.verify Sample.en)
            (Sample.request (Some "token-of-admin-1") "7"
               (obj [("name", JStr "  Caroline "); ("role", JStr "admin");
                     ("email", JStr "Caroline@Example.COM")])) Sample.world)) _ _ _).
  - unfold Facts.routes. do 2 right. left.
  - apply surjective_pairing.
  - repeat (apply Forall_cons; split); [..|apply Forall_nil];
      unfold Facts.normalised; repeat split;
      try reflexivity; try (by left); try (by right); simpl; lia.
Defined.

(** ** The record service: reads after writes *)

(** X17: a successful [updateUser] is visible to the next read: the record
    it returns is the record [getUserById] returns for the same identifier
    right after. *)
Theorem update_then_get (id : Q) (updates : Validation.UserUpdates)
    (w w' : World) (v : jsval) :
  Service.updateUser id updates w = (Ok v, w') ->
  exists w'', Service.getUserById id w' = (Ok v, w'') /\ rows w'' = rows w'.
Proof.
  rewrite updateUser_run. cbn zeta.
  destruct (integer_param id) eqn:Hid; [|intros H; inversion H].
  destruct (Spec.matching id (rows w)) as [|u others] eqn:Hrow;
    [intros H; inversion H|].
  destruct (match Validation.email updates with Some _ => _ | None => true end);
    [|intros H; inversion H].
  destruct (storable _); [|intros H; inversion H].
  intros H. injection H as <- <-.
  rewrite getUserById_run, Hid. cbn [rows].
  fold (Facts.written
          (mkUpdateData (Validation.name updates) (Validation.email updates)
                        (Validation.role updates) (now w)) id (rows w)).
  unfold Facts.written. rewrite matching_assign, Hrow. cbn [map].
  eexists. split; reflexivity.
Qed.

Lemma update_then_get_witness :
  exists w'',
    Service.getUserById 5
      (mkWorld [Sample.alice;
                Model.mkUser 5 "Robert" "bob@example.com" "$2b$10$hashB" "user" 2000 5000 I;
                Sample.carol]
         [Select (Some 5%Q);
          Update (mkUpdateData (Some "Robert") None None 5000) 5%Q] 5000)
    = (Ok (project Service.public_columns
             (Model.mkUser 5 "Robert" "bob@example.com" "$2b$10$hashB" "user" 2000 5000 I)),
       w'')
    /\ rows w'' = [Sample.alice;
                   Model.mkUser 5 "Robert" "bob@example.com" "$2b$10$hashB" "user" 2000 5000 I;
                   Sample.carol].
Proof.
  apply (update_then_get 5 (Validation.mkUserUpdates (Some "Robert") None None)
           Sample.world).
  vm_compute. reflexivity.
Defined.

(** X18: [deleteUser] succeeds exactly when [getUserById] does; the record
    it returns has the [id], [email], [name] and [role] of the record
    [getUserById] returns just before, and right after the delete
    [getUserById] throws "User not found". *)
Theorem delete_returns_the_record_read (id : Q) (w : World) :
  (forall g w1, Service.getUserById id w = (Ok g, w1) ->
     exists d w2 og od,
       Service.deleteUser id w = (Ok d, w2)
       /\ g = JObj og /\ d = JObj od
       /\ (forall k, k ∈ ["id"; "email"; "name"; "role"] -> od !! k = og !! k)
       /\ exists w3,
            Service.getUserById id w2 = (Throw (mkError "User not found"), w3))
  /\ (forall e w1, Service.getUserById id w = (Throw e, w1) ->
        exists w2, Service.deleteUser id w = (Throw e, w2) /\ rows w2 = rows w).
Proof.
  rewrite getUserById_run, deleteUser_run.
  destruct (integer_param id) eqn:Hid.
  2:{ split.
      - intros g w1 H. inversion H.
      - intros e w1 H. injection H as <- <-. eexists. split; reflexivity. }
  destruct (Spec.matching id (rows w)) as [|u others]; split.
  - intros g w1 H. inversion H.
  - intros e w1 H. injection H as <- <-. eexists. split; reflexivity.
  - intros g w1 H. injection H as <- <-.
    eexists _, _, _, _. split; [reflexivity|].
    split; [reflexivity|]. split; [reflexivity|]. split.
    + intros k Hk.
      repeat (apply elem_of_cons in Hk as [->|Hk]; [vm_compute; reflexivity|]).
      by apply elem_of_nil in Hk.
    + rewrite getUserById_run, Hid. cbn [rows]. rewrite matching_after_delete.
      eexists. reflexivity.
  - intros e w1 H. inversion H.
Qed.

Lemma delete_returns_the_record_read_witness :
  exists d w2 og od,
    Service.deleteUser 7 Sample.world = (Ok d, w2)
    /\ project Service.public_columns Sample.carol = JObj og /\ d = JObj od
    /\ (forall k, k ∈ ["id"; "email"; "name"; "role"] -> od !! k = og !! k)
    /\ exists w3,
         Service.getUserById 7 w2 = (Throw (mkError "User not found"), w3).
Proof.
  apply (proj1 (delete_returns_the_record_read 7 Sample.world)
           (project Service.public_columns Sample.carol)
           (mkWorld (rows Sample.world) [Select (Some 7%Q)] 5000)).
  vm_compute. reflexivity.
Defined.

(** ** The authorization step, in full *)

(** X19: [requireRole] lets a request pass exactly when a claim is attached
    and the allowed list is empty or holds the claim's role, and then passes
    it on unchanged; without a claim it answers 401 "Authentication
    required", whatever the list. *)
Theorem requireRole_passes_exactly_when (roles : list string) (req : Request) :
  (forall req', Auth.requireRole roles req = Next req' <->
     req' = req /\ truthy (user req) = true
     /\ (roles = [] \/ exists r, r ∈ roles /\ get (user req) "role" = Ok (JStr r)))
  /\ (truthy (user req) = false ->
      Auth.requireRole roles req
      = Reply 401 (Spec.error_message "Access denied" "Authentication required")).
Proof.
  unfold Auth.requireRole. split; [|by intros ->].
  destruct (truthy (user req)) eqn:Huser; cbn [negb].
  2:{ intros req'. split; [discriminate|]. by intros (_ & ? & _). }
  destruct (get (user req) "role") as [role|e] eqn:Hrole.
  2:{ destruct (user req); simpl in *; discriminate. }
  intros req'. destruct roles as [|r0 roles'].
  - cbn. split; [intros H; injection H as <-; auto|]. by intros (-> & _).
  - cbn [length Nat.eqb negb andb].
    destruct (includes (r0 :: roles') role) eqn:Hinc; cbn [negb].
    + apply includes_spec in Hinc as (r & Hr & ->). split.
      * intros H; injection H as <-. eauto 6.
      * by intros (-> & _).
    + split; [discriminate|]. intros (_ & _ & [H | (r & Hr & Heq)]); [discriminate|].
      injection Heq as ->.
      assert (includes (r0 :: roles') (JStr r) = true) as Hyes
        by (apply includes_spec; eauto).
      congruence.
Qed.

Lemma requireRole_passes_exactly_when_witness :
  Auth.requireRole ["admin"; "auditor"]
    (mkRequest None ∅ JUndefined (Sample.claim 1 "admin"))
  = Next (mkRequest None ∅ JUndefined (Sample.claim 1 "admin"))
  /\ Auth.requireRole [] (mkRequest None ∅ JUndefined JUndefined)
     = Reply 401 (Spec.error_message "Access denied" "Authentication required").
Proof.
  split.
  - apply (proj1 (requireRole_passes_exactly_when ["admin"; "auditor"]
                    (mkRequest None ∅ JUndefined (Sample.claim 1 "admin")))).
    split; [reflexivity|]. split; [reflexivity|].
    right. exists "admin". split; [left|reflexivity].
  - apply (proj2 (requireRole_passes_exactly_when []
                    (mkRequest None ∅ JUndefined JUndefined))).
    reflexivity.
Defined.

(** ** Decimal identifiers *)

Lemma Qred_of_integer (q : Q) (z : Z) : (q == inject_Z z)%Q -> Qred q = inject_Z z.
Proof. intros H. by rewrite (Qred_complete _ _ H), Qred_inject_Z. Qed.

(** A positive integer below [2 ^ 53] is a double. *)
Lemma binary64_exact (n : Z) : 0 < n < 2 ^ 53 -> binary64 n 1 = Fin (inject_Z n).
Proof.
  intros [Hpos Hlt]. unfold binary64, scale.
  change (Z.log2 1) with 0. rewrite Z.sub_0_r.
  pose proof (Z.log2_nonneg n) as He0.
  pose proof (proj1 (Z.log2_lt_pow2 n 53 Hpos) Hlt) as He1.
  pose proof (Z.log2_spec n Hpos) as [Hlow _].
  assert ((0 <=? Z.log2 n) = true) as -> by (apply Z.leb_le; lia).
  rewrite Z.mul_1_l.
  assert ((2 ^ Z.log2 n <=? n) = true) as -> by (by apply Z.leb_le).
  rewrite Z.max_l by lia.
  set (k := 52 - Z.log2 n).
  assert (exists n1, (if 0 <=? Z.log2 n - 52
                      then (n, 1 * 2 ^ (Z.log2 n - 52))
                      else (n * 2 ^ (- (Z.log2 n - 52)), 1)) = (n1, 1)
                     /\ n1 = n * 2 ^ k) as (n1 & -> & Hn1).
  { destruct (0 <=? Z.log2 n - 52) eqn:E.
    - apply Z.leb_le in E. assert (Z.log2 n = 52) as H52 by lia.
      exists n. rewrite H52. split; [reflexivity|].
      subst k. rewrite H52. simpl. lia.
    - eexists. split; [reflexivity|]. subst k. f_equal. f_equal. lia. }
  assert (0 <= k) as Hk by (subst k; lia).
  assert (0 < 2 ^ k) as Hpow by (apply Z.pow_pos_nonneg; lia).
  assert (0 < n1) as Hn1pos by (subst n1; lia).
  rewrite Z.div_1_r, Z.mod_1_r.
  change (2 * 0 <? 1) with true. cbn iota.
  assert ((n1 =? 0) = false) as -> by (apply Z.eqb_neq; lia).
  assert (Z.log2 n1 = 52) as Hlog.
  { subst n1. rewrite Z.log2_mul_pow2 by lia. subst k. lia. }
  rewrite Hlog.
  assert ((1024 <=? 52 + (Z.log2 n - 52)) = false) as -> by (apply Z.leb_gt; lia).
  f_equal. apply Qred_of_integer.
  destruct (0 <=? Z.log2 n - 52) eqn:E.
  - apply Z.leb_le in E. assert (Z.log2 n = 52) as H52 by lia.
    subst n1 k. rewrite H52. simpl. by rewrite !Z.mul_1_r.
  - unfold Qeq, inject_Z. simpl.
    replace (- (Z.log2 n - 52)) with k by (subst k; lia).
    rewrite Z2Pos.id by lia. subst n1. lia.
Qed.


Lemma digits_are_digits (d : Decimal.uint) :
  forallb Facts.is_digit (Facts.digits d) = true.
Proof. induction d; simpl; auto. Qed.

Lemma is_digit_facts (c : ascii) :
  Facts.is_digit c = true ->
  is_white_space c = false
  /\ (exists v, digit 10 c = Some v)
  /\ (charCode c =? 43)%N = false /\ (charCode c =? 45)%N = false
  /\ (charCode c =? 46)%N = false
  /\ (charCode c =? 120)%N = false /\ (charCode c =? 88)%N = false
  /\ (charCode c =? 111)%N = false /\ (charCode c =? 79)%N = false
  /\ (charCode c =? 98)%N = false /\ (charCode c =? 66)%N = false
  /\ Ascii.eqb c "I" = false.
Proof.
  destruct c as [[] [] [] [] [] [] [] []]; vm_compute; try discriminate;
    intros _; repeat split; eauto.
Qed.

Lemma read_digits_numeral (d : Decimal.uint) (acc : N) (len : nat) :
  read_digits 10 (Facts.digits d) acc len
  = (Facts.horner d acc, (len + length (Facts.digits d))%nat, []).
Proof.
  revert acc len.
  induction d; intros acc len; unfold Facts.digits in *; simpl;
    rewrite ?IHd, ?N.add_0_r, ?Nat.add_0_r, <- ?Nat.add_succ_comm; reflexivity.
Qed.

Lemma horner_value (d : Decimal.uint) (acc : N) :
  Facts.horner d acc
  = (DecimalPos.Unsigned.of_lu (Decimal.rev d)
     + acc * 10 ^ DecimalPos.Unsigned.usize d)%N.
Proof.
  revert acc.
  induction d; intros acc; cbn [Facts.horner DecimalPos.Unsigned.usize];
    [unfold Decimal.rev; cbn; lia|..];
    rewrite IHd, N.pow_succ_r';
    match goal with
    | |- context [Decimal.rev (?f d)] =>
        change (Decimal.rev (f d)) with (Decimal.revapp d (f Decimal.Nil));
        rewrite (DecimalPos.Unsigned.of_lu_revapp d (f Decimal.Nil))
    end;
    cbn [DecimalPos.Unsigned.of_lu]; lia.
Qed.

Lemma horner_numeral (n : N) : Facts.horner (N.to_uint n) 0 = n.
Proof.
  rewrite horner_value, N.mul_0_l, N.add_0_r.
  rewrite <- DecimalPos.Unsigned.of_uint_alt.
  apply DecimalN.Unsigned.of_to.
Qed.

Lemma non_decimal_digits (c x : ascii) (r : list ascii) :
  Facts.is_digit x = true -> non_decimal (c :: x :: r) = None.
Proof.
  intros Hx. destruct (is_digit_facts x Hx)
    as (_ & _ & _ & _ & _ & H1 & H2 & H3 & H4 & H5 & H6 & _).
  unfold non_decimal. rewrite H1, H2, H3, H4, H5, H6. simpl.
  by rewrite andb_false_r.
Qed.

(** The numeral of a positive integer below [2 ^ 53] is read as that
    integer. *)
Lemma StringToNumber_numeral (n : N) :
  (0 < n < 2 ^ 53)%N ->
  StringToNumber (Facts.numeral n) = Fin (inject_Z (Z.of_N n)).
Proof.
  intros Hn. unfold Facts.numeral.
  assert (N.to_uint n <> Decimal.Nil) as Hnil.
  { destruct n as [|p]; [lia|]. apply DecimalPos.Unsigned.to_uint_nonnil. }
  pose proof (horner_numeral n) as Hval.
  pose proof (read_digits_numeral (N.to_uint n) 0 0) as Hread.
  pose proof (digits_are_digits (N.to_uint n)) as Hdig.
  rewrite Hval in Hread.
  assert (DecimalString.NilZero.string_of_uint (N.to_uint n)
          = DecimalString.NilEmpty.string_of_uint (N.to_uint n)) as ->
    by (by destruct (N.to_uint n)).
  unfold StringToNumber. fold (Facts.digits (N.to_uint n)).
  rewrite trim_chars_id.
  2:{ intros c Hc. eapply is_digit_facts, forallb_elem; eauto. }
  destruct (Facts.digits (N.to_uint n)) as [|c r] eqn:Hl.
  { unfold Facts.digits in Hl. destruct (N.to_uint n); simpl in Hl; congruence. }
  cbn [forallb] in Hdig. apply andb_prop in Hdig as [Hc Hr].
  destruct (is_digit_facts c Hc) as (_ & _ & Hplus & Hminus & _ & _ & _ & _ & _ & _ & _ & HI).
  assert (non_decimal (c :: r) = None) as ->.
  { destruct r as [|x r']; [reflexivity|].
    cbn [forallb] in Hr. apply andb_prop in Hr as [Hx _].
    by apply non_decimal_digits. }
  rewrite Hplus, Hminus. unfold unsigned_decimal.
  assert (String.eqb (string_of_list_ascii (c :: r)) "Infinity" = false) as ->
    by (simpl; by rewrite HI).
  rewrite Hread. cbn [length Nat.add]. rewrite Nat.add_0_r.
  cbn [exponent_part]. unfold decimal_value.
  assert ((n =? 0)%N = false) as -> by (apply N.eqb_neq; lia).
  change (0 - Z.of_nat 0) with 0.
  change (310 <? 0) with false. cbn iota.
  assert ((0 + Z.of_nat (S (length r)) <? -330) = false) as ->
    by (apply Z.ltb_ge; lia).
  change (0 <=? 0) with true. cbn iota.
  rewrite Z.pow_0_r, Z.mul_1_r. apply binary64_exact.
  change (2 ^ 53)%N with (Z.to_N (2 ^ 53)) in Hn. lia.
Qed.

Lemma isInteger_value (q : Q) :
  isInteger q = true -> (q == inject_Z (Qnum (Qred q)))%Q.
Proof.
  unfold isInteger. intros H. apply Pos.eqb_eq in H.
  rewrite <- (Qred_correct q) at 1. destruct (Qred q) as [a b]. simpl in *.
  by subst b.
Qed.

(** X20: the identifier schema yields positive integers only, and reads
    decimal numerals exactly: whenever it accepts, the [id] it yields is the
    value of a positive integer, and for every integer [n] from 1 to
    [2 ^ 53 - 1] the path parameter written as the decimal numeral of [n]
    is accepted with [id] equal to [n]. *)
Theorem identifier_schema_reads_numerals locale (req : Request) :
  (forall idData,
     Zod.safeParse locale Validation.userIdSchema (Controller.params_object req)
     = Zod.Success idData ->
     exists z : Z, 0 < z /\ (Validation.id idData == inject_Z z)%Q)
  /\ (forall n : N,
        (0 < n < 2 ^ 53)%N ->
        params req !! "id" = Some (Facts.numeral n) ->
        Zod.safeParse locale Validation.userIdSchema (Controller.params_object req)
        = Zod.Success (Validation.mkIdParams (inject_Z (Z.of_N n)))).
Proof.
  pose proof (userIdSchema_verdict locale (JStr <$> params req)) as V.
  split.
  - intros idData Hok. unfold Controller.params_object in Hok.
    unfold Spec.id_verdict in V.
    destruct (Number _) as [| |q]; try (destruct V as (? & ? & V & _); congruence).
    destruct (isSafeInteger q && negb (Qle_bool q 0)) eqn:E;
      [|destruct V as (? & ? & V & _); congruence].
    rewrite V in Hok. injection Hok as <-. simpl.
    apply andb_prop in E as [Hsafe Hpos]. unfold isSafeInteger in Hsafe.
    apply andb_prop in Hsafe as [Hsafe _]. apply andb_prop in Hsafe as [Hint _].
    exists (Qnum (Qred q)). split; [|by apply isInteger_value].
    apply negb_true_iff in Hpos.
    destruct (Qle_bool q 0) eqn:Hle; [discriminate|].
    assert (~ (q <= 0)%Q) as Hnle by (rewrite <- Qle_bool_iff; congruence).
    rewrite (isInteger_value q Hint) in Hnle.
    unfold Qle, inject_Z in Hnle. simpl in Hnle. lia.
  - intros n Hn Hid. unfold Controller.params_object.
    rewrite lookup_fmap, Hid in V.
    cbn -[Facts.numeral StringToNumber Spec.id_verdict Zod.safeParse] in V.
    rewrite (StringToNumber_numeral n Hn) in V.
    unfold Spec.id_verdict in V.
    assert (isSafeInteger (inject_Z (Z.of_N n)) && negb (Qle_bool (inject_Z (Z.of_N n)) 0)
            = true) as E; [|by rewrite E in V].
    unfold isSafeInteger. rewrite isInteger_inject_Z. cbn [andb].
    assert (0 < Z.of_N n <= MAX_SAFE_INTEGER) as Hz.
    { unfold MAX_SAFE_INTEGER. change (2 ^ 53)%N with (Z.to_N (2 ^ 53)) in Hn. lia. }
    rewrite !andb_true_iff, negb_true_iff. repeat split.
    + apply Qle_bool_iff. unfold Qle, inject_Z. simpl. lia.
    + apply Qle_bool_iff. unfold Qle, inject_Z. simpl. lia.
    + destruct (Qle_bool (inject_Z (Z.of_N n)) 0) eqn:Hle; [|reflexivity].
      apply Qle_bool_iff in Hle. unfold Qle, inject_Z in Hle. simpl in Hle. lia.
Qed.

Lemma identifier_schema_reads_numerals_witness :
  (exists z : Z, 0 < z /\ (Validation.id (Validation.mkIdParams 16) == inject_Z z)%Q)
  /\ Zod.safeParse Sample.en Validation.userIdSchema
       (Controller.params_object (Sample.request None "9007199254740991" JUndefined))
     = Zod.Success (Validation.mkIdParams (inject_Z 9007199254740991)).
Proof.
  split.
  - apply (proj1 (identifier_schema_reads_numerals Sample.en
                    (Sample.request None "0x10" JUndefined))).
    vm_compute. reflexivity.
  - apply (proj2 (identifier_schema_reads_numerals Sample.en
                    (Sample.request None "9007199254740991" JUndefined))
             9007199254740991%N).
    + vm_compute. split; reflexivity.
    + vm_compute. reflexivity.
Defined.

Lemma matching_unique_row (l : list Model.User) (u : Model.User) :
  NoDup (map Model.id l) -> u ∈ l ->
  Spec.matching (inject_Z (Model.id u)) l = [u].
Proof.
  unfold Spec.matching. intros Hnd Hin.
  induction l as [|r l IH]; [by apply elem_of_nil in Hin|].
  cbn [map] in Hnd. apply NoDup_cons in Hnd as [Hr Hnd].
  rewrite filter_cons.
  apply elem_of_cons in Hin as [->|Hin].
  - rewrite decide_True by (unfold eq_id; apply Qeq_bool_iff; reflexivity).
    f_equal. clear IH. induction l as [|r' l IH]; [reflexivity|].
    cbn [map] in Hr, Hnd. apply not_elem_of_cons in Hr as [Hne Hr].
    apply NoDup_cons in Hnd as [_ Hnd].
    rewrite filter_cons_False; [by apply IH|].
    unfold eq_id. rewrite Qeq_bool_iff, inject_Z_injective. congruence.
  - rewrite decide_False; [by apply IH|].
    unfold eq_id. rewrite Qeq_bool_iff, inject_Z_injective.
    intros Heq. apply Hr. rewrite Heq. apply list_elem_of_fmap. by exists u.
Qed.

(** X21: a record is found under the decimal numeral of its [id]: when the
    ids of the table are unique, [GET /users/n] behind a verified token, with
    [n] the numeral of the id of a row (from 1 to [2 ^ 53 - 1]), is answered
    200 with the public columns of exactly that row. *)
Theorem a_record_is_found_under_its_numeral verify locale (req : Request)
    (w : World) (decoded : jsval) (u : Model.User) :
  truthy (Spec.token_cookie req) = true ->
  verify (Spec.token_cookie req) = Ok decoded ->
  NoDup (map Model.id (rows w)) -> u ∈ rows w ->
  0 < Model.id u < 2 ^ 53 ->
  params req !! "id" = Some (Facts.numeral (Z.to_N (Model.id u))) ->
  Routes.dispatch (Routes.get_user_by_id verify locale) req w
  = (Ok (Reply 200 (obj [("message", JStr "User retrieved successfully");
                         ("user", project Service.public_columns u)])),
     mkWorld (rows w) (statements w ++ [Select (Some (inject_Z (Model.id u)))])
             (now w)).
Proof.
  intros Htok Hver Hnd Hin Hid Hparam.
  unfold Routes.get_user_by_id.
  rewrite dispatch_authenticated, Htok, Hver, dispatch_last, fetchUserById_run.
  change (Controller.params_object (Facts.with_user req decoded))
    with (Controller.params_object req).
  pose proof (userIdSchema_verdict locale (JStr <$> params req)) as V.
  rewrite lookup_fmap, Hparam in V.
  cbn -[Facts.numeral StringToNumber Spec.id_verdict Zod.safeParse] in V.
  rewrite StringToNumber_numeral in V
    by (change (2 ^ 53)%N with (Z.to_N (2 ^ 53)); lia).
  rewrite Z2N.id in V by lia.
  unfold Spec.id_verdict in V.
  assert (isSafeInteger (inject_Z (Model.id u))
          && negb (Qle_bool (inject_Z (Model.id u)) 0) = true) as E.
  { unfold isSafeInteger. rewrite isInteger_inject_Z. cbn [andb].
    rewrite !andb_true_iff, negb_true_iff. unfold MAX_SAFE_INTEGER. repeat split.
    + apply Qle_bool_iff. unfold Qle, inject_Z. simpl. lia.
    + apply Qle_bool_iff. unfold Qle, inject_Z. simpl. lia.
    + destruct (Qle_bool (inject_Z (Model.id u)) 0) eqn:Hle; [|reflexivity].
      apply Qle_bool_iff in Hle. unfold Qle, inject_Z in Hle. simpl in Hle. lia. }
  rewrite E in V. unfold Controller.params_object. rewrite V.
  cbn [Validation.id].
  rewrite getUserById_run, (matching_unique_row _ _ Hnd Hin).
  by rewrite (integer_param_matching _ _ _ _ (matching_unique_row _ _ Hnd Hin)).
Qed.

Lemma a_record_is_found_under_its_numeral_witness :
  Routes.dispatch (Routes.get_user_by_id Sample.verify Sample.en)
    (Sample.request (Some "token-of-user-5") "7" JUndefined) Sample.world
  = (Ok (Reply 200 (obj [("message", JStr "User retrieved successfully");
                         ("user", project Service.public_columns Sample.carol)])),
     mkWorld (rows Sample.world) [Select (Some 7%Q)] 5000).
Proof.
  apply (a_record_is_found_under_its_numeral Sample.verify Sample.en
           (Sample.request (Some "token-of-user-5") "7" JUndefined) Sample.world
           (Sample.claim 5 "user") Sample.carol); try reflexivity.
  - apply (bool_decide_eq_true_1 (NoDup _)). vm_compute. reflexivity.
  - do 2 right. left.
  - vm_compute. split; reflexivity.
Defined.
